(** * Swarm agent platform: the database layer and its tRPC routers

    A shallow embedding of [server/db.ts] (both revisions found in the
    repository) and of the router procedures of [server/routers.ts] that
    call it, followed by the properties of the orchestration and
    consensus specification that can be decided on that code.

    Modelling conventions.
    - A JavaScript [number] that the code computes with (the counters
      and rates of an agent, the hours of a metrics window) is an IEEE
      754 double: the kernel's [float], whose operations round to
      nearest, ties to even, as JavaScript's do, and which has the
      infinities, the two zeros and NaN.  A [number] that the code only
      stores, returns or tests for 0 (a priority, a confidence, a
      measurement) is kept as a rational ([Q]).
    - An optional field [f?: T] is [option T]; [None] is [undefined].
    - A table is the list of its rows in insertion order.  The primary
      key is enforced on insert, as MySQL does.
    - An [async] function is a state transformer over the process state
      (the cached handle [_db], the environment, the console and the
      tables) that either returns a value or throws; effects performed
      before a throw persist, which is why the error is kept beside the
      state and not in place of it.
    - [nanoid()] and [new Date()] are inputs of the operation that calls
      them; the calls of [new Date()] within one operation read the same
      instant.
    - A statement sent through a live handle fails only on a duplicate
      primary key. *)

From Stdlib Require Import List String ZArith QArith Qminmax Qround Bool Lia.
From Stdlib Require Import Floats.
Import ListNotations.

Open Scope string_scope.
Open Scope list_scope.

(** ** JavaScript values *)

#[local] Set Warnings "-register-all".

Inductive Json : Type :=
| JNull
| JBool (b : bool)
| JNum (q : Q)
| JStr (s : string)
| JArr (items : list Json)
| JObj (fields : list (string * Json)).

Definition Time := Z.

(** [x || d] on numbers: 0 and [undefined] are falsy. *)
Definition num_or (x : option Q) (d : Q) : Q :=
  match x with
  | Some q => if Qeq_bool q 0 then d else q
  | None => d
  end.

(** *** Doubles *)

Definition number := float.

(** Truthiness of a double: [0], [-0] and [NaN] are falsy. *)
Definition truthy_number (x : number) : bool :=
  negb (is_zero x || is_nan x).

(** [x || d] on doubles. *)
Definition number_or (x : option number) (d : number) : number :=
  match x with
  | Some n => if truthy_number n then n else d
  | None => d
  end.

(** [Math.min] and [Math.max] of two doubles: NaN if either is NaN; of
    the two zeros, [-0] is the smaller. *)
Definition Math_min (a b : number) : number :=
  if is_nan a || is_nan b then nan
  else if (a <? b)%float then a
  else if (b <? a)%float then b
  else if get_sign a then a else b.

Definition Math_max (a b : number) : number :=
  if is_nan a || is_nan b then nan
  else if (a <? b)%float then b
  else if (b <? a)%float then a
  else if get_sign a then b else a.

Arguments number_or x d%_float_scope.
Arguments Math_min (a b)%_float_scope.
Arguments Math_max (a b)%_float_scope.

(** The double nearest to an integer, as [Date.now()] and the time
    value of a [Date] are. *)
Definition number_of_Z (z : Z) : number :=
  SF2Prim (binary_normalize prec emax z 0 false).

(** The integral part of a finite double (truncation towards zero). *)
Definition truncate (x : number) : option Z :=
  match Prim2SF x with
  | S754_zero _ => Some 0%Z
  | S754_finite sign m e =>
      let magnitude :=
        if (0 <=? e)%Z then Z.shiftl (Z.pos m) e
        else Z.shiftr (Z.pos m) (- e) in
      Some (if sign then (- magnitude)%Z else magnitude)
  | S754_infinity _ | S754_nan => None
  end.

(** [new Date(x)]: the time value is the integral part of [x], and the
    date is invalid ([None]) when [x] is not finite or lies more than
    8.64e15 ms from the epoch. *)
Definition time_clip (x : number) : option Time :=
  match truncate x with
  | Some t => if (8640000000000000 <? Z.abs t)%Z then None else Some t
  | None => None
  end.

(** [x || d] on strings: the empty string and [undefined] are falsy. *)
Definition str_or (x : option string) (d : string) : string :=
  match x with
  | Some s => if (s =? "")%string then d else s
  | None => d
  end.

Definition truthy_str (x : option string) : bool :=
  match x with
  | Some s => negb (s =? "")%string
  | None => false
  end.

(** Truthiness of an [any] value. *)
Definition truthy (x : option Json) : bool :=
  match x with
  | None | Some JNull => false
  | Some (JBool b) => b
  | Some (JNum q) => negb (Qeq_bool q 0)
  | Some (JStr s) => negb (s =? "")%string
  | Some (JArr _) | Some (JObj _) => true
  end.

(** [x || d] on an [any] value. *)
Definition any_or (x : option Json) (d : Json) : Json :=
  match x with
  | Some v => if truthy x then v else d
  | None => d
  end.

(** Field access [o.k] on a JSON object. *)
Fixpoint assoc (k : string) (fields : list (string * Json)) : option Json :=
  match fields with
  | [] => None
  | (k', v) :: rest => if (k =? k')%string then Some v else assoc k rest
  end.

Definition field (k : string) (o : Json) : option Json :=
  match o with
  | JObj fields => assoc k fields
  | _ => None
  end.

(** ** Asynchronous computations over the process state *)

Inductive Exn : Type :=
| Error (message : string)
| TRPCError (code : string).

Inductive Completion (A : Type) : Type :=
| Returned (a : A)
| Thrown (e : Exn).
Arguments Returned {A} a.
Arguments Thrown {A} e.

Inductive ConsoleLine : Type :=
| Warn (text : string)
| Err (text : string).

Section Process.
(** [T] is the set of tables behind the connection. *)
Variable T : Type.

Record Runtime : Type := mkRuntime {
  _db : bool;                    (* the cached handle is non-null *)
  DATABASE_URL : option string;  (* process.env.DATABASE_URL *)
  drizzle_throws : bool;         (* drizzle(url) throws *)
  console : list ConsoleLine;
  tables : T
}.

Definition Async (A : Type) : Type := Runtime -> Completion A * Runtime.

Definition ret {A} (a : A) : Async A := fun w => (Returned a, w).

Definition bind {A B} (c : Async A) (k : A -> Async B) : Async B :=
  fun w =>
    match c w with
    | (Returned a, w') => k a w'
    | (Thrown e, w') => (Thrown e, w')
    end.

Definition throw {A} (e : Exn) : Async A := fun w => (Thrown e, w).

Definition try_catch {A} (c : Async A) (handler : Exn -> Async A) : Async A :=
  fun w =>
    match c w with
    | (Returned a, w') => (Returned a, w')
    | (Thrown e, w') => handler e w'
    end.

Definition with_console (w : Runtime) (c : list ConsoleLine) : Runtime :=
  mkRuntime (_db w) (DATABASE_URL w) (drizzle_throws w) c (tables w).

Definition with_db (w : Runtime) (b : bool) : Runtime :=
  mkRuntime b (DATABASE_URL w) (drizzle_throws w) (console w) (tables w).

Definition with_tables (w : Runtime) (t : T) : Runtime :=
  mkRuntime (_db w) (DATABASE_URL w) (drizzle_throws w) (console w) t.

Definition log (l : ConsoleLine) : Async unit :=
  fun w => (Returned tt, with_console w (console w ++ [l])).

Definition set_db (b : bool) : Async unit :=
  fun w => (Returned tt, with_db w b).

Definition read {A} (f : T -> A) : Async A :=
  fun w => (Returned (f (tables w)), w).

(** A statement sent to the driver: it yields the new tables or the
    driver's error, in which case nothing is written. *)
Definition execute (stmt : T -> Completion T) : Async unit :=
  fun w =>
    match stmt (tables w) with
    | Returned t' => (Returned tt, with_tables w t')
    | Thrown e => (Thrown e, w)
    end.

(** [getDb]: lazily create the drizzle instance. *)
Definition getDb : Async bool :=
  fun w =>
    if negb (_db w) && truthy_str (DATABASE_URL w) then
      if drizzle_throws w then
        bind (log (Warn "[Database] Failed to connect:"))
             (fun _ => bind (set_db false) (fun _ => ret false)) w
      else
        bind (set_db true) (fun _ => ret true) w
    else ret (_db w) w.

End Process.

Arguments mkRuntime {T}.
Arguments _db {T}.
Arguments DATABASE_URL {T}.
Arguments drizzle_throws {T}.
Arguments console {T}.
Arguments tables {T}.
Arguments with_console {T}.
Arguments with_db {T}.
Arguments with_tables {T}.
Arguments ret {T A}.
Arguments bind {T A B}.
Arguments throw {T A}.
Arguments try_catch {T A}.
Arguments log {T}.
Arguments read {T A}.
Arguments execute {T}.
Arguments getDb {T}.

Declare Scope async_scope.
Delimit Scope async_scope with async.
Notation "x <- c ;; k" := (bind c (fun x => k))
  (at level 100, c at next level, right associativity) : async_scope.
Notation "c ;; k" := (bind c (fun _ => k))
  (at level 100, right associativity) : async_scope.
Open Scope async_scope.

(** A computation leaves a part [proj] of the tables as it was,
    whether it returns or throws. *)
Definition frames {T X A} (proj : T -> X) (c : Async T A) : Prop :=
  forall w, proj (tables (snd (c w))) = proj (tables w).

(** ** Tables *)

Section Table.
Context {R : Type}.
Variable key : R -> string.

Definition has_key (k : string) (rows : list R) : bool :=
  existsb (fun r => (key r =? k)%string) rows.

(** [insert into t values r] under a primary key. *)
Definition insert_row (r : R) (rows : list R) : Completion (list R) :=
  if has_key (key r) rows
  then Thrown (Error "ER_DUP_ENTRY")
  else Returned (rows ++ [r]).

(** [update t set ... where p]. *)
Definition update_where (p : R -> bool) (f : R -> R) (rows : list R) : list R :=
  map (fun r => if p r then f r else r) rows.

(** [select * from t where p]. *)
Definition select_where (p : R -> bool) (rows : list R) : list R :=
  filter p rows.

(** [result.length > 0 ? result[0] : undefined] *)
Definition first_or_undefined (result : list R) : option R :=
  match result with
  | r :: _ => Some r
  | [] => None
  end.
End Table.

(** An update statement never fails at the driver. *)
Definition updating {R} (f : list R -> list R) : list R -> Completion (list R) :=
  fun rows => Returned (f rows).

Definition DB_UNAVAILABLE : Exn := Error "Database not available".


(** [{ id, ...data }], the object a create operation returns. *)
Record Created (A : Type) : Type := mkCreated { id : string; data : A }.
Arguments mkCreated {A}.
Arguments id {A}.
Arguments data {A}.

(** A field that may be missing, [null] or set. *)
Inductive Nullable (A : Type) : Type :=
| Undefined
| Null
| Val (a : A).
Arguments Undefined {A}.
Arguments Null {A}.
Arguments Val {A} a.

(** * First revision of [server/db.ts] (tables [agents], [agent_messages], ...) *)

Module Rev1.

(** ** Enumerations *)

Inductive Role := RoleUser | RoleAdmin.
Inductive AgentType := Reasoning | Execution | Coordination | Analysis.
Inductive AgentStatus := AgentActive | AgentInactive | AgentError | AgentMaintenance.
Inductive Pattern := Hierarchical | Sequential | Concurrent | RoundRobin | Mesh.
Inductive WorkflowStatus := Draft | WorkflowActive | Paused | Archived.
Inductive TaskStatus := Pending | Running | Completed | Failed | Timeout.
Inductive ConsensusMethod := Voting | Judge | MixtureOfAgents | NoConsensus.
Inductive MessageType := Request | Response | StatusUpdate | MessageError | Broadcast.
Inductive DeliveryStatus :=
  DeliveryPending | Delivered | Acknowledged | DeliveryFailed.
Inductive EventType :=
  EvExecution | EvDecision | EvError | EvMetric | EvStateChange.
Inductive Level := Debug | Info | Warning | LevelError | Critical.
Inductive AlertType :=
  AgentFailure | TaskTimeout | SystemError | TaskCompletion | PerformanceDegradation.
Inductive Severity := SevInfo | SevWarning | SevCritical.

Definition agent_status_name (s : AgentStatus) : string :=
  match s with
  | AgentActive => "active" | AgentInactive => "inactive"
  | AgentError => "error" | AgentMaintenance => "maintenance"
  end.

Definition agent_type_name (t : AgentType) : string :=
  match t with
  | Reasoning => "reasoning" | Execution => "execution"
  | Coordination => "coordination" | Analysis => "analysis"
  end.

Definition workflow_status_name (s : WorkflowStatus) : string :=
  match s with
  | Draft => "draft" | WorkflowActive => "active"
  | Paused => "paused" | Archived => "archived"
  end.

(** [["completed", "failed", "timeout"].includes(status)] *)
Definition terminal (s : TaskStatus) : bool :=
  match s with
  | Completed | Failed | Timeout => true
  | Pending | Running => false
  end.

(** ** Rows *)

Record User := mkUser {
  user_openId : string;
  user_name : option string;
  user_email : option string;
  user_loginMethod : option string;
  user_role : Role;
  user_lastSignedIn : Time
}.

Record Agent := mkAgent {
  agent_id : string;
  agent_name : string;
  agent_type : AgentType;
  agent_description : option string;
  agent_capabilities : list string;
  agent_llmModel : option string;
  agent_parameters : option Json;
  agent_integrationFramework : option string;
  agent_version : string;
  agent_status : AgentStatus;
  agent_healthScore : option number;
  agent_successRate : option number;
  agent_totalExecutions : option number;
  agent_failedExecutions : option number;
  agent_createdAt : Time;
  agent_updatedAt : Time
}.

Record Workflow := mkWorkflow {
  workflow_id : string;
  workflow_name : string;
  workflow_description : option string;
  workflow_orchestrationPattern : Pattern;
  workflow_nodes : option (list Json);
  workflow_edges : option (list Json);
  workflow_configuration : option Json;
  workflow_status : WorkflowStatus;
  workflow_templateId : option string;
  workflow_createdAt : Time;
  workflow_updatedAt : Time
}.

Record Task := mkTask {
  task_id : string;
  task_workflowId : string;
  task_input : option Json;
  task_assignedAgents : option (list string);
  task_priority : Q;
  task_status : TaskStatus;
  task_consensusMethod : ConsensusMethod;
  task_createdAt : Time;
  task_retryCount : Z;
  task_result : option Json;
  task_startedAt : option Time;
  task_completedAt : option Time
}.

Record Message := mkMessage {
  message_id : string;
  message_senderId : string;
  message_recipientId : option string;
  message_taskId : option string;
  message_messageType : MessageType;
  message_content : Json;
  message_timestamp : Time;
  message_deliveryStatus : DeliveryStatus;
  message_metadata : option Json
}.

Record ExecutionLog := mkExecutionLog {
  log_id : string;
  log_taskId : string;
  log_agentId : string;
  log_eventType : EventType;
  log_level : Level;
  log_message : option string;
  log_metadata : option Json;
  log_timestamp : Time
}.

Record Alert := mkAlert {
  alert_id : string;
  alert_alertType : AlertType;
  alert_severity : Severity;
  alert_title : string;
  alert_message : option string;
  alert_relatedAgentId : option string;
  alert_relatedTaskId : option string;
  alert_isResolved : bool;
  alert_createdAt : Time
}.

Record Metric := mkMetric {
  metric_id : string;
  metric_agentId : string;
  metric_taskId : option string;
  metric_executionTime : option Q;
  metric_tokenUsage : option Q;
  metric_estimatedCost : option Q;
  metric_successFlag : option bool;
  metric_timestamp : option Time
}.

(** The three tables below are only ever read; the columns kept are the
    ones a query of this file looks at. *)
Record Template := mkTemplate {
  template_id : string;
  template_category : string
}.

Record Integration := mkIntegration {
  integration_id : string;
  integration_framework : string;
  integration_isActive : bool
}.

Record Provider := mkProvider {
  provider_id : string;
  provider_isDefault : bool;
  provider_isActive : bool
}.

Record Tables := mkTables {
  users : list User;
  agents : list Agent;
  workflows : list Workflow;
  tasks : list Task;
  agentMessages : list Message;
  executionLogs : list ExecutionLog;
  systemAlerts : list Alert;
  agentMetrics : list Metric;
  workflowTemplates : list Template;
  integrationModules : list Integration;
  llmProviders : list Provider
}.

Definition empty : Tables := mkTables [] [] [] [] [] [] [] [] [] [] [].

(** A statement on one table. *)
Definition on_users (f : list User -> Completion (list User)) (t : Tables)
  : Completion Tables :=
  match f (users t) with
  | Returned x =>
      Returned (mkTables x (agents t) (workflows t) (tasks t) (agentMessages t)
                  (executionLogs t) (systemAlerts t) (agentMetrics t)
                  (workflowTemplates t) (integrationModules t) (llmProviders t))
  | Thrown e => Thrown e
  end.

Definition on_agents (f : list Agent -> Completion (list Agent)) (t : Tables)
  : Completion Tables :=
  match f (agents t) with
  | Returned x =>
      Returned (mkTables (users t) x (workflows t) (tasks t) (agentMessages t)
                  (executionLogs t) (systemAlerts t) (agentMetrics t)
                  (workflowTemplates t) (integrationModules t) (llmProviders t))
  | Thrown e => Thrown e
  end.

Definition on_workflows (f : list Workflow -> Completion (list Workflow))
  (t : Tables) : Completion Tables :=
  match f (workflows t) with
  | Returned x =>
      Returned (mkTables (users t) (agents t) x (tasks t) (agentMessages t)
                  (executionLogs t) (systemAlerts t) (agentMetrics t)
                  (workflowTemplates t) (integrationModules t) (llmProviders t))
  | Thrown e => Thrown e
  end.

Definition on_tasks (f : list Task -> Completion (list Task)) (t : Tables)
  : Completion Tables :=
  match f (tasks t) with
  | Returned x =>
      Returned (mkTables (users t) (agents t) (workflows t) x (agentMessages t)
                  (executionLogs t) (systemAlerts t) (agentMetrics t)
                  (workflowTemplates t) (integrationModules t) (llmProviders t))
  | Thrown e => Thrown e
  end.

Definition on_agentMessages (f : list Message -> Completion (list Message))
  (t : Tables) : Completion Tables :=
  match f (agentMessages t) with
  | Returned x =>
      Returned (mkTables (users t) (agents t) (workflows t) (tasks t) x
                  (executionLogs t) (systemAlerts t) (agentMetrics t)
                  (workflowTemplates t) (integrationModules t) (llmProviders t))
  | Thrown e => Thrown e
  end.

Definition on_executionLogs
  (f : list ExecutionLog -> Completion (list ExecutionLog)) (t : Tables)
  : Completion Tables :=
  match f (executionLogs t) with
  | Returned x =>
      Returned (mkTables (users t) (agents t) (workflows t) (tasks t)
                  (agentMessages t) x (systemAlerts t) (agentMetrics t)
                  (workflowTemplates t) (integrationModules t) (llmProviders t))
  | Thrown e => Thrown e
  end.

Definition on_systemAlerts (f : list Alert -> Completion (list Alert))
  (t : Tables) : Completion Tables :=
  match f (systemAlerts t) with
  | Returned x =>
      Returned (mkTables (users t) (agents t) (workflows t) (tasks t)
                  (agentMessages t) (executionLogs t) x (agentMetrics t)
                  (workflowTemplates t) (integrationModules t) (llmProviders t))
  | Thrown e => Thrown e
  end.

Definition on_agentMetrics (f : list Metric -> Completion (list Metric))
  (t : Tables) : Completion Tables :=
  match f (agentMetrics t) with
  | Returned x =>
      Returned (mkTables (users t) (agents t) (workflows t) (tasks t)
                  (agentMessages t) (executionLogs t) (systemAlerts t) x
                  (workflowTemplates t) (integrationModules t) (llmProviders t))
  | Thrown e => Thrown e
  end.

Definition DB := Async Tables.

(** ** User operations *)

Record InsertUser := mkInsertUser {
  iu_openId : string;
  iu_name : Nullable string;
  iu_email : Nullable string;
  iu_loginMethod : Nullable string;
  iu_lastSignedIn : option Time;
  iu_role : option Role
}.

(** The [updateSet] object: a key is present when its field is not
    [Undefined] (resp. [None]). *)
Record UpdateSet := mkUpdateSet {
  us_name : Nullable string;
  us_email : Nullable string;
  us_loginMethod : Nullable string;
  us_lastSignedIn : option Time;
  us_role : option Role
}.

(** [Object.keys(updateSet).length === 0] *)
Definition no_keys (u : UpdateSet) : bool :=
  match us_name u, us_email u, us_loginMethod u, us_lastSignedIn u, us_role u with
  | Undefined, Undefined, Undefined, None, None => true
  | _, _, _, _, _ => false
  end.

Definition column {A} (x : Nullable A) : option A :=
  match x with
  | Val a => Some a
  | Null | Undefined => None
  end.

Definition assign {A} (x : Nullable A) (old : option A) : option A :=
  match x with
  | Undefined => old
  | Null => None
  | Val a => Some a
  end.

Definition apply_set (u : UpdateSet) (r : User) : User :=
  mkUser (user_openId r)
         (assign (us_name u) (user_name r))
         (assign (us_email u) (user_email r))
         (assign (us_loginMethod u) (user_loginMethod r))
         (match us_role u with Some x => x | None => user_role r end)
         (match us_lastSignedIn u with Some x => x | None => user_lastSignedIn r end).

(** [insert ... on duplicate key update], the key being [openId]. *)
Definition upsert_row (values : User) (u : UpdateSet) (rows : list User)
  : list User :=
  if has_key user_openId (user_openId values) rows
  then update_where (fun r => (user_openId r =? user_openId values)%string)
                    (apply_set u) rows
  else rows ++ [values].

(** [ownerOpenId] is [ENV.ownerOpenId], defined outside this file. *)
Definition upsertUser (ownerOpenId : string) (now : Time) (user : InsertUser)
  : DB unit :=
  if (iu_openId user =? "")%string
  then throw (Error "User openId is required for upsert")
  else
    db <- getDb ;;
    if negb db then
      log (Warn "[Database] Cannot upsert user: database not available") ;;
      ret tt
    else
      try_catch
        (let role :=
           match iu_role user with
           | Some r => Some r
           | None =>
               if (iu_openId user =? ownerOpenId)%string
               then Some RoleAdmin else None
           end in
         let updateSet :=
           mkUpdateSet (iu_name user) (iu_email user) (iu_loginMethod user)
                       (iu_lastSignedIn user) role in
         let lastSignedIn :=
           match iu_lastSignedIn user with Some d => d | None => now end in
         let updateSet :=
           if no_keys updateSet
           then mkUpdateSet Undefined Undefined Undefined (Some now) None
           else updateSet in
         let values :=
           mkUser (iu_openId user) (column (iu_name user))
                  (column (iu_email user)) (column (iu_loginMethod user))
                  (match role with Some r => r | None => RoleUser end)
                  lastSignedIn in
         execute (on_users (updating (upsert_row values updateSet))))
        (fun error =>
           log (Err "[Database] Failed to upsert user:") ;; throw error).

Definition getUserByOpenId (openId : string) : DB (option User) :=
  db <- getDb ;;
  if negb db then
    log (Warn "[Database] Cannot get user: database not available") ;;
    ret None
  else
    result <- read (fun t =>
      firstn 1 (select_where (fun u => (user_openId u =? openId)%string)
                             (users t))) ;;
    ret (first_or_undefined result).

(** ** Agent registry operations *)

Record AgentData := mkAgentData {
  ad_name : string;
  ad_type : AgentType;
  ad_description : option string;
  ad_capabilities : option (list string);
  ad_llmModel : option string;
  ad_parameters : option Json;
  ad_integrationFramework : option string;
  ad_version : option string
}.

Definition createAgent (nanoid : string) (now : Time) (agentData : AgentData)
  : DB (Created AgentData) :=
  db <- getDb ;;
  if negb db then throw DB_UNAVAILABLE
  else
    let id := nanoid in
    try_catch
      (execute (on_agents (insert_row agent_id
         (mkAgent id (ad_name agentData) (ad_type agentData)
                  (ad_description agentData)
                  (match ad_capabilities agentData with
                   | Some c => c | None => [] end)
                  (ad_llmModel agentData) (ad_parameters agentData)
                  (ad_integrationFramework agentData)
                  (str_or (ad_version agentData) "1.0.0")
                  AgentActive (Some 100%float) (Some 100%float)
                  (Some 0%float) (Some 0%float)
                  now now))) ;;
       ret (mkCreated id agentData))
      (fun error =>
         log (Err "[Database] Failed to create agent:") ;; throw error).

Definition getAgent (agentId : string) : DB (option Agent) :=
  db <- getDb ;;
  if negb db then ret None
  else
    result <- read (fun t =>
      firstn 1 (select_where (fun a => (agent_id a =? agentId)%string)
                             (agents t))) ;;
    ret (first_or_undefined result).

Record AgentFilters := mkAgentFilters {
  af_status : option string;
  af_type : option string
}.

Definition listAgents (filters : option AgentFilters) : DB (list Agent) :=
  db <- getDb ;;
  if negb db then ret []
  else
    match filters with
    | Some f =>
        if truthy_str (af_status f) then
          read (fun t => select_where
            (fun a => (agent_status_name (agent_status a)
                       =? str_or (af_status f) "")%string) (agents t))
        else if truthy_str (af_type f) then
          read (fun t => select_where
            (fun a => (agent_type_name (agent_type a)
                       =? str_or (af_type f) "")%string) (agents t))
        else read agents
    | None => read agents
    end.

Definition set_agent_status (status : AgentStatus) (now : Time) (a : Agent)
  : Agent :=
  mkAgent (agent_id a) (agent_name a) (agent_type a) (agent_description a)
          (agent_capabilities a) (agent_llmModel a) (agent_parameters a)
          (agent_integrationFramework a) (agent_version a)
          status
          (agent_healthScore a) (agent_successRate a)
          (agent_totalExecutions a) (agent_failedExecutions a)
          (agent_createdAt a) now.

Definition updateAgentStatus (now : Time) (agentId : string)
  (status : AgentStatus) : DB unit :=
  db <- getDb ;;
  if negb db then throw DB_UNAVAILABLE
  else
    try_catch
      (execute (on_agents (updating
         (update_where (fun a => (agent_id a =? agentId)%string)
                       (set_agent_status status now)))))
      (fun error =>
         log (Err "[Database] Failed to update agent status:") ;; throw error).

Definition set_agent_metrics
  (totalExecutions failedExecutions successRate healthScore : number)
  (now : Time)
  (a : Agent) : Agent :=
  mkAgent (agent_id a) (agent_name a) (agent_type a) (agent_description a)
          (agent_capabilities a) (agent_llmModel a) (agent_parameters a)
          (agent_integrationFramework a) (agent_version a)
          (agent_status a)
          (Some healthScore) (Some successRate)
          (Some totalExecutions) (Some failedExecutions)
          (agent_createdAt a) now.

Definition updateAgentMetrics (now : Time) (agentId : string)
  (successCount failureCount : option number) : DB unit :=
  db <- getDb ;;
  if negb db then throw DB_UNAVAILABLE
  else
    agent <- getAgent agentId ;;
    match agent with
    | None => throw (Error "Agent not found")
    | Some agent =>
        let totalExecutions :=
          (number_or (agent_totalExecutions agent) 0
           + number_or successCount 0
           + number_or failureCount 0)%float in
        let failedExecutions :=
          (number_or (agent_failedExecutions agent) 0
           + number_or failureCount 0)%float in
        let successRate :=
          if (0 <? totalExecutions)%float
          then ((totalExecutions - failedExecutions) / totalExecutions
                * 100)%float
          else 100%float in
        let healthScore := (Math_max 0 (Math_min 100 successRate))%float in
        try_catch
          (execute (on_agents (updating
             (update_where (fun a => (agent_id a =? agentId)%string)
                (set_agent_metrics totalExecutions failedExecutions
                                   successRate healthScore now)))))
          (fun error =>
             log (Err "[Database] Failed to update agent metrics:") ;;
             throw error)
    end.

(** ** Workflow operations *)

Record WorkflowData := mkWorkflowData {
  wd_name : string;
  wd_description : option string;
  wd_orchestrationPattern : Pattern;
  wd_nodes : option (list Json);
  wd_edges : option (list Json);
  wd_configuration : option Json;
  wd_templateId : option string
}.

Definition createWorkflow (nanoid : string) (now : Time)
  (workflowData : WorkflowData) : DB (Created WorkflowData) :=
  db <- getDb ;;
  if negb db then throw DB_UNAVAILABLE
  else
    let id := nanoid in
    try_catch
      (execute (on_workflows (insert_row workflow_id
         (mkWorkflow id (wd_name workflowData) (wd_description workflowData)
                     (wd_orchestrationPattern workflowData)
                     (wd_nodes workflowData) (wd_edges workflowData)
                     (wd_configuration workflowData)
                     Draft
                     (wd_templateId workflowData) now now))) ;;
       ret (mkCreated id workflowData))
      (fun error =>
         log (Err "[Database] Failed to create workflow:") ;; throw error).

Definition getWorkflow (workflowId : string) : DB (option Workflow) :=
  db <- getDb ;;
  if negb db then ret None
  else
    result <- read (fun t =>
      firstn 1 (select_where (fun w => (workflow_id w =? workflowId)%string)
                             (workflows t))) ;;
    ret (first_or_undefined result).

Definition listWorkflows (filters : option (option string))
  : DB (list Workflow) :=
  db <- getDb ;;
  if negb db then ret []
  else
    match filters with
    | Some status =>
        if truthy_str status then
          read (fun t => select_where
            (fun w => (workflow_status_name (workflow_status w)
                       =? str_or status "")%string) (workflows t))
        else read workflows
    | None => read workflows
    end.

Definition set_workflow_status (status : WorkflowStatus) (now : Time)
  (w : Workflow) : Workflow :=
  mkWorkflow (workflow_id w) (workflow_name w) (workflow_description w)
             (workflow_orchestrationPattern w) (workflow_nodes w)
             (workflow_edges w) (workflow_configuration w)
             status
             (workflow_templateId w) (workflow_createdAt w) now.

Definition updateWorkflowStatus (now : Time) (workflowId : string)
  (status : WorkflowStatus) : DB unit :=
  db <- getDb ;;
  if negb db then throw DB_UNAVAILABLE
  else
    try_catch
      (execute (on_workflows (updating
         (update_where (fun w => (workflow_id w =? workflowId)%string)
                       (set_workflow_status status now)))))
      (fun error =>
         log (Err "[Database] Failed to update workflow status:") ;;
         throw error).

(** ** Task operations *)

Record TaskData := mkTaskData {
  td_workflowId : string;
  td_input : option Json;
  td_assignedAgents : option (list string);
  td_priority : option Q
}.

Definition createTask (nanoid : string) (now : Time) (taskData : TaskData)
  : DB (Created TaskData) :=
  db <- getDb ;;
  if negb db then throw DB_UNAVAILABLE
  else
    let id := nanoid in
    try_catch
      (execute (on_tasks (insert_row task_id
         (mkTask id (td_workflowId taskData) (td_input taskData)
                 (td_assignedAgents taskData)
                 (num_or (td_priority taskData) 5)
                 Pending NoConsensus now 0%Z
                 None None None))) ;;
       ret (mkCreated id taskData))
      (fun error =>
         log (Err "[Database] Failed to create task:") ;; throw error).

Definition getTask (taskId : string) : DB (option Task) :=
  db <- getDb ;;
  if negb db then ret None
  else
    result <- read (fun t =>
      firstn 1 (select_where (fun x => (task_id x =? taskId)%string)
                             (tasks t))) ;;
    ret (first_or_undefined result).

(** The [updates] object of [updateTaskStatus]; a key that is not set
    leaves its column as it is.  The table of tasks has no column
    [updatedAt]: that key of the object reaches no column. *)
Record TaskUpdates := mkTaskUpdates {
  tu_status : TaskStatus;
  tu_updatedAt : Time;
  tu_startedAt : option Time;
  tu_completedAt : option Time;
  tu_result : option Json
}.

Definition keep {A} (new old : option A) : option A :=
  match new with
  | Some x => Some x
  | None => old
  end.

Definition set_task (updates : TaskUpdates) (x : Task) : Task :=
  mkTask (task_id x) (task_workflowId x) (task_input x)
         (task_assignedAgents x) (task_priority x)
         (tu_status updates)
         (task_consensusMethod x) (task_createdAt x) (task_retryCount x)
         (keep (tu_result updates) (task_result x))
         (keep (tu_startedAt updates) (task_startedAt x))
         (keep (tu_completedAt updates) (task_completedAt x)).

Definition updateTaskStatus (now : Time) (taskId : string)
  (status : TaskStatus) (result : option Json) : DB unit :=
  db <- getDb ;;
  if negb db then throw DB_UNAVAILABLE
  else
    try_catch
      (let updates :=
         mkTaskUpdates status now
           (match status with Running => Some now | _ => None end)
           (match status with
            | Running => None
            | _ => if terminal status then Some now else None
            end)
           result in
       execute (on_tasks (updating
         (update_where (fun x => (task_id x =? taskId)%string)
                       (set_task updates)))))
      (fun error =>
         log (Err "[Database] Failed to update task status:") ;; throw error).

(** ** Message operations *)

Record MessageData := mkMessageData {
  md_senderId : string;
  md_recipientId : option string;
  md_taskId : option string;
  md_messageType : MessageType;
  md_content : Json;
  md_metadata : option Json
}.

Definition createMessage (nanoid : string) (now : Time)
  (messageData : MessageData) : DB (Created MessageData) :=
  db <- getDb ;;
  if negb db then throw DB_UNAVAILABLE
  else
    let id := nanoid in
    try_catch
      (execute (on_agentMessages (insert_row message_id
         (mkMessage id (md_senderId messageData) (md_recipientId messageData)
                    (md_taskId messageData) (md_messageType messageData)
                    (md_content messageData) now
                    DeliveryPending
                    (md_metadata messageData)))) ;;
       ret (mkCreated id messageData))
      (fun error =>
         log (Err "[Database] Failed to create message:") ;; throw error).

Definition opt_is (k : string) (x : option string) : bool :=
  match x with
  | Some s => (s =? k)%string
  | None => false
  end.

(** [limit] defaults to 100. *)
Definition getConversationHistory (taskId : string) (limit : option nat)
  : DB (list Message) :=
  let limit := match limit with Some n => n | None => 100%nat end in
  db <- getDb ;;
  if negb db then ret []
  else
    result <- read (fun t =>
      firstn limit (select_where (fun m => opt_is taskId (message_taskId m))
                                 (agentMessages t))) ;;
    ret result.

(** ** Execution log operations *)

Record LogData := mkLogData {
  ld_taskId : string;
  ld_agentId : string;
  ld_eventType : EventType;
  ld_level : option Level;
  ld_message : option string;
  ld_metadata : option Json
}.

Definition createExecutionLog (nanoid : string) (now : Time)
  (logData : LogData) : DB (Created LogData) :=
  db <- getDb ;;
  if negb db then throw DB_UNAVAILABLE
  else
    let id := nanoid in
    try_catch
      (execute (on_executionLogs (insert_row log_id
         (mkExecutionLog id (ld_taskId logData) (ld_agentId logData)
                         (ld_eventType logData)
                         (match ld_level logData with
                          | Some l => l | None => Info end)
                         (ld_message logData) (ld_metadata logData) now))) ;;
       ret (mkCreated id logData))
      (fun error =>
         log (Err "[Database] Failed to create execution log:") ;;
         throw error).

(** [limit] defaults to 1000. *)
Definition getTaskLogs (taskId : string) (limit : option nat)
  : DB (list ExecutionLog) :=
  let limit := match limit with Some n => n | None => 1000%nat end in
  db <- getDb ;;
  if negb db then ret []
  else
    result <- read (fun t =>
      firstn limit (select_where (fun l => (log_taskId l =? taskId)%string)
                                 (executionLogs t))) ;;
    ret result.

(** ** Alert operations *)

Record AlertData := mkAlertData {
  al_alertType : AlertType;
  al_severity : option Severity;
  al_title : string;
  al_message : option string;
  al_relatedAgentId : option string;
  al_relatedTaskId : option string
}.

Definition createAlert (nanoid : string) (now : Time) (alertData : AlertData)
  : DB (Created AlertData) :=
  db <- getDb ;;
  if negb db then throw DB_UNAVAILABLE
  else
    let id := nanoid in
    try_catch
      (execute (on_systemAlerts (insert_row alert_id
         (mkAlert id (al_alertType alertData)
                  (match al_severity alertData with
                   | Some s => s | None => SevInfo end)
                  (al_title alertData) (al_message alertData)
                  (al_relatedAgentId alertData) (al_relatedTaskId alertData)
                  false now))) ;;
       ret (mkCreated id alertData))
      (fun error =>
         log (Err "[Database] Failed to create alert:") ;; throw error).

Definition getUnresolvedAlerts : DB (list Alert) :=
  db <- getDb ;;
  if negb db then ret []
  else
    result <- read (fun t =>
      select_where (fun a => Bool.eqb (alert_isResolved a) false)
                   (systemAlerts t)) ;;
    ret result.

(** ** Metrics operations *)

Record MetricData := mkMetricData {
  mt_agentId : string;
  mt_taskId : option string;
  mt_executionTime : option Q;
  mt_tokenUsage : option Q;
  mt_estimatedCost : option Q;
  mt_successFlag : option bool
}.

Definition recordMetric (nanoid : string) (now : Time)
  (metricData : MetricData) : DB (Created MetricData) :=
  db <- getDb ;;
  if negb db then throw DB_UNAVAILABLE
  else
    let id := nanoid in
    try_catch
      (execute (on_agentMetrics (insert_row metric_id
         (mkMetric id (mt_agentId metricData) (mt_taskId metricData)
                   (mt_executionTime metricData) (mt_tokenUsage metricData)
                   (mt_estimatedCost metricData) (mt_successFlag metricData)
                   (Some now)))) ;;
       ret (mkCreated id metricData))
      (fun error =>
         log (Err "[Database] Failed to record metric:") ;; throw error).

(** [new Date(Date.now() - hoursBack * 60 * 60 * 1000)], with [now]
    for [Date.now()]. *)
Definition cutoff (now : Time) (hoursBack : number) : option Time :=
  time_clip (number_of_Z now - hoursBack * 60 * 60 * 1000)%float.

(** [m.timestamp && m.timestamp > cutoffTime]: no date is later than an
    invalid one. *)
Definition later_than (cutoffTime : option Time) (m : Metric) : bool :=
  match metric_timestamp m, cutoffTime with
  | Some ts, Some c => (c <? ts)%Z
  | _, _ => false
  end.

(** [hoursBack] defaults to 24. *)
Definition getAgentMetrics (now : Time) (agentId : string)
  (hoursBack : option number) : DB (list Metric) :=
  let hoursBack :=
    match hoursBack with Some h => h | None => 24%float end in
  db <- getDb ;;
  if negb db then ret []
  else
    let cutoffTime := cutoff now hoursBack in
    result <- read (fun t =>
      select_where (fun m => (metric_agentId m =? agentId)%string)
                   (agentMetrics t)) ;;
    ret (filter (later_than cutoffTime) result).

(** ** Template operations *)

Definition getWorkflowTemplates (category : option string)
  : DB (list Template) :=
  db <- getDb ;;
  if negb db then ret []
  else if truthy_str category then
    read (fun t => select_where
      (fun x => (template_category x =? str_or category "")%string)
      (workflowTemplates t))
  else read workflowTemplates.

Definition getTemplate (templateId : string) : DB (option Template) :=
  db <- getDb ;;
  if negb db then ret None
  else
    result <- read (fun t =>
      firstn 1 (select_where (fun x => (template_id x =? templateId)%string)
                             (workflowTemplates t))) ;;
    ret (first_or_undefined result).

(** ** Integration operations *)

Definition listIntegrations (active : option bool) : DB (list Integration) :=
  db <- getDb ;;
  if negb db then ret []
  else
    match active with
    | Some b =>
        read (fun t => select_where
          (fun x => Bool.eqb (integration_isActive x) b)
          (integrationModules t))
    | None => read integrationModules
    end.

Definition getIntegration (framework : string) : DB (option Integration) :=
  db <- getDb ;;
  if negb db then ret None
  else
    result <- read (fun t =>
      firstn 1 (select_where
                  (fun x => (integration_framework x =? framework)%string)
                  (integrationModules t))) ;;
    ret (first_or_undefined result).

(** ** LLM provider operations *)

Definition listLLMProviders (active : option bool) : DB (list Provider) :=
  db <- getDb ;;
  if negb db then ret []
  else
    match active with
    | Some b =>
        read (fun t => select_where
          (fun x => Bool.eqb (provider_isActive x) b) (llmProviders t))
    | None => read llmProviders
    end.

Definition getDefaultLLMProvider : DB (option Provider) :=
  db <- getDb ;;
  if negb db then ret None
  else
    result <- read (fun t =>
      firstn 1 (select_where (fun x => Bool.eqb (provider_isDefault x) true)
                             (llmProviders t))) ;;
    ret (first_or_undefined result).

(** ** Router procedures ([server/routers.ts])

    Each definition is the handler given to [.mutation] or [.query],
    behind the procedure's zod schema, as a signed-in caller reaches
    it.  The argument types stand for
    the shape the schema asks for; a check of the schema on a value is
    written out ([min(1)] on the name of a workflow is the only one
    among these procedures). *)

Record Success := mkSuccess { success : bool }.


Definition taskRouter_updateStatus (now : Time) (taskId : string)
  (status : TaskStatus) (result : option Json) : DB Success :=
  updateTaskStatus now taskId status result ;;
  ret (mkSuccess true).

Definition communicationRouter_sendMessage (nanoid : string) (now : Time)
  (input : MessageData) : DB (Created MessageData) :=
  createMessage nanoid now input.

Definition alertsRouter_create (nanoid : string) (now : Time)
  (input : AlertData) : DB (Created AlertData) :=
  createAlert nanoid now input.

Definition agentRouter_updateMetrics (now : Time) (agentId : string)
  (successCount failureCount : option number) : DB Success :=
  updateAgentMetrics now agentId successCount failureCount ;;
  ret (mkSuccess true).

(** ** The operations of the layer, as data

    What a caller observes of a call: whether it returned [undefined],
    a row, a list (of how many rows), or nothing, or threw. *)

Inductive Outcome : Type :=
| NoRow
| Row
| Rows (n : nat)
| Done
| Raised (e : Exn).

Inductive ReadOp : Type :=
| GetUserByOpenId (openId : string)
| GetAgent (agentId : string)
| GetWorkflow (workflowId : string)
| GetTask (taskId : string)
| GetTemplate (templateId : string)
| GetIntegration (framework : string)
| GetDefaultLLMProvider.

Inductive ListOp : Type :=
| ListAgents (filters : option AgentFilters)
| ListWorkflows (filters : option (option string))
| GetConversationHistory (taskId : string) (limit : option nat)
| GetTaskLogs (taskId : string) (limit : option nat)
| GetUnresolvedAlerts
| GetAgentMetrics (now : Time) (agentId : string) (hoursBack : option number)
| GetWorkflowTemplates (category : option string)
| ListIntegrations (active : option bool)
| ListLLMProviders (active : option bool).

Inductive WriteOp : Type :=
| UpsertUser (ownerOpenId : string) (now : Time) (user : InsertUser)
| CreateAgent (nanoid : string) (now : Time) (agentData : AgentData)
| UpdateAgentStatus (now : Time) (agentId : string) (status : AgentStatus)
| UpdateAgentMetrics (now : Time) (agentId : string)
    (successCount failureCount : option number)
| CreateWorkflow (nanoid : string) (now : Time) (workflowData : WorkflowData)
| UpdateWorkflowStatus (now : Time) (workflowId : string)
    (status : WorkflowStatus)
| CreateTask (nanoid : string) (now : Time) (taskData : TaskData)
| UpdateTaskStatus (now : Time) (taskId : string) (status : TaskStatus)
    (result : option Json)
| CreateMessage (nanoid : string) (now : Time) (messageData : MessageData)
| CreateExecutionLog (nanoid : string) (now : Time) (logData : LogData)
| CreateAlert (nanoid : string) (now : Time) (alertData : AlertData)
| RecordMetric (nanoid : string) (now : Time) (metricData : MetricData).

Inductive Op : Type :=
| Lookup (op : ReadOp)
| Select (op : ListOp)
| Mutate (op : WriteOp).

Definition observe {A} (f : A -> Outcome) (c : DB A)
  : Runtime Tables -> Outcome * Runtime Tables :=
  fun w =>
    match c w with
    | (Returned a, w') => (f a, w')
    | (Thrown e, w') => (Raised e, w')
    end.

Definition lookup {A} (x : option A) : Outcome :=
  match x with
  | Some _ => Row
  | None => NoRow
  end.

Definition listing {A} (l : list A) : Outcome := Rows (List.length l).

Definition done {A} (_ : A) : Outcome := Done.

Definition run_read (op : ReadOp) : Runtime Tables -> Outcome * Runtime Tables :=
  match op with
  | GetUserByOpenId openId => observe lookup (getUserByOpenId openId)
  | GetAgent agentId => observe lookup (getAgent agentId)
  | GetWorkflow workflowId => observe lookup (getWorkflow workflowId)
  | GetTask taskId => observe lookup (getTask taskId)
  | GetTemplate templateId => observe lookup (getTemplate templateId)
  | GetIntegration framework => observe lookup (getIntegration framework)
  | GetDefaultLLMProvider => observe lookup getDefaultLLMProvider
  end.

Definition run_list (op : ListOp) : Runtime Tables -> Outcome * Runtime Tables :=
  match op with
  | ListAgents filters => observe listing (listAgents filters)
  | ListWorkflows filters => observe listing (listWorkflows filters)
  | GetConversationHistory taskId limit =>
      observe listing (getConversationHistory taskId limit)
  | GetTaskLogs taskId limit => observe listing (getTaskLogs taskId limit)
  | GetUnresolvedAlerts => observe listing getUnresolvedAlerts
  | GetAgentMetrics now agentId hoursBack =>
      observe listing (getAgentMetrics now agentId hoursBack)
  | GetWorkflowTemplates category =>
      observe listing (getWorkflowTemplates category)
  | ListIntegrations active => observe listing (listIntegrations active)
  | ListLLMProviders active => observe listing (listLLMProviders active)
  end.

Definition run_write (op : WriteOp)
  : Runtime Tables -> Outcome * Runtime Tables :=
  match op with
  | UpsertUser ownerOpenId now user =>
      observe done (upsertUser ownerOpenId now user)
  | CreateAgent nanoid now agentData =>
      observe done (createAgent nanoid now agentData)
  | UpdateAgentStatus now agentId status =>
      observe done (updateAgentStatus now agentId status)
  | UpdateAgentMetrics now agentId successCount failureCount =>
      observe done (updateAgentMetrics now agentId successCount failureCount)
  | CreateWorkflow nanoid now workflowData =>
      observe done (createWorkflow nanoid now workflowData)
  | UpdateWorkflowStatus now workflowId status =>
      observe done (updateWorkflowStatus now workflowId status)
  | CreateTask nanoid now taskData =>
      observe done (createTask nanoid now taskData)
  | UpdateTaskStatus now taskId status result =>
      observe done (updateTaskStatus now taskId status result)
  | CreateMessage nanoid now messageData =>
      observe done (createMessage nanoid now messageData)
  | CreateExecutionLog nanoid now logData =>
      observe done (createExecutionLog nanoid now logData)
  | CreateAlert nanoid now alertData =>
      observe done (createAlert nanoid now alertData)
  | RecordMetric nanoid now metricData =>
      observe done (recordMetric nanoid now metricData)
  end.

Definition run (op : Op) : Runtime Tables -> Outcome * Runtime Tables :=
  match op with
  | Lookup r => run_read r
  | Select l => run_list l
  | Mutate x => run_write x
  end.

(** A history of calls; a call that throws does not stop the next. *)
Fixpoint run_all (ops : list Op) (w : Runtime Tables) : Runtime Tables :=
  match ops with
  | [] => w
  | op :: rest => run_all rest (snd (run op w))
  end.

(** The handle is [null]: [getDb] returns a falsy value. *)
Definition unavailable (w : Runtime Tables) : Prop :=
  fst (getDb w) = Returned false.

Definition available (w : Runtime Tables) : Prop :=
  fst (getDb w) = Returned true.

(** A process with a live connection to tables [t]. *)
Definition connected (t : Tables) : Runtime Tables :=
  mkRuntime true (Some "mysql://localhost/swarm") false [] t.

(** A process started without [DATABASE_URL]. *)
Definition offline (t : Tables) : Runtime Tables :=
  mkRuntime false None false [] t.


Definition is_upsert (op : WriteOp) : bool :=
  match op with
  | UpsertUser _ _ _ => true
  | _ => false
  end.

(** ** Words of the specification, for comparison with the code *)

(** The order of the task state machine
    [pending -> running -> {completed | failed | timeout}]. *)
Definition rank (s : TaskStatus) : nat :=
  match s with
  | Pending => 0
  | Running => 1
  | Completed | Failed | Timeout => 2
  end.

(** A transition the state machine allows (staying put included). *)
Definition monotonic (from to : TaskStatus) : bool :=
  if terminal from
  then match from, to with
       | Completed, Completed | Failed, Failed | Timeout, Timeout => true
       | _, _ => false
       end
  else (rank from <=? rank to)%nat.

(** Node ids of a workflow: the [id] field of each node object. *)
Definition node_ids (nodes : list Json) : list string :=
  flat_map (fun n => match field "id" n with
                     | Some (JStr s) => [s]
                     | _ => []
                     end) nodes.

Definition mem (s : string) (l : list string) : bool :=
  existsb (fun x => (x =? s)%string) l.

Definition endpoint_known (ids : list string) (e : Json) (k : string) : bool :=
  match field k e with
  | Some (JStr s) => mem s ids
  | _ => false
  end.

(** Every edge goes from a node of the workflow to a node of the
    workflow. *)
Definition edges_reference_nodes (nodes edges : list Json) : bool :=
  forallb (fun e => endpoint_known (node_ids nodes) e "source"
                    && endpoint_known (node_ids nodes) e "target") edges.

(** The agent of a given id. *)
Definition by_id (agentId : string) (a : Agent) : bool :=
  (agent_id a =? agentId)%string.

(** Whether every edge of a submission points at nodes of the
    submission (missing lists read as empty). *)
Definition well_referenced (d : WorkflowData) : bool :=
  edges_reference_nodes
    (match wd_nodes d with Some n => n | None => [] end)
    (match wd_edges d with Some e => e | None => [] end).

(** The task of a given id. *)
Definition by_task (taskId : string) (x : Task) : bool :=
  (task_id x =? taskId)%string.

(** One call of the status procedure: when, to what, with what result. *)
Record StatusChange := mkStatusChange {
  sc_now : Time;
  sc_status : TaskStatus;
  sc_result : option Json
}.

(** Status updates applied to one task, in order. *)
Fixpoint update_all (taskId : string) (changes : list StatusChange)
  (w : Runtime Tables) : Runtime Tables :=
  match changes with
  | [] => w
  | c :: rest =>
      update_all taskId rest
        (snd (taskRouter_updateStatus (sc_now c) taskId (sc_status c)
                                      (sc_result c) w))
  end.

(** No delivery status other than [pending]. *)
Definition pending_only (ms : list Message) : Prop :=
  Forall (fun m => message_deliveryStatus m = DeliveryPending) ms.

(** ** Further router procedures ([server/routers.ts]) *)

(** [x || d] on a row count: 0 and [undefined] are falsy. *)
Definition nat_or (x : option nat) (d : nat) : nat :=
  match x with
  | Some (S n) => S n
  | Some O | None => d
  end.

(** [x || undefined] on a boolean: [false] is dropped. *)
Definition bool_or_undefined (x : option bool) : option bool :=
  match x with
  | Some true => Some true
  | Some false | None => None
  end.

Definition agentRouter_updateStatus (now : Time) (agentId : string)
  (status : AgentStatus) : DB Success :=
  updateAgentStatus now agentId status ;;
  ret (mkSuccess true).

(** [input] is the optional filter object; [db.listWorkflows(input || {})]. *)
Definition workflowRouter_list (input : option (option string))
  : DB (list Workflow) :=
  listWorkflows (Some (match input with Some f => f | None => None end)).

Definition workflowRouter_updateStatus (now : Time) (workflowId : string)
  (status : WorkflowStatus) : DB Success :=
  updateWorkflowStatus now workflowId status ;;
  ret (mkSuccess true).

(** [db.getWorkflowTemplates(input?.category || undefined)] *)
Definition workflowRouter_getTemplates (input : option (option string))
  : DB (list Template) :=
  let category := match input with Some c => c | None => None end in
  getWorkflowTemplates (if truthy_str category then category else None).

(** [db.getTaskLogs(input.taskId, input.limit || 1000)] *)
Definition taskRouter_getLogs (taskId : string) (limit : option nat)
  : DB (list ExecutionLog) :=
  getTaskLogs taskId (Some (nat_or limit 1000)).

(** [db.getConversationHistory(input.taskId, input.limit || 100)] *)
Definition taskRouter_getConversation (taskId : string) (limit : option nat)
  : DB (list Message) :=
  getConversationHistory taskId (Some (nat_or limit 100)).


(** [db.listIntegrations(input?.active || undefined)] *)
Definition integrationRouter_list (input : option (option bool))
  : DB (list Integration) :=
  listIntegrations
    (bool_or_undefined (match input with Some a => a | None => None end)).

(** [db.listLLMProviders(input?.active || undefined)] *)
Definition llmRouter_list (input : option (option bool))
  : DB (list Provider) :=
  listLLMProviders
    (bool_or_undefined (match input with Some a => a | None => None end)).

(** ** Further words for statements *)

(** The user of a given [openId]. *)
Definition by_openId (openId : string) (u : User) : bool :=
  (user_openId u =? openId)%string.

(** The workflow of a given id. *)
Definition by_workflow (workflowId : string) (x : Workflow) : bool :=
  (workflow_id x =? workflowId)%string.

(** The e-mail address a call brings is held by no other user (the
    column is unique, and a clash would redirect the upsert). *)
Definition email_free (u : InsertUser) (rows : list User) : Prop :=
  forall e, iu_email u = Val e ->
  forall r, In r rows -> user_openId r <> iu_openId u ->
  user_email r <> Some e.

(** The messages of a task, as stored. *)
Definition conversation (taskId : string) (t : Tables) : list Message :=
  select_where (fun m => opt_is taskId (message_taskId m)) (agentMessages t).

(** The log entries of a task, as stored. *)
Definition task_logs (taskId : string) (t : Tables) : list ExecutionLog :=
  select_where (fun l => (log_taskId l =? taskId)%string) (executionLogs t).

(** No alert is resolved. *)
Definition unresolved_only (al : list Alert) : Prop :=
  Forall (fun a => alert_isResolved a = false) al.

(** What a listing returned, when it returned. *)
Definition listed {A} (out : Completion (list A) * Runtime Tables) : list A :=
  match fst out with
  | Returned l => l
  | Thrown _ => []
  end.

(** ** Fixtures of the test suite of this revision *)

Definition testAgentData : AgentData :=
  mkAgentData "TestAgent" Reasoning (Some "Test agent for unit testing")
    (Some ["analysis"; "reasoning"]) (Some "gpt-4")
    (Some (JObj [("temperature", JNum (7 # 10)); ("maxTokens", JNum 2000)]))
    (Some "langchain") (Some "1.0.0").

Definition testWorkflowData : WorkflowData :=
  mkWorkflowData "TestWorkflow" (Some "Test workflow") Sequential
    (Some [JObj [("id", JStr "node1"); ("type", JStr "agent")]])
    (Some [JObj [("source", JStr "node1"); ("target", JStr "node2")]])
    (Some (JObj [("timeout", JNum 3600)])) None.


Definition testTaskData : TaskData :=
  mkTaskData "workflow-123" (Some (JObj [("query", JStr "test query")]))
    (Some ["agent-1"; "agent-2"]) (Some 1).

Definition testMessageData : MessageData :=
  mkMessageData "agent-1" (Some "agent-2") (Some "task-123") Request
    (JObj [("action", JStr "analyze"); ("data", JStr "test")])
    (Some (JObj [("priority", JStr "high")])).

Definition testUser : InsertUser :=
  mkInsertUser "user-1" (Val "Ada") Undefined Undefined None None.

End Rev1.

(** * Second revision of [server/db.ts] (rows owned by a user, table
      [consensus_results])

    The part embedded here is the one the consensus specification is
    about: workflows, tasks and consensus results.  Columns the code
    leaves to their database default ([createdAt], [updatedAt]) are not
    kept.  A JSON column holds the text of the value stored in it. *)

Module Rev2.

Record Workflow := mkWorkflow {
  workflow_id : string;
  workflow_userId : Z;
  workflow_name : string;
  workflow_description : option string;
  workflow_orchestrationPattern : string;
  workflow_nodes : Json;
  workflow_edges : Json;
  workflow_configuration : Json;
  workflow_status : string;
  workflow_version : Z
}.

Record Task := mkTask {
  task_id : string;
  task_userId : Z;
  task_workflowId : string;
  task_input : Json;
  task_assignedAgents : list string;
  task_priority : Q;
  task_status : string;
  task_result : Json;
  task_startedAt : option Time;
  task_completedAt : option Time
}.

Record ConsensusResult := mkConsensusResult {
  consensus_id : string;
  consensus_userId : Z;
  consensus_taskId : string;
  consensus_consensusType : string;
  consensus_agentResults : Json;
  consensus_finalResult : Json;
  consensus_confidence : Q
}.

Record Tables := mkTables {
  workflows : list Workflow;
  tasks : list Task;
  consensusResults : list ConsensusResult
}.

Definition empty : Tables := mkTables [] [] [].

Definition on_workflows (f : list Workflow -> Completion (list Workflow))
  (t : Tables) : Completion Tables :=
  match f (workflows t) with
  | Returned x => Returned (mkTables x (tasks t) (consensusResults t))
  | Thrown e => Thrown e
  end.

Definition on_tasks (f : list Task -> Completion (list Task)) (t : Tables)
  : Completion Tables :=
  match f (tasks t) with
  | Returned x => Returned (mkTables (workflows t) x (consensusResults t))
  | Thrown e => Thrown e
  end.

Definition on_consensusResults
  (f : list ConsensusResult -> Completion (list ConsensusResult)) (t : Tables)
  : Completion Tables :=
  match f (consensusResults t) with
  | Returned x => Returned (mkTables (workflows t) (tasks t) x)
  | Thrown e => Thrown e
  end.

Definition DB := Async Tables.

(** ** Workflow operations *)

Record WorkflowData := mkWorkflowData {
  wd_userId : Z;
  wd_name : string;
  wd_description : option string;
  wd_orchestrationPattern : string;
  wd_nodes : option Json;
  wd_edges : option Json;
  wd_configuration : option Json
}.

Definition createWorkflow (nanoid : string) (workflowData : WorkflowData)
  : DB (Created WorkflowData) :=
  db <- getDb ;;
  if negb db then throw DB_UNAVAILABLE
  else
    let id := ("workflow-" ++ nanoid)%string in
    try_catch
      (execute (on_workflows (insert_row workflow_id
         (mkWorkflow id (wd_userId workflowData) (wd_name workflowData)
                     (wd_description workflowData)
                     (wd_orchestrationPattern workflowData)
                     (any_or (wd_nodes workflowData) (JArr []))
                     (any_or (wd_edges workflowData) (JArr []))
                     (any_or (wd_configuration workflowData) (JObj []))
                     "draft"
                     1%Z))) ;;
       ret (mkCreated id workflowData))
      (fun error =>
         log (Err "[Database] Failed to create workflow:") ;; throw error).

(** ** Task operations *)

Record TaskData := mkTaskData {
  td_userId : Z;
  td_workflowId : string;
  td_input : option Json;
  td_assignedAgents : option (list string);
  td_priority : option Q
}.

Definition createTask (nanoid : string) (taskData : TaskData)
  : DB (Created TaskData) :=
  db <- getDb ;;
  if negb db then throw DB_UNAVAILABLE
  else
    let id := ("task-" ++ nanoid)%string in
    try_catch
      (execute (on_tasks (insert_row task_id
         (mkTask id (td_userId taskData) (td_workflowId taskData)
                 (any_or (td_input taskData) (JObj []))
                 (match td_assignedAgents taskData with
                  | Some a => a | None => [] end)
                 (num_or (td_priority taskData) 1)
                 "pending"
                 (JObj []) None None))) ;;
       ret (mkCreated id taskData))
      (fun error =>
         log (Err "[Database] Failed to create task:") ;; throw error).

Definition getTask (taskId : string) : DB (option Task) :=
  db <- getDb ;;
  if negb db then ret None
  else
    result <- read (fun t =>
      firstn 1 (select_where (fun x => (task_id x =? taskId)%string)
                             (tasks t))) ;;
    ret (first_or_undefined result).

Definition set_task (status : string) (result : option Json)
  (completedAt startedAt : option Time) (x : Task) : Task :=
  mkTask (task_id x) (task_userId x) (task_workflowId x) (task_input x)
         (task_assignedAgents x) (task_priority x)
         status
         (match result with Some r => r | None => task_result x end)
         (match startedAt with Some d => Some d | None => task_startedAt x end)
         (match completedAt with
          | Some d => Some d | None => task_completedAt x end).

Definition updateTaskStatus (now : Time) (taskId : string) (status : string)
  (result : option Json) : DB unit :=
  db <- getDb ;;
  if negb db then throw DB_UNAVAILABLE
  else
    let result := if truthy result then result else None in
    let completedAt :=
      if (status =? "completed")%string || (status =? "failed")%string
      then Some now else None in
    let startedAt :=
      if (status =? "running")%string then Some now else None in
    execute (on_tasks (updating
      (update_where (fun x => (task_id x =? taskId)%string)
                    (set_task status result completedAt startedAt)))).

(** ** Consensus operations *)

Record ConsensusData := mkConsensusData {
  cd_userId : Z;
  cd_taskId : string;
  cd_consensusType : string;
  cd_agentResults : option Json;
  cd_finalResult : option Json;
  cd_confidence : option Q
}.

Definition saveConsensusResult (nanoid : string)
  (consensusData : ConsensusData) : DB (Created ConsensusData) :=
  db <- getDb ;;
  if negb db then throw DB_UNAVAILABLE
  else
    let id := ("consensus-" ++ nanoid)%string in
    try_catch
      (execute (on_consensusResults (insert_row consensus_id
         (mkConsensusResult id (cd_userId consensusData)
            (cd_taskId consensusData) (cd_consensusType consensusData)
            (any_or (cd_agentResults consensusData) (JArr []))
            (any_or (cd_finalResult consensusData) (JObj []))
            (num_or (cd_confidence consensusData) 0)))) ;;
       ret (mkCreated id consensusData))
      (fun error =>
         log (Err "[Database] Failed to save consensus result:") ;;
         throw error).

(** ** Router procedures *)

Inductive ConsensusType := Voting | JudgeBased | MixtureOfAgents.

Definition consensus_type_name (c : ConsensusType) : string :=
  match c with
  | Voting => "voting"
  | JudgeBased => "judge-based"
  | MixtureOfAgents => "mixture-of-agents"
  end.

Record ConsensusInput := mkConsensusInput {
  ci_taskId : string;
  ci_consensusType : ConsensusType;
  ci_agentResults : option (list Json);
  ci_finalResult : option Json;
  ci_confidence : option Q
}.

(** [userId] is [ctx.user!.id]. *)
Definition consensusRouter_save (nanoid : string) (userId : Z)
  (input : ConsensusInput) : DB (Created ConsensusData) :=
  saveConsensusResult nanoid
    (mkConsensusData userId (ci_taskId input)
       (consensus_type_name (ci_consensusType input))
       (option_map JArr (ci_agentResults input))
       (ci_finalResult input) (ci_confidence input)).

Definition available (w : Runtime Tables) : Prop :=
  fst (getDb w) = Returned true.

Definition connected (t : Tables) : Runtime Tables :=
  mkRuntime true (Some "mysql://localhost/swarm") false [] t.

(** ** Words of the specification, for comparison with the code *)

(** One agent's answer, as in the consensus scenario:
    [{ agentId, value, confidence }]. *)
Definition agent_result (agentId value : string) (confidence : Q) : Json :=
  JObj [("agentId", JStr agentId); ("value", JStr value);
        ("confidence", JNum confidence)].

(** The three answers ["A"], ["A"], ["B"] with confidences 0.9, 0.6
    and 0.95. *)
Definition scenario_results : list Json :=
  [agent_result "agent-1" "A" (9 # 10);
   agent_result "agent-2" "A" (6 # 10);
   agent_result "agent-3" "B" (95 # 100)].

(** The final confidence the scenario asks for, (0.9 + 0.6) / 2.45. *)
Definition scenario_confidence : Q := ((9 # 10) + (6 # 10)) / (245 # 100).

(** A result set is empty when it is missing or has no element. *)
Definition empty_results (r : option Json) : bool :=
  match r with
  | None | Some (JArr []) => true
  | Some _ => false
  end.

(** The task of a given id. *)
Definition by_task (taskId : string) (x : Task) : bool :=
  (task_id x =? taskId)%string.

(** ** Further operations of this revision *)

Definition listWorkflows (userId : Z) : DB (list Workflow) :=
  db <- getDb ;;
  if negb db then ret []
  else
    read (fun t => select_where (fun x => (workflow_userId x =? userId)%Z)
                                (workflows t)).

Definition getWorkflow (workflowId : string) : DB (option Workflow) :=
  db <- getDb ;;
  if negb db then ret None
  else
    result <- read (fun t =>
      firstn 1 (select_where (fun x => (workflow_id x =? workflowId)%string)
                             (workflows t))) ;;
    ret (first_or_undefined result).

Definition set_workflow_status (status : string) (x : Workflow) : Workflow :=
  mkWorkflow (workflow_id x) (workflow_userId x) (workflow_name x)
             (workflow_description x) (workflow_orchestrationPattern x)
             (workflow_nodes x) (workflow_edges x) (workflow_configuration x)
             status
             (workflow_version x).

Definition updateWorkflowStatus (workflowId status : string) : DB unit :=
  db <- getDb ;;
  if negb db then throw DB_UNAVAILABLE
  else
    execute (on_workflows (updating
      (update_where (fun x => (workflow_id x =? workflowId)%string)
                    (set_workflow_status status)))).

(** [conditions] holds the owner, and the workflow when one is given. *)
Definition listTasks (userId : Z) (workflowId : option string)
  : DB (list Task) :=
  db <- getDb ;;
  if negb db then ret []
  else
    read (fun t => select_where
      (fun x => (task_userId x =? userId)%Z
                && (if truthy_str workflowId
                    then (task_workflowId x =? str_or workflowId "")%string
                    else true))
      (tasks t)).

(** The workflow of a given id. *)
Definition by_workflow (workflowId : string) (x : Workflow) : bool :=
  (workflow_id x =? workflowId)%string.

(** The five values of the status column of a task. *)
Definition task_statuses : list string :=
  ["pending"; "running"; "completed"; "failed"; "timeout"].

(** The five values of the pattern column of a workflow. *)
Definition workflow_patterns : list string :=
  ["hierarchical"; "sequential"; "concurrent"; "round_robin"; "mesh"].

(** ** Fixtures of the test suite of this revision *)

Definition testWorkflowData : WorkflowData :=
  mkWorkflowData 1 "Test Workflow" (Some "Test workflow for database validation")
    "sequential"
    (Some (JArr [JObj [("id", JStr "node-1"); ("type", JStr "agent")]]))
    (Some (JArr [])) None.

Definition testTaskData : TaskData :=
  mkTaskData 1 "workflow-1" (Some (JObj [("query", JStr "test query")]))
    None (Some 1).

End Rev2.

(** * Second revision: agents, messages and alerts

    The tables behind [messages.send] and the alert procedures of the
    second revision.  Of a row the columns kept are the ones the code
    embedded here writes or reads. *)

Module Rev2Comm.

Record Agent := mkAgent {
  agent_id : string;
  agent_userId : Z;
  agent_name : string
}.

Record Message := mkMessage {
  message_id : string;
  message_userId : Z;
  message_taskId : string;
  message_senderId : string;
  message_recipientId : option string;
  message_messageType : string;
  message_content : Json;
  message_metadata : Json
}.

Record Alert := mkAlert {
  alert_id : string;
  alert_userId : Z;
  alert_alertType : string;
  alert_severity : string;
  alert_title : string;
  alert_message : string;
  alert_relatedAgentId : option string;
  alert_relatedTaskId : option string;
  alert_resolved : bool;
  alert_resolvedAt : option Time
}.

Record Tables := mkTables {
  swarmAgents : list Agent;
  messages : list Message;
  alerts : list Alert
}.

Definition empty : Tables := mkTables [] [] [].

Definition on_messages (f : list Message -> Completion (list Message))
  (t : Tables) : Completion Tables :=
  match f (messages t) with
  | Returned x => Returned (mkTables (swarmAgents t) x (alerts t))
  | Thrown e => Thrown e
  end.

Definition on_alerts (f : list Alert -> Completion (list Alert)) (t : Tables)
  : Completion Tables :=
  match f (alerts t) with
  | Returned x => Returned (mkTables (swarmAgents t) (messages t) x)
  | Thrown e => Thrown e
  end.

Definition DB := Async Tables.

Definition listAgents (userId : Z) : DB (list Agent) :=
  db <- getDb ;;
  if negb db then ret []
  else
    read (fun t => select_where (fun a => (agent_userId a =? userId)%Z)
                                (swarmAgents t)).

Record MessageData := mkMessageData {
  md_userId : Z;
  md_taskId : string;
  md_senderId : string;
  md_recipientId : option string;
  md_messageType : string;
  md_content : option Json;
  md_metadata : option Json
}.

Definition createMessage (nanoid : string) (messageData : MessageData)
  : DB (Created MessageData) :=
  db <- getDb ;;
  if negb db then throw DB_UNAVAILABLE
  else
    let id := ("msg-" ++ nanoid)%string in
    try_catch
      (execute (on_messages (insert_row message_id
         (mkMessage id (md_userId messageData) (md_taskId messageData)
                    (md_senderId messageData) (md_recipientId messageData)
                    (md_messageType messageData)
                    (any_or (md_content messageData) (JObj []))
                    (any_or (md_metadata messageData) (JObj []))))) ;;
       ret (mkCreated id messageData))
      (fun error =>
         log (Err "[Database] Failed to create message:") ;; throw error).

Record AlertData := mkAlertData {
  al_userId : Z;
  al_alertType : string;
  al_severity : option string;
  al_title : string;
  al_message : option string;
  al_relatedAgentId : option string;
  al_relatedTaskId : option string
}.

Definition createAlert (nanoid : string) (alertData : AlertData)
  : DB (Created AlertData) :=
  db <- getDb ;;
  if negb db then throw DB_UNAVAILABLE
  else
    let id := ("alert-" ++ nanoid)%string in
    try_catch
      (execute (on_alerts (insert_row alert_id
         (mkAlert id (al_userId alertData) (al_alertType alertData)
                  (str_or (al_severity alertData) "info")
                  (al_title alertData)
                  (str_or (al_message alertData) "")
                  (al_relatedAgentId alertData) (al_relatedTaskId alertData)
                  false None))) ;;
       ret (mkCreated id alertData))
      (fun error =>
         log (Err "[Database] Failed to create alert:") ;; throw error).

Definition resolve (now : Time) (a : Alert) : Alert :=
  mkAlert (alert_id a) (alert_userId a) (alert_alertType a)
          (alert_severity a) (alert_title a) (alert_message a)
          (alert_relatedAgentId a) (alert_relatedTaskId a)
          true (Some now).

Definition resolveAlert (now : Time) (alertId : string) : DB unit :=
  db <- getDb ;;
  if negb db then throw DB_UNAVAILABLE
  else
    execute (on_alerts (updating
      (update_where (fun a => (alert_id a =? alertId)%string)
                    (resolve now)))).

(** ** Router procedures *)

Record SendInput := mkSendInput {
  si_taskId : string;
  si_recipientId : option string;
  si_messageType : string;
  si_content : option Json;
  si_metadata : option Json
}.

(** [userId] is [ctx.user!.id]. *)
Definition messageRouter_send (nanoid : string) (userId : Z)
  (input : SendInput) : DB (Created MessageData) :=
  agent <- listAgents userId ;;
  let senderId :=
    match agent with
    | a :: _ => agent_id a
    | [] => "system"
    end in
  createMessage nanoid
    (mkMessageData userId (si_taskId input) senderId (si_recipientId input)
       (si_messageType input) (si_content input) (si_metadata input)).

Record Success := mkSuccess { success : bool }.

Definition alertsRouter_resolve (now : Time) (alertId : string) : DB Success :=
  resolveAlert now alertId ;;
  ret (mkSuccess true).

Definition available (w : Runtime Tables) : Prop :=
  fst (getDb w) = Returned true.

Definition connected (t : Tables) : Runtime Tables :=
  mkRuntime true (Some "mysql://localhost/swarm") false [] t.

(** The alert of a given id. *)
Definition by_alert (alertId : string) (a : Alert) : bool :=
  (alert_id a =? alertId)%string.

(** The values of the type and severity columns of an alert. *)
Definition alert_types : list string :=
  ["agent_failure"; "task_timeout"; "system_error"; "task_completion";
   "performance_degradation"].

Definition severities : list string := ["info"; "warning"; "critical"].

End Rev2Comm.

(** * Properties *)

(** ** The process monad and the driver *)

Lemma getDb_returns {T} (w : Runtime T) :
  exists b w', getDb w = (Returned b, w')
               /\ tables w' = tables w /\ _db w' = b.
Proof.
  unfold getDb.
  destruct (negb (_db w) && truthy_str (DATABASE_URL w)) eqn:E.
  - destruct (drizzle_throws w).
    + eexists _, _. cbn. repeat split.
    + eexists _, _. cbn. repeat split.
  - exists (_db w), w. repeat split.
Qed.

Lemma bind_run {T A B} (c : Async T A) (k : A -> Async T B) w a w' :
  c w = (Returned a, w') -> bind c k w = k a w'.
Proof.
  intros E. unfold bind. rewrite E. reflexivity.
Qed.

Lemma bind_throws {T A B} (c : Async T A) (k : A -> Async T B) w e w' :
  c w = (Thrown e, w') -> bind c k w = (Thrown e, w').
Proof.
  intros E. unfold bind. rewrite E. reflexivity.
Qed.

Lemma insert_run {T A} (stmt : T -> Completion T) (v : A) l (w : Runtime T) :
  try_catch (bind (execute stmt) (fun _ => ret v))
            (fun error => bind (log l) (fun _ => throw error)) w
  = match stmt (tables w) with
    | Returned t' => (Returned v, with_tables w t')
    | Thrown e => (Thrown e, with_console w (console w ++ [l]))
    end.
Proof.
  unfold try_catch, bind, execute, ret, log, throw.
  destruct (stmt (tables w)); reflexivity.
Qed.

Lemma update_run {T} (stmt : T -> Completion T) l (w : Runtime T) :
  try_catch (execute stmt)
            (fun error => bind (log l) (fun _ => throw error)) w
  = match stmt (tables w) with
    | Returned t' => (Returned tt, with_tables w t')
    | Thrown e => (Thrown e, with_console w (console w ++ [l]))
    end.
Proof.
  unfold try_catch, bind, execute, log, throw.
  destruct (stmt (tables w)); reflexivity.
Qed.

Lemma getDb_cached {T} (w : Runtime T) :
  _db w = true -> getDb w = (Returned true, w).
Proof.
  intros H. unfold getDb. rewrite H. reflexivity.
Qed.

Lemma getDb_available {T} (w : Runtime T) :
  fst (getDb w) = Returned true ->
  exists w', getDb w = (Returned true, w')
             /\ tables w' = tables w /\ _db w' = true.
Proof.
  intros H. destruct (getDb_returns w) as (b & w' & E & Ht & Hb).
  rewrite E in H. cbn in H. injection H as ->. eauto.
Qed.

Lemma getDb_unavailable {T} (w : Runtime T) :
  fst (getDb w) = Returned false ->
  exists w', getDb w = (Returned false, w') /\ tables w' = tables w.
Proof.
  intros H. destruct (getDb_returns w) as (b & w' & E & Ht & Hb).
  rewrite E in H. cbn in H. injection H as ->. eauto.
Qed.

Lemma first_of_select {R} (p : R -> bool) (rows : list R) :
  first_or_undefined (firstn 1 (select_where p rows)) = find p rows.
Proof.
  unfold select_where.
  induction rows as [|r rows IH]; cbn; [reflexivity|].
  destruct (p r); cbn; [reflexivity | exact IH].
Qed.

Lemma find_update_where {R} (p : R -> bool) (f : R -> R) (rows : list R) :
  (forall r, p (f r) = p r) ->
  find p (update_where p f rows) = option_map f (find p rows).
Proof.
  intros Hp. unfold update_where.
  induction rows as [|r rows IH]; cbn; [reflexivity|].
  destruct (p r) eqn:E.
  - rewrite Hp, E. reflexivity.
  - rewrite E. exact IH.
Qed.

Lemma update_where_other {R} (p : R -> bool) (f : R -> R) (rows : list R) r :
  In r rows -> p r = false -> In r (update_where p f rows).
Proof.
  intros Hin Hp. unfold update_where. apply in_map_iff.
  exists r. rewrite Hp. auto.
Qed.

Lemma last_default_irrelevant {A} (l : list A) a d d' :
  last (a :: l) d = last (a :: l) d'.
Proof.
  revert a. induction l as [|b l IH]; intros a; [reflexivity|].
  change (last (b :: l) d = last (b :: l) d'). apply IH.
Qed.

(** ** Doubles *)

Lemma Math_min_100 (x : number) :
  Math_min 100 x
  = if is_nan x then nan else if (100 <? x)%float then 100%float else x.
Proof.
  unfold Math_min.
  replace (is_nan 100) with false by reflexivity.
  replace (get_sign 100) with false by reflexivity.
  cbn [orb].
  destruct (is_nan x); [reflexivity|].
  destruct (100 <? x)%float; [reflexivity|].
  destruct (x <? 100)%float; reflexivity.
Qed.

Lemma Math_max_0 (x : number) :
  Math_max 0 x
  = if is_nan x then nan else if (0 <? x)%float then x else 0%float.
Proof.
  unfold Math_max.
  replace (is_nan 0) with false by reflexivity.
  replace (get_sign 0) with false by reflexivity.
  cbn [orb].
  destruct (is_nan x); [reflexivity|].
  destruct (0 <? x)%float; [reflexivity|].
  destruct (x <? 0)%float; reflexivity.
Qed.

(** ** What an operation leaves alone *)

Section Frames.
Context {T X : Type} (proj : T -> X).

Lemma frames_ret {A} (a : A) : frames proj (ret a).
Proof. intros w. reflexivity. Qed.

Lemma frames_throw {A} e : frames proj (@throw T A e).
Proof. intros w. reflexivity. Qed.

Lemma frames_log l : frames proj (@log T l).
Proof. intros w. reflexivity. Qed.

Lemma frames_read {A} (f : T -> A) : frames proj (read f).
Proof. intros w. reflexivity. Qed.

Lemma frames_getDb : frames proj (@getDb T).
Proof.
  intros w. destruct (getDb_returns w) as (b & w' & E & Ht & _).
  rewrite E. cbn. rewrite Ht. reflexivity.
Qed.

Lemma frames_bind {A B} (c : Async T A) (k : A -> Async T B) :
  frames proj c -> (forall a, frames proj (k a)) -> frames proj (bind c k).
Proof.
  intros Hc Hk w. unfold bind. specialize (Hc w).
  destruct (c w) as [[a|e] w']; cbn in *.
  - rewrite Hk. exact Hc.
  - exact Hc.
Qed.

Lemma frames_try_catch {A} (c : Async T A) h :
  frames proj c -> (forall e, frames proj (h e)) ->
  frames proj (try_catch c h).
Proof.
  intros Hc Hh w. unfold try_catch. specialize (Hc w).
  destruct (c w) as [[a|e] w']; cbn in *.
  - exact Hc.
  - rewrite Hh. exact Hc.
Qed.

Lemma frames_execute (stmt : T -> Completion T) :
  (forall t t', stmt t = Returned t' -> proj t' = proj t) ->
  frames proj (execute stmt).
Proof.
  intros H w. unfold execute.
  destruct (stmt (tables w)) as [t'|e] eqn:E; cbn; [|reflexivity].
  apply H. exact E.
Qed.
End Frames.

(** Closes a goal [frames proj c] when the statements of [c] are on
    tables that [proj] does not look at. *)
Ltac other_table :=
  let t := fresh "t" in
  let t' := fresh "t'" in
  let H := fresh "H" in
  intros t t' H;
  match type of H with
  | ?on_x ?f t = _ => unfold on_x in H
  end;
  match type of H with
  | match ?s with _ => _ end = _ => destruct s; [|discriminate]
  end;
  injection H as <-; reflexivity.

Ltac head_of t :=
  lazymatch t with
  | ?f _ => head_of f
  | _ => t
  end.

(** Unfolds the operation under [frames]. *)
Ltac open_operation :=
  match goal with
  | |- frames _ ?c => let h := head_of c in unfold h
  end.

Ltac framed :=
  cbv zeta;
  repeat first
    [ apply frames_ret
    | apply frames_throw
    | apply frames_log
    | apply frames_read
    | apply frames_getDb
    | apply frames_bind; [|intros ?]
    | apply frames_try_catch; [|intros ?]
    | apply frames_execute; other_table
    | match goal with
      | |- frames _ (if ?c then _ else _) => destruct c
      | |- frames _ (match ?x with _ => _ end) => destruct x
      end ].

Section Queries.
Import Rev1.

Lemma snd_observe {A} (f : A -> Outcome) (c : DB A) w :
  snd (observe f c w) = snd (c w).
Proof.
  unfold observe. destruct (c w) as [[a|e] w']; reflexivity.
Qed.

Lemma reads_frame {X} (proj : Tables -> X) op w :
  proj (tables (snd (run_read op w))) = proj (tables w).
Proof.
  destruct op; cbn [run_read]; rewrite snd_observe;
    match goal with
    | |- proj (tables (snd (?c w))) = _ =>
        assert (Hf : frames proj c); [|apply Hf]
    end.
  all: open_operation; framed.
Qed.

Lemma lists_frame {X} (proj : Tables -> X) op w :
  proj (tables (snd (run_list op w))) = proj (tables w).
Proof.
  destruct op; cbn [run_list]; rewrite snd_observe;
    match goal with
    | |- proj (tables (snd (?c w))) = _ =>
        assert (Hf : frames proj c); [|apply Hf]
    end.
  all: open_operation; framed.
Qed.

End Queries.

(** ** Agent metrics *)

Section AgentMetrics.
Import Rev1.

Lemma getAgent_connected (w : Runtime Tables) agentId :
  _db w = true ->
  getAgent agentId w = (Returned (find (by_id agentId) (agents (tables w))), w).
Proof.
  intros H. unfold getAgent, bind, read, ret.
  rewrite (getDb_cached w H). cbn [negb].
  rewrite first_of_select. reflexivity.
Qed.

(** C9, as stated, fails: without a database handle the call throws
    "Database not available" before it looks for the agent.  The
    counters of an agent that exists stay as they were, and for an id
    that no agent has the error is not "Agent not found". *)
Lemma updateAgentMetrics_without_database :
  let t := tables (snd (createAgent "agent-1" 0%Z testAgentData
                          (connected empty))) in
  unavailable (offline t)
  /\ option_map agent_totalExecutions (find (by_id "agent-1") (agents t))
     = Some (Some 0%float)
  /\ updateAgentMetrics 1%Z "agent-1" (Some 10%float) (Some 2%float)
       (offline t)
     = (Thrown DB_UNAVAILABLE, offline t)
  /\ find (by_id "agent-2") (agents t) = None
  /\ updateAgentMetrics 1%Z "agent-2" (Some 10%float) (Some 2%float)
       (offline t)
     = (Thrown DB_UNAVAILABLE, offline t)
  /\ DB_UNAVAILABLE <> Error "Agent not found".
Proof. repeat split. discriminate. Qed.

(** C9, amended. Without a handle [updateAgentMetrics] throws "Database
    not available" and changes nothing.  On a reachable database, with
    no agent of that id it throws "Agent not found" and changes no
    table; on an agent that exists it returns and writes, in double
    arithmetic and with absent, zero and NaN counts read as 0,
    - the total [(old total + s) + f] and the failures [old failures + f];
    - the success rate [((total - failed) / total) * 100] when the new
      total is greater than 0, and 100 otherwise;
    - the health score [Math.max(0, Math.min(100, rate))]: 100 for a
      rate above 100, 0 for a rate that is not above 0, the rate itself
      in between, and NaN for the rate NaN;
    - the time of update;
    and leaves the agent's other columns and every other agent as they
    were. *)
Theorem updateAgentMetrics_spec :
  forall (w : Runtime Tables) now agentId s f,
    let out := updateAgentMetrics now agentId s f w in
    (unavailable w ->
     fst out = Thrown DB_UNAVAILABLE /\ tables (snd out) = tables w)
    /\ (available w ->
        match find (by_id agentId) (agents (tables w)) with
        | Some a =>
            fst out = Returned tt
            /\ (exists a' total failed rate health,
                  find (by_id agentId) (agents (tables (snd out))) = Some a'
                  /\ agent_totalExecutions a' = Some total
                  /\ agent_failedExecutions a' = Some failed
                  /\ agent_successRate a' = Some rate
                  /\ agent_healthScore a' = Some health
                  /\ total
                     = (number_or (agent_totalExecutions a) 0
                        + number_or s 0 + number_or f 0)%float
                  /\ failed
                     = (number_or (agent_failedExecutions a) 0
                        + number_or f 0)%float
                  /\ ((0 <? total)%float = true ->
                      rate = ((total - failed) / total * 100)%float)
                  /\ ((0 <? total)%float = false -> rate = 100%float)
                  /\ health = Math_max 0 (Math_min 100 rate)
                  /\ (is_nan rate = true -> health = nan)
                  /\ (is_nan rate = false -> (100 <? rate)%float = true ->
                      health = 100%float)
                  /\ (is_nan rate = false -> (100 <? rate)%float = false ->
                      (0 <? rate)%float = true -> health = rate)
                  /\ (is_nan rate = false -> (100 <? rate)%float = false ->
                      (0 <? rate)%float = false -> health = 0%float)
                  /\ agent_updatedAt a' = now
                  /\ agent_id a' = agent_id a
                  /\ agent_name a' = agent_name a
                  /\ agent_type a' = agent_type a
                  /\ agent_description a' = agent_description a
                  /\ agent_capabilities a' = agent_capabilities a
                  /\ agent_llmModel a' = agent_llmModel a
                  /\ agent_parameters a' = agent_parameters a
                  /\ agent_integrationFramework a'
                     = agent_integrationFramework a
                  /\ agent_version a' = agent_version a
                  /\ agent_status a' = agent_status a
                  /\ agent_createdAt a' = agent_createdAt a)
            /\ (forall b, In b (agents (tables w)) -> agent_id b <> agentId ->
                          In b (agents (tables (snd out))))
        | None =>
            fst out = Thrown (Error "Agent not found")
            /\ tables (snd out) = tables w
        end).
Proof.
  intros w now agentId s f out. split.
  { intros Hun. destruct (getDb_unavailable w Hun) as (w1 & E1 & Ht).
    subst out. unfold updateAgentMetrics.
    rewrite (bind_run _ _ _ _ _ E1). cbn. split; [reflexivity | exact Ht]. }
  intros Hav.
  destruct (getDb_available w Hav) as (w1 & E1 & Ht & Hdb).
  subst out. unfold updateAgentMetrics.
  rewrite (bind_run _ _ _ _ _ E1). cbn [negb].
  rewrite (bind_run _ _ _ _ _ (getAgent_connected w1 agentId Hdb)).
  rewrite Ht.
  destruct (find (by_id agentId) (agents (tables w))) as [a|] eqn:Ef.
  - unfold try_catch, execute, on_agents, updating, bind, ret, with_tables.
    cbn [fst snd tables agents]. rewrite Ht.
    split; [reflexivity|]. split.
    + fold (by_id agentId).
      rewrite find_update_where by reflexivity.
      rewrite Ef. cbn [option_map].
      eexists _, _, _, _, _.
      do 7 (split; [reflexivity|]).
      match goal with
      | |- context [Math_max 0 (Math_min 100 ?r)] => set (rate := r)
      end.
      split; [intros H; unfold rate; rewrite H; reflexivity|].
      split; [intros H; unfold rate; rewrite H; reflexivity|].
      split; [reflexivity|].
      rewrite Math_min_100, Math_max_0.
      split; [intros H; rewrite H; reflexivity|].
      split; [intros Hn H; rewrite Hn, H; reflexivity|].
      split; [intros Hn H1 H0; rewrite Hn, H1, Hn, H0; reflexivity|].
      split; [intros Hn H1 H0; rewrite Hn, H1, Hn, H0; reflexivity|].
      repeat split.
    + intros b Hin Hne. apply update_where_other; [exact Hin|].
      apply String.eqb_neq. exact Hne.
  - unfold throw. cbn. split; [reflexivity | exact Ht].
Qed.

(** The agent of the test suite after ten successes and two failures:
    twelve executions, two of them failed, and a success rate of
    83.33333333333334, the double [0x1.4d55555555556p+6] that
    [(12 - 2) / 12 * 100] rounds to; the health score is the same. *)
Example metrics_after_twelve_runs :
  let w := snd (createAgent "agent-1" 0%Z testAgentData (connected empty)) in
  let w' :=
    snd (updateAgentMetrics 1%Z "agent-1" (Some 10%float) (Some 2%float) w) in
  exists a,
    find (by_id "agent-1") (agents (tables w')) = Some a
    /\ agent_totalExecutions a = Some 12%float
    /\ agent_failedExecutions a = Some 2%float
    /\ agent_successRate a = Some 0x1.4d55555555556p+6%float
    /\ agent_healthScore a = Some 0x1.4d55555555556p+6%float.
Proof.
  eexists. vm_compute. repeat split.
Qed.

(** The sums are rounded: an agent with 2^53 executions that runs once
    more, and fails once more, still has 2^53 executions. *)
Example increments_can_be_lost :
  let w := snd (createAgent "agent-1" 0%Z testAgentData (connected empty)) in
  let w1 :=
    snd (updateAgentMetrics 1%Z "agent-1" (Some 9007199254740992%float) None
           w) in
  let w2 :=
    snd (updateAgentMetrics 2%Z "agent-1" (Some 1%float) (Some 1%float) w1) in
  option_map agent_totalExecutions
    (find (by_id "agent-1") (agents (tables w1)))
  = Some (Some 9007199254740992%float)
  /\ option_map agent_totalExecutions
       (find (by_id "agent-1") (agents (tables w2)))
     = Some (Some 9007199254740992%float).
Proof.
  vm_compute. split; reflexivity.
Qed.

End AgentMetrics.

(** ** Workflow creation *)

Lemma createWorkflow1_run (w : Runtime Rev1.Tables) nanoid now d :
  exists b w1,
    getDb w = (Returned b, w1) /\ tables w1 = tables w /\ _db w1 = b
    /\ Rev1.createWorkflow nanoid now d w
       = if b then
           if has_key Rev1.workflow_id nanoid (Rev1.workflows (tables w))
           then (Thrown (Error "ER_DUP_ENTRY"),
                 with_console w1
                   (console w1 ++ [Err "[Database] Failed to create workflow:"]))
           else
             (Returned (mkCreated nanoid d),
              with_tables w1
                (Rev1.mkTables
                   (Rev1.users (tables w)) (Rev1.agents (tables w))
                   (Rev1.workflows (tables w)
                    ++ [Rev1.mkWorkflow nanoid (Rev1.wd_name d)
                          (Rev1.wd_description d)
                          (Rev1.wd_orchestrationPattern d)
                          (Rev1.wd_nodes d) (Rev1.wd_edges d)
                          (Rev1.wd_configuration d) Rev1.Draft
                          (Rev1.wd_templateId d) now now])
                   (Rev1.tasks (tables w)) (Rev1.agentMessages (tables w))
                   (Rev1.executionLogs (tables w))
                   (Rev1.systemAlerts (tables w))
                   (Rev1.agentMetrics (tables w))
                   (Rev1.workflowTemplates (tables w))
                   (Rev1.integrationModules (tables w))
                   (Rev1.llmProviders (tables w))))
         else (Thrown DB_UNAVAILABLE, w1).
Proof.
  destruct (getDb_returns w) as (b & w1 & E & Ht & Hb).
  exists b, w1. repeat (split; [assumption|]).
  unfold Rev1.createWorkflow. rewrite (bind_run _ _ _ _ _ E).
  destruct b; cbn [negb]; [|reflexivity].
  rewrite insert_run. unfold Rev1.on_workflows, insert_row.
  cbn [Rev1.workflow_id]. rewrite Ht.
  destruct (has_key Rev1.workflow_id nanoid (Rev1.workflows (tables w)));
    reflexivity.
Qed.

Lemma createWorkflow2_run (w : Runtime Rev2.Tables) nanoid d :
  exists b w1,
    getDb w = (Returned b, w1) /\ tables w1 = tables w /\ _db w1 = b
    /\ Rev2.createWorkflow nanoid d w
       = if b then
           if has_key Rev2.workflow_id ("workflow-" ++ nanoid)%string
                (Rev2.workflows (tables w))
           then (Thrown (Error "ER_DUP_ENTRY"),
                 with_console w1
                   (console w1 ++ [Err "[Database] Failed to create workflow:"]))
           else
             (Returned (mkCreated ("workflow-" ++ nanoid)%string d),
              with_tables w1
                (Rev2.mkTables
                   (Rev2.workflows (tables w)
                    ++ [Rev2.mkWorkflow ("workflow-" ++ nanoid)%string
                          (Rev2.wd_userId d)
                          (Rev2.wd_name d) (Rev2.wd_description d)
                          (Rev2.wd_orchestrationPattern d)
                          (any_or (Rev2.wd_nodes d) (JArr []))
                          (any_or (Rev2.wd_edges d) (JArr []))
                          (any_or (Rev2.wd_configuration d) (JObj []))
                          "draft" 1%Z])
                   (Rev2.tasks (tables w))
                   (Rev2.consensusResults (tables w))))
         else (Thrown DB_UNAVAILABLE, w1).
Proof.
  destruct (getDb_returns w) as (b & w1 & E & Ht & Hb).
  exists b, w1. repeat (split; [assumption|]).
  unfold Rev2.createWorkflow. rewrite (bind_run _ _ _ _ _ E).
  destruct b; cbn [negb]; [|reflexivity].
  rewrite insert_run. unfold Rev2.on_workflows, insert_row.
  cbn [Rev2.workflow_id]. rewrite Ht.
  destruct (has_key Rev2.workflow_id ("workflow-" ++ nanoid)%string
                (Rev2.workflows (tables w)));
    reflexivity.
Qed.

(** C8. In both revisions, a call of [createWorkflow] that returns has
    added exactly one workflow row, under the identifier it returns,
    and the status of that row is "draft", whatever the pattern, nodes,
    edges and configuration of the input. *)
Theorem createWorkflow_draft :
  (forall (w w' : Runtime Rev1.Tables) nanoid now d r,
      Rev1.createWorkflow nanoid now d w = (Returned r, w') ->
      exists row,
        Rev1.workflows (tables w') = Rev1.workflows (tables w) ++ [row]
        /\ Rev1.workflow_id row = id r
        /\ Rev1.workflow_status row = Rev1.Draft)
  /\ (forall (w w' : Runtime Rev2.Tables) nanoid d r,
      Rev2.createWorkflow nanoid d w = (Returned r, w') ->
      exists row,
        Rev2.workflows (tables w') = Rev2.workflows (tables w) ++ [row]
        /\ Rev2.workflow_id row = id r
        /\ Rev2.workflow_status row = "draft").
Proof.
  split.
  - intros w w' nanoid now d r H.
    destruct (createWorkflow1_run w nanoid now d) as (b & w1 & _ & _ & _ & E).
    rewrite E in H. clear E.
    destruct b; [|discriminate].
    destruct (has_key Rev1.workflow_id nanoid (Rev1.workflows (tables w)));
      [discriminate|].
    injection H as <- <-. eexists. cbn. repeat split.
  - intros w w' nanoid d r H.
    destruct (createWorkflow2_run w nanoid d) as (b & w1 & _ & _ & _ & E).
    rewrite E in H. clear E.
    destruct b; [|discriminate].
    destruct (has_key Rev2.workflow_id _ (Rev2.workflows (tables w)));
      [discriminate|].
    injection H as <- <-. eexists. cbn. repeat split.
Qed.

(** The workflow of the test suite, created in an empty database of
    either revision, comes out as a draft. *)
Lemma createWorkflow_draft_witness :
  (exists row,
      Rev1.workflows
        (tables (snd (Rev1.createWorkflow "wf-1" 0%Z Rev1.testWorkflowData
                        (Rev1.connected Rev1.empty))))
      = Rev1.workflows Rev1.empty ++ [row]
      /\ Rev1.workflow_id row = "wf-1"
      /\ Rev1.workflow_status row = Rev1.Draft)
  /\ (exists row,
      Rev2.workflows
        (tables (snd (Rev2.createWorkflow "1" Rev2.testWorkflowData
                        (Rev2.connected Rev2.empty))))
      = Rev2.workflows Rev2.empty ++ [row]
      /\ Rev2.workflow_id row = "workflow-1"
      /\ Rev2.workflow_status row = "draft").
Proof.
  split.
  - exact (proj1 createWorkflow_draft
             (Rev1.connected Rev1.empty) _ "wf-1" 0%Z Rev1.testWorkflowData _
             eq_refl).
  - exact (proj2 createWorkflow_draft
             (Rev2.connected Rev2.empty) _ "1" Rev2.testWorkflowData _
             eq_refl).
Defined.

(** The workflow of the test suite has an edge to [node2], which is not
    one of its nodes. *)
Example testWorkflowData_dangling :
  Rev1.well_referenced Rev1.testWorkflowData = false.
Proof. reflexivity. Qed.




(** ** Task status *)

Section TaskStatus.
Import Rev1.

Lemma cached_available (w : Runtime Tables) : _db w = true -> available w.
Proof.
  intros H. unfold available. rewrite (getDb_cached w H). reflexivity.
Qed.

Lemma updateTaskStatus_run (w : Runtime Tables) now taskId status result :
  exists b w1 u,
    getDb w = (Returned b, w1) /\ tables w1 = tables w /\ _db w1 = b
    /\ tu_status u = status
    /\ updateTaskStatus now taskId status result w
       = if b then
           (Returned tt,
            with_tables w1
              (mkTables
                 (users (tables w)) (agents (tables w))
                 (workflows (tables w))
                 (update_where (by_task taskId) (set_task u)
                               (tasks (tables w)))
                 (agentMessages (tables w)) (executionLogs (tables w))
                 (systemAlerts (tables w)) (agentMetrics (tables w))
                 (workflowTemplates (tables w))
                 (integrationModules (tables w))
                 (llmProviders (tables w))))
         else (Thrown DB_UNAVAILABLE, w1).
Proof.
  destruct (getDb_returns w) as (b & w1 & E & Ht & Hb).
  exists b, w1. eexists. repeat (split; [eassumption|]).
  split; [shelve|].
  unfold updateTaskStatus. rewrite (bind_run _ _ _ _ _ E).
  destruct b; cbn [negb]; [|reflexivity].
  rewrite update_run. unfold on_tasks, updating. rewrite Ht.
  reflexivity.
  Unshelve. reflexivity.
Qed.

Lemma createTask_run (w : Runtime Tables) nanoid now d :
  exists b w1,
    getDb w = (Returned b, w1) /\ tables w1 = tables w /\ _db w1 = b
    /\ createTask nanoid now d w
       = if b then
           if has_key task_id nanoid (tasks (tables w))
           then (Thrown (Error "ER_DUP_ENTRY"),
                 with_console w1
                   (console w1 ++ [Err "[Database] Failed to create task:"]))
           else
             (Returned (mkCreated nanoid d),
              with_tables w1
                (mkTables
                   (users (tables w)) (agents (tables w))
                   (workflows (tables w))
                   (tasks (tables w)
                    ++ [mkTask nanoid (td_workflowId d) (td_input d)
                          (td_assignedAgents d) (num_or (td_priority d) 5)
                          Pending NoConsensus now 0%Z None None None])
                   (agentMessages (tables w)) (executionLogs (tables w))
                   (systemAlerts (tables w)) (agentMetrics (tables w))
                   (workflowTemplates (tables w))
                   (integrationModules (tables w))
                   (llmProviders (tables w))))
         else (Thrown DB_UNAVAILABLE, w1).
Proof.
  destruct (getDb_returns w) as (b & w1 & E & Ht & Hb).
  exists b, w1. repeat (split; [assumption|]).
  unfold createTask. rewrite (bind_run _ _ _ _ _ E).
  destruct b; cbn [negb]; [|reflexivity].
  rewrite insert_run. unfold on_tasks, insert_row.
  cbn [task_id]. rewrite Ht.
  destruct (has_key task_id nanoid (tasks (tables w))); reflexivity.
Qed.

(** One status update on a reachable database. *)
Lemma status_update_step (w : Runtime Tables) now taskId status result x :
  available w ->
  find (by_task taskId) (tasks (tables w)) = Some x ->
  let w' := snd (taskRouter_updateStatus now taskId status result w) in
  _db w' = true
  /\ systemAlerts (tables w') = systemAlerts (tables w)
  /\ exists x',
      find (by_task taskId) (tasks (tables w')) = Some x'
      /\ task_status x' = status
      /\ task_retryCount x' = task_retryCount x.
Proof.
  intros Hav Hx w'. subst w'. unfold taskRouter_updateStatus.
  destruct (updateTaskStatus_run w now taskId status result)
    as (b & w1 & u & Eg & Ht & Hb & Hu & E).
  unfold available in Hav. rewrite Eg in Hav. cbn in Hav.
  injection Hav as ->.
  rewrite (bind_run _ _ _ _ _ E). cbn [ret snd with_tables tables _db].
  split; [exact Hb|]. split; [reflexivity|].
  cbn [tasks]. rewrite find_update_where by reflexivity.
  rewrite Hx. cbn [option_map]. eexists. split; [reflexivity|].
  split; [exact Hu | reflexivity].
Qed.

Lemma retry_counts_updated p u (rows : list Task) :
  map task_retryCount (update_where p (set_task u) rows)
  = map task_retryCount rows.
Proof.
  unfold update_where. rewrite map_map. apply map_ext.
  intros x. destruct (p x); reflexivity.
Qed.

(** One operation of the layer keeps the retry counts stored and adds
    at most zeros. *)
Lemma step_retry_counts op (w : Runtime Tables) :
  exists new,
    map task_retryCount (tasks (tables (snd (run op w))))
    = map task_retryCount (tasks (tables w)) ++ new
    /\ Forall (eq 0%Z) new.
Proof.
  assert (Hnone : forall l : list Task,
             l = tasks (tables w) ->
             exists new, map task_retryCount l
                         = map task_retryCount (tasks (tables w)) ++ new
                         /\ Forall (eq 0%Z) new).
  { intros l ->. exists []. rewrite app_nil_r.
    split; [reflexivity | constructor]. }
  destruct op as [r|l|x]; cbn [run].
  - apply Hnone, reads_frame.
  - apply Hnone, lists_frame.
  - destruct x; cbn [run_write]; rewrite snd_observe.
    7: { destruct (createTask_run w nanoid now taskData)
           as (b & w1 & _ & Ht & _ & E).
         rewrite E. clear E. destruct b; [|apply Hnone; cbn; congruence].
         destruct (has_key task_id nanoid (tasks (tables w)));
           [apply Hnone; cbn; congruence|].
         cbn. rewrite map_app. eexists. split; [reflexivity|].
         cbn. constructor; [reflexivity | constructor]. }
    7: { destruct (updateTaskStatus_run w now taskId status result)
           as (b & w1 & u & _ & Ht & _ & _ & E).
         rewrite E. clear E. destruct b; [|apply Hnone; cbn; congruence].
         cbn. rewrite retry_counts_updated. exists [].
         rewrite app_nil_r. split; [reflexivity | constructor]. }
    all: apply Hnone;
      match goal with
      | |- tasks (tables (snd (?c _))) = _ =>
          assert (Hf : frames tasks c); [open_operation; framed | apply Hf]
      end.
Qed.

Lemma history_retry_counts ops (w : Runtime Tables) :
  exists new,
    map task_retryCount (tasks (tables (run_all ops w)))
    = map task_retryCount (tasks (tables w)) ++ new
    /\ Forall (eq 0%Z) new.
Proof.
  revert w. induction ops as [|op rest IH]; intros w; cbn [run_all].
  - exists []. rewrite app_nil_r. split; [reflexivity | constructor].
  - destruct (step_retry_counts op w) as (n1 & E1 & P1).
    destruct (IH (snd (run op w))) as (n2 & E2 & P2).
    exists (n1 ++ n2). rewrite E2, E1, app_assoc.
    split; [reflexivity|]. apply Forall_app. split; assumption.
Qed.

(** C2, as stated, fails: a completed task is moved back to
    [pending] by the next status update. *)
Lemma completed_task_returns_to_pending :
  let w1 := snd (createTask "task-1" 0%Z testTaskData (connected empty)) in
  let w2 := update_all "task-1" [mkStatusChange 1%Z Completed None] w1 in
  let w3 := update_all "task-1" [mkStatusChange 2%Z Pending None] w2 in
  option_map task_status (find (by_task "task-1") (tasks (tables w2)))
  = Some Completed
  /\ option_map task_status (find (by_task "task-1") (tasks (tables w3)))
     = Some Pending
  /\ monotonic Completed Pending = false.
Proof. repeat split. Qed.

(** C2, amended. A status update sets the status of the task to the
    one requested, whatever the current one: after any run of updates
    on a reachable database the status is the last one requested (the
    original one for an empty run).  No update touches [retryCount],
    which a task gets as 0, with status [pending], when it is created;
    through any history of operations of the layer the retry counts
    stored stay as they are and the ones added are 0. *)
Theorem status_updates_overwrite :
  (forall changes (w : Runtime Tables) taskId x,
      available w ->
      find (by_task taskId) (tasks (tables w)) = Some x ->
      exists x',
        find (by_task taskId) (tasks (tables (update_all taskId changes w)))
        = Some x'
        /\ task_status x' = last (map sc_status changes) (task_status x)
        /\ task_retryCount x' = task_retryCount x)
  /\ (forall (w w' : Runtime Tables) nanoid now d r,
        createTask nanoid now d w = (Returned r, w') ->
        exists row,
          tasks (tables w') = tasks (tables w) ++ [row]
          /\ task_id row = id r
          /\ task_status row = Pending
          /\ task_retryCount row = 0%Z)
  /\ (forall ops (w : Runtime Tables),
        exists new,
          map task_retryCount (tasks (tables (run_all ops w)))
          = map task_retryCount (tasks (tables w)) ++ new
          /\ Forall (eq 0%Z) new).
Proof.
  split; [|split; [|exact history_retry_counts]].
  - induction changes as [|c rest IH]; intros w taskId x Hav Hx.
    + exists x. cbn. auto.
    + cbn [update_all].
      destruct (status_update_step w (sc_now c) taskId (sc_status c)
                  (sc_result c) x Hav Hx) as (Hdb & _ & x1 & Hx1 & Hs & Hr).
      destruct (IH _ taskId x1 (cached_available _ Hdb) Hx1)
        as (x' & Hx' & Hs' & Hr').
      exists x'. split; [exact Hx'|]. split.
      * rewrite Hs', Hs. cbn [map].
        destruct rest as [|c' rest']; [reflexivity|].
        cbn [map]. change (last (sc_status c :: sc_status c' :: map sc_status rest')
                          (task_status x))
          with (last (sc_status c' :: map sc_status rest') (task_status x)).
        apply last_default_irrelevant.
      * congruence.
  - intros w w' nanoid now d r H.
    destruct (createTask_run w nanoid now d) as (b & w1 & _ & _ & _ & E).
    rewrite E in H. clear E.
    destruct b; [|discriminate].
    destruct (has_key task_id nanoid (tasks (tables w))); [discriminate|].
    injection H as <- <-. eexists. cbn. repeat split.
Qed.

End TaskStatus.

Lemma status_updates_overwrite_witness :
  (exists x',
      find (Rev1.by_task "task-1")
        (Rev1.tasks
           (tables
              (Rev1.update_all "task-1"
                 [Rev1.mkStatusChange 1%Z Rev1.Running None;
                  Rev1.mkStatusChange 2%Z Rev1.Completed None;
                  Rev1.mkStatusChange 3%Z Rev1.Pending None]
                 (snd (Rev1.createTask "task-1" 0%Z Rev1.testTaskData
                         (Rev1.connected Rev1.empty))))))
      = Some x'
      /\ Rev1.task_status x' = Rev1.Pending
      /\ Rev1.task_retryCount x' = 0%Z)
  /\ (exists row,
        Rev1.tasks
          (tables (snd (Rev1.createTask "task-1" 0%Z Rev1.testTaskData
                          (Rev1.connected Rev1.empty))))
        = Rev1.tasks (tables (Rev1.connected Rev1.empty)) ++ [row]
        /\ Rev1.task_id row = "task-1"
        /\ Rev1.task_status row = Rev1.Pending
        /\ Rev1.task_retryCount row = 0%Z).
Proof.
  split.
  - exact (proj1 status_updates_overwrite
             [Rev1.mkStatusChange 1%Z Rev1.Running None;
              Rev1.mkStatusChange 2%Z Rev1.Completed None;
              Rev1.mkStatusChange 3%Z Rev1.Pending None]
             (snd (Rev1.createTask "task-1" 0%Z Rev1.testTaskData
                     (Rev1.connected Rev1.empty)))
             "task-1"
             (Rev1.mkTask "task-1" "workflow-123"
                (Some (JObj [("query", JStr "test query")]))
                (Some ["agent-1"; "agent-2"]) 1 Rev1.Pending Rev1.NoConsensus
                0%Z 0%Z None None None)
             eq_refl eq_refl).
  - exact (proj1 (proj2 status_updates_overwrite)
             (Rev1.connected Rev1.empty) _ "task-1" 0%Z Rev1.testTaskData _
             eq_refl).
Defined.

(** ** Alerts *)

Section Alerts.
Import Rev1.

(** C7, as stated, fails: a task is moved to the terminal status
    [failed] and the table of alerts is still empty. *)
Lemma terminal_update_creates_no_alert :
  let w1 := snd (createTask "task-1" 0%Z testTaskData (connected empty)) in
  let out := taskRouter_updateStatus 1%Z "task-1" Failed None w1 in
  fst out = Returned (mkSuccess true)
  /\ option_map task_status
       (find (by_task "task-1") (tasks (tables (snd out)))) = Some Failed
  /\ terminal Failed = true
  /\ systemAlerts (tables (snd out)) = [].
Proof. repeat split. Qed.

Lemma alerts_written_by_createAlert_only op (w : Runtime Tables) :
  (forall nanoid now d, op <> Mutate (CreateAlert nanoid now d)) ->
  systemAlerts (tables (snd (run op w))) = systemAlerts (tables w).
Proof.
  intros Hne. destruct op as [r|l|x]; cbn [run].
  - apply reads_frame.
  - apply lists_frame.
  - destruct x; cbn [run_write]; rewrite snd_observe;
      try (exfalso; eapply Hne; reflexivity);
      match goal with
      | |- systemAlerts (tables (snd (?c _))) = _ =>
          assert (Hf : frames systemAlerts c);
          [open_operation; framed | apply Hf]
      end.
Qed.

(** C7, amended. A status update, to a terminal status or not, leaves
    the table of alerts as it was.  An alert record exists only
    through a call of [createAlert], which stores the alert type, the
    severity ([info] when absent) and the related agent and task ids
    it is given, unresolved: of all the operations of the layer, a
    call that changes the table of alerts is a call of
    [createAlert]. *)
Theorem status_update_emits_no_alert :
  (forall (w : Runtime Tables) now taskId status result,
      systemAlerts
        (tables (snd (taskRouter_updateStatus now taskId status result w)))
      = systemAlerts (tables w))
  /\ (forall op (w : Runtime Tables),
        systemAlerts (tables (snd (run op w))) <> systemAlerts (tables w) ->
        exists nanoid now d, op = Mutate (CreateAlert nanoid now d))
  /\ (forall (w w' : Runtime Tables) nanoid now d r,
        alertsRouter_create nanoid now d w = (Returned r, w') ->
        exists row,
          systemAlerts (tables w') = systemAlerts (tables w) ++ [row]
          /\ alert_id row = id r
          /\ alert_alertType row = al_alertType d
          /\ alert_severity row
             = match al_severity d with Some s => s | None => SevInfo end
          /\ alert_relatedAgentId row = al_relatedAgentId d
          /\ alert_relatedTaskId row = al_relatedTaskId d
          /\ alert_isResolved row = false).
Proof.
  split; [|split].
  - intros w now taskId status result. unfold taskRouter_updateStatus.
    destruct (updateTaskStatus_run w now taskId status result)
      as (b & w1 & u & _ & Ht & _ & _ & E).
    destruct b.
    + rewrite (bind_run _ _ _ _ _ E). reflexivity.
    + rewrite (bind_throws _ _ _ _ _ E). cbn. rewrite Ht. reflexivity.
  - intros op w Hch.
    destruct op as [r|l|x];
      try (exfalso; apply Hch;
           apply alerts_written_by_createAlert_only; discriminate).
    destruct x;
      try (exfalso; apply Hch;
           apply alerts_written_by_createAlert_only; discriminate).
    eexists _, _, _. reflexivity.
  - intros w w' nanoid now d r. unfold alertsRouter_create, createAlert.
    destruct (getDb_returns w) as (b & w1 & Eg & Ht & _).
    rewrite (bind_run _ _ _ _ _ Eg).
    destruct b; cbn [negb]; [|discriminate].
    rewrite insert_run. unfold on_systemAlerts, insert_row.
    destruct (has_key alert_id _ _); [discriminate|].
    intros H. injection H as <- <-. rewrite Ht.
    eexists. cbn. repeat split.
Qed.

End Alerts.

Lemma status_update_emits_no_alert_witness :
  (exists nanoid now d,
      Rev1.Mutate
        (Rev1.CreateAlert "alert-1" 0%Z
           (Rev1.mkAlertData Rev1.TaskTimeout None "Task Timeout"
              (Some "Task exceeded timeout") None (Some "task-1")))
      = Rev1.Mutate (Rev1.CreateAlert nanoid now d))
  /\ exists row,
    Rev1.systemAlerts
      (tables (snd (Rev1.alertsRouter_create "alert-1" 0%Z
                      (Rev1.mkAlertData Rev1.TaskTimeout None "Task Timeout"
                         (Some "Task exceeded timeout") None (Some "task-1"))
                      (Rev1.connected Rev1.empty))))
    = Rev1.systemAlerts (tables (Rev1.connected Rev1.empty)) ++ [row]
    /\ Rev1.alert_id row = "alert-1"
    /\ Rev1.alert_alertType row = Rev1.TaskTimeout
    /\ Rev1.alert_severity row = Rev1.SevInfo
    /\ Rev1.alert_relatedAgentId row = None
    /\ Rev1.alert_relatedTaskId row = Some "task-1"
    /\ Rev1.alert_isResolved row = false.
Proof.
  split.
  - refine (proj1 (proj2 status_update_emits_no_alert)
              (Rev1.Mutate
                 (Rev1.CreateAlert "alert-1" 0%Z
                    (Rev1.mkAlertData Rev1.TaskTimeout None "Task Timeout"
                       (Some "Task exceeded timeout") None (Some "task-1"))))
              (Rev1.connected Rev1.empty) _).
    cbn. discriminate.
  - exact (proj2 (proj2 status_update_emits_no_alert)
             (Rev1.connected Rev1.empty) _ "alert-1" 0%Z
             (Rev1.mkAlertData Rev1.TaskTimeout None "Task Timeout"
                (Some "Task exceeded timeout") None (Some "task-1"))
             _ eq_refl).
Defined.

(** ** Consensus results *)

Section Consensus.
Import Rev2.

Lemma saveConsensusResult_run (w : Runtime Tables) nanoid d :
  exists b w1,
    getDb w = (Returned b, w1) /\ tables w1 = tables w /\ _db w1 = b
    /\ saveConsensusResult nanoid d w
       = if b then
           if has_key consensus_id ("consensus-" ++ nanoid)%string
                (consensusResults (tables w))
           then (Thrown (Error "ER_DUP_ENTRY"),
                 with_console w1
                   (console w1
                    ++ [Err "[Database] Failed to save consensus result:"]))
           else
             (Returned (mkCreated ("consensus-" ++ nanoid)%string d),
              with_tables w1
                (mkTables
                   (workflows (tables w)) (tasks (tables w))
                   (consensusResults (tables w)
                    ++ [mkConsensusResult ("consensus-" ++ nanoid)%string
                          (cd_userId d) (cd_taskId d)
                          (cd_consensusType d)
                          (any_or (cd_agentResults d) (JArr []))
                          (any_or (cd_finalResult d) (JObj []))
                          (num_or (cd_confidence d) 0)])))
         else (Thrown DB_UNAVAILABLE, w1).
Proof.
  destruct (getDb_returns w) as (b & w1 & E & Ht & Hb).
  exists b, w1. repeat (split; [assumption|]).
  unfold saveConsensusResult. rewrite (bind_run _ _ _ _ _ E).
  destruct b; cbn [negb]; [|reflexivity].
  rewrite insert_run. unfold on_consensusResults, insert_row.
  cbn [consensus_id]. rewrite Ht.
  destruct (has_key consensus_id ("consensus-" ++ nanoid)%string
              (consensusResults (tables w)));
    reflexivity.
Qed.

(** C1, as stated, fails: saved as a voting consensus over the
    answers "A", "A", "B" of the scenario, the record holds the final
    value "B" and the confidence 0.95 that the caller sent along. *)
Lemma voting_record_holds_the_callers_value :
  let input :=
    mkConsensusInput "task-1" Voting (Some scenario_results)
      (Some (JObj [("value", JStr "B")])) (Some (95 # 100)) in
  let out := consensusRouter_save "1" 1%Z input (connected empty) in
  exists row,
    consensusResults (tables (snd out)) = [row]
    /\ consensus_consensusType row = "voting"
    /\ consensus_agentResults row = JArr scenario_results
    /\ field "value" (consensus_finalResult row) = Some (JStr "B")
    /\ ~ consensus_confidence row == scenario_confidence.
Proof.
  eexists. repeat split. cbn. intros H. discriminate H.
Qed.

(** C1, amended. Saving a consensus computes nothing from the
    per-agent results: on a reachable database and under an unused
    identifier the record stored holds, as final value and
    confidence, the ones the caller supplies ([{}] and 0 when it
    supplies none), next to the per-agent results as given. *)
Theorem consensus_record_is_the_callers :
  forall (w : Runtime Tables) nanoid userId input,
    available w ->
    has_key consensus_id ("consensus-" ++ nanoid)%string
            (consensusResults (tables w)) = false ->
    let out := consensusRouter_save nanoid userId input w in
    (exists r, fst out = Returned r /\ id r = ("consensus-" ++ nanoid)%string)
    /\ exists row,
        consensusResults (tables (snd out))
        = consensusResults (tables w) ++ [row]
        /\ consensus_id row = ("consensus-" ++ nanoid)%string
        /\ consensus_agentResults row
           = match ci_agentResults input with
             | Some l => JArr l
             | None => JArr []
             end
        /\ consensus_finalResult row = any_or (ci_finalResult input) (JObj [])
        /\ consensus_confidence row = num_or (ci_confidence input) 0.
Proof.
  intros w nanoid userId input Hav Hfresh out. subst out.
  unfold consensusRouter_save.
  match goal with
  | |- context [saveConsensusResult nanoid ?d w] =>
      destruct (saveConsensusResult_run w nanoid d)
        as (b & w1 & Eg & Ht & Hb & E)
  end.
  rewrite E. clear E. unfold available in Hav.
  rewrite Eg in Hav. cbn in Hav. injection Hav as ->.
  rewrite Hfresh. cbn. split; [eexists; split; reflexivity|].
  eexists. split; [reflexivity|]. split; [reflexivity|].
  split; [|split; reflexivity].
  destruct (ci_agentResults input); reflexivity.
Qed.

(** C4, as stated, fails: a consensus with an empty list of
    per-agent results is saved, nothing is thrown, and the task it
    belongs to is still running. *)
Lemma empty_result_set_is_saved :
  let w1 :=
    snd (updateTaskStatus 1%Z "task-1" "running" None
           (snd (createTask "1" testTaskData (connected empty)))) in
  let input := mkConsensusInput "task-1" Voting (Some []) None None in
  let out := consensusRouter_save "1" 1%Z input w1 in
  (exists r, fst out = Returned r)
  /\ List.length (consensusResults (tables (snd out))) = 1%nat
  /\ option_map task_status
       (find (by_task "task-1") (tasks (tables (snd out))))
     = Some "running".
Proof.
  repeat split. eexists. reflexivity.
Qed.

(** C4, amended. Saving a consensus never touches a task and never
    raises an error of its own: what it throws is "Database not
    available" or the driver's error.  With an empty or missing list of
    per-agent results it succeeds like with any other (reachable
    database, unused identifier) and stores the empty list. *)
Theorem empty_result_set_accepted :
  forall (w : Runtime Tables) nanoid d,
    let out := saveConsensusResult nanoid d w in
    tasks (tables (snd out)) = tasks (tables w)
    /\ (forall e, fst out = Thrown e ->
          e = DB_UNAVAILABLE \/ e = Error "ER_DUP_ENTRY")
    /\ (available w ->
        has_key consensus_id ("consensus-" ++ nanoid)%string
                (consensusResults (tables w)) = false ->
        empty_results (cd_agentResults d) = true ->
        fst out = Returned (mkCreated ("consensus-" ++ nanoid)%string d)
        /\ exists row,
            consensusResults (tables (snd out))
            = consensusResults (tables w) ++ [row]
            /\ consensus_taskId row = cd_taskId d
            /\ consensus_agentResults row = JArr []).
Proof.
  intros w nanoid d out. subst out.
  destruct (saveConsensusResult_run w nanoid d)
    as (b & w1 & Eg & Ht & Hb & E).
  rewrite E. clear E. split; [|split].
  - destruct b; [|cbn; rewrite Ht; reflexivity].
    destruct (has_key consensus_id ("consensus-" ++ nanoid)%string
                (consensusResults (tables w)));
      cbn; [rewrite Ht|]; reflexivity.
  - intros e He. destruct b.
    + destruct (has_key consensus_id ("consensus-" ++ nanoid)%string
                  (consensusResults (tables w)));
        [|discriminate].
      cbn in He. injection He as <-. auto.
    + cbn in He. injection He as <-. auto.
  - intros Hav Hfresh Hempty. unfold available in Hav.
    rewrite Eg in Hav. cbn in Hav. injection Hav as ->.
    rewrite Hfresh. cbn. split; [reflexivity|].
    eexists. split; [reflexivity|]. split; [reflexivity|]. cbn.
    destruct (cd_agentResults d) as [[| | | |[|]|]|]; cbn in Hempty;
      try discriminate; reflexivity.
Qed.

End Consensus.

(** The scenario saved with the final value "A" and the confidence
    (0.9 + 0.6) / 2.45 computed by the caller: the record holds them. *)
Lemma consensus_record_is_the_callers_witness :
  let input :=
    Rev2.mkConsensusInput "task-1" Rev2.Voting (Some Rev2.scenario_results)
      (Some (JObj [("value", JStr "A")])) (Some Rev2.scenario_confidence) in
  let out :=
    Rev2.consensusRouter_save "1" 1%Z input
      (Rev2.connected Rev2.empty) in
  (exists r, fst out = Returned r /\ id r = "consensus-1")
  /\ exists row,
      Rev2.consensusResults (tables (snd out))
      = Rev2.consensusResults (tables (Rev2.connected Rev2.empty)) ++ [row]
      /\ Rev2.consensus_id row = "consensus-1"
      /\ Rev2.consensus_agentResults row = JArr Rev2.scenario_results
      /\ Rev2.consensus_finalResult row = JObj [("value", JStr "A")]
      /\ Rev2.consensus_confidence row = Rev2.scenario_confidence.
Proof.
  exact (consensus_record_is_the_callers
           (Rev2.connected Rev2.empty) "1" 1%Z
           (Rev2.mkConsensusInput "task-1" Rev2.Voting
              (Some Rev2.scenario_results)
              (Some (JObj [("value", JStr "A")]))
              (Some Rev2.scenario_confidence))
           eq_refl eq_refl).
Defined.

Lemma empty_result_set_accepted_witness :
  let d := Rev2.mkConsensusData 1%Z "task-1" "voting" None None None in
  let out :=
    Rev2.saveConsensusResult "1" d (Rev2.connected Rev2.empty) in
  (Error "Database not available" = DB_UNAVAILABLE
   \/ Error "Database not available" = Error "ER_DUP_ENTRY")
  /\ (fst out = Returned (mkCreated "consensus-1" d)
      /\ exists row,
          Rev2.consensusResults (tables (snd out))
          = Rev2.consensusResults (tables (Rev2.connected Rev2.empty)) ++ [row]
          /\ Rev2.consensus_taskId row = "task-1"
          /\ Rev2.consensus_agentResults row = JArr []).
Proof.
  split.
  - exact (proj1 (proj2 (empty_result_set_accepted
                           (mkRuntime false None false [] Rev2.empty)
                           "1"
                           (Rev2.mkConsensusData 1%Z "task-1" "voting"
                              None None None)))
                 (Error "Database not available") eq_refl).
  - exact (proj2 (proj2 (empty_result_set_accepted
                           (Rev2.connected Rev2.empty) "1"
                           (Rev2.mkConsensusData 1%Z "task-1" "voting"
                              None None None)))
                 eq_refl eq_refl eq_refl).
Defined.

(** ** Messages *)

Section Messages.
Import Rev1.

(** Every mutation but [createMessage] leaves the messages alone. *)
Lemma writes_frame_messages op w :
  (forall nanoid now d, op <> CreateMessage nanoid now d) ->
  agentMessages (tables (snd (run_write op w))) = agentMessages (tables w).
Proof.
  intros Hop.
  destruct op; cbn [run_write]; rewrite snd_observe;
    try (exfalso; eapply Hop; reflexivity);
    match goal with
    | |- agentMessages (tables (snd (?c w))) = _ =>
        assert (Hf : frames agentMessages c); [|apply Hf]
    end.
  all: open_operation; framed.
Qed.

Lemma createMessage_appends nanoid now d (w : Runtime Tables) :
  exists new,
    agentMessages (tables (snd (createMessage nanoid now d w)))
    = agentMessages (tables w) ++ new
    /\ pending_only new.
Proof.
  unfold createMessage.
  destruct (getDb_returns w) as (b & w1 & E & Ht & _).
  rewrite (bind_run _ _ _ _ _ E).
  destruct b; cbn [negb].
  - rewrite insert_run. unfold on_agentMessages, insert_row.
    destruct (has_key message_id _ _); cbn; rewrite Ht.
    + exists []. rewrite app_nil_r. split; [reflexivity | constructor].
    + eexists. split; [reflexivity|].
      constructor; [reflexivity | constructor].
  - cbn. rewrite Ht. exists []. rewrite app_nil_r.
    split; [reflexivity | constructor].
Qed.

Lemma step_appends_pending op (w : Runtime Tables) :
  exists new,
    agentMessages (tables (snd (run op w))) = agentMessages (tables w) ++ new
    /\ pending_only new.
Proof.
  assert (Hnone : forall l : list Message,
             l = agentMessages (tables w) ->
             exists new, l = agentMessages (tables w) ++ new
                         /\ pending_only new).
  { intros l ->. exists []. rewrite app_nil_r.
    split; [reflexivity | constructor]. }
  destruct op as [r|l|x]; cbn [run].
  - apply Hnone, reads_frame.
  - apply Hnone, lists_frame.
  - destruct x;
      try (apply Hnone, writes_frame_messages; intros; discriminate).
    cbn [run_write]. rewrite snd_observe. apply createMessage_appends.
Qed.

Lemma history_appends_pending ops (w : Runtime Tables) :
  exists new,
    agentMessages (tables (run_all ops w)) = agentMessages (tables w) ++ new
    /\ pending_only new.
Proof.
  revert w. induction ops as [|op rest IH]; intros w; cbn [run_all].
  - exists []. rewrite app_nil_r. split; [reflexivity | constructor].
  - destruct (step_appends_pending op w) as (n1 & E1 & P1).
    destruct (IH (snd (run op w))) as (n2 & E2 & P2).
    exists (n1 ++ n2). rewrite E2, E1, app_assoc.
    split; [reflexivity|]. apply Forall_app. split; assumption.
Qed.

(** C5, as stated, fails: no history of operations on an empty
    database ever shows a message whose delivery status is not
    [pending]; nothing delivers, acknowledges or fails a message. *)
Lemma no_operation_moves_a_message :
  ~ exists ops (w : Runtime Tables) m,
      tables w = empty
      /\ In m (agentMessages (tables (run_all ops w)))
      /\ message_deliveryStatus m <> DeliveryPending.
Proof.
  intros (ops & w & m & Hw & Hin & Hne).
  destruct (history_appends_pending ops w) as (new & E & P).
  rewrite E, Hw in Hin. cbn in Hin.
  apply Hne. unfold pending_only in P. rewrite Forall_forall in P.
  apply P. exact Hin.
Qed.

(** C5, amended. A message is stored with delivery status [pending]
    and keeps it: through any history of operations of the layer the
    messages already stored stay as they are, in place, and the ones
    added are [pending].  No operation retries a delivery or writes
    [delivered], [acknowledged] or [failed]. *)
Theorem delivery_status_stays_pending :
  (forall (w w' : Runtime Tables) nanoid now d r,
      communicationRouter_sendMessage nanoid now d w = (Returned r, w') ->
      exists m,
        agentMessages (tables w') = agentMessages (tables w) ++ [m]
        /\ message_id m = id r
        /\ message_deliveryStatus m = DeliveryPending)
  /\ (forall ops (w : Runtime Tables),
        exists new,
          agentMessages (tables (run_all ops w))
          = agentMessages (tables w) ++ new
          /\ pending_only new).
Proof.
  split.
  - intros w w' nanoid now d r.
    unfold communicationRouter_sendMessage, createMessage.
    destruct (getDb_returns w) as (b & w1 & Eg & Ht & _).
    rewrite (bind_run _ _ _ _ _ Eg).
    destruct b; cbn [negb]; [|discriminate].
    rewrite insert_run. unfold on_agentMessages, insert_row.
    destruct (has_key message_id _ _); [discriminate|].
    intros H. injection H as <- <-. rewrite Ht.
    eexists. cbn. repeat split.
  - exact history_appends_pending.
Qed.
End Messages.

Lemma delivery_status_stays_pending_witness :
  exists m,
    Rev1.agentMessages
      (tables (snd (Rev1.communicationRouter_sendMessage "msg-1" 0%Z
                      Rev1.testMessageData (Rev1.connected Rev1.empty))))
    = Rev1.agentMessages (tables (Rev1.connected Rev1.empty)) ++ [m]
    /\ Rev1.message_id m = "msg-1"
    /\ Rev1.message_deliveryStatus m = Rev1.DeliveryPending.
Proof.
  exact (proj1 delivery_status_stays_pending
           (Rev1.connected Rev1.empty) _ "msg-1" 0%Z Rev1.testMessageData _
           eq_refl).
Defined.

(** ** Without a database *)

Section Unavailable.
Import Rev1.

(** Runs an operation whose handle came back [null]. *)
Ltac without_db E Ht :=
  cbv zeta; rewrite (bind_run _ _ _ _ _ E); cbn;
  split; [reflexivity | cbn; rewrite ?Ht; reflexivity].

Lemma read_unavailable op (w w1 : Runtime Tables) :
  getDb w = (Returned false, w1) -> tables w1 = tables w ->
  exists w', run_read op w = (NoRow, w') /\ tables w' = tables w.
Proof.
  intros E Ht.
  destruct op; cbn [run_read]; unfold observe.
  - unfold getUserByOpenId. eexists. without_db E Ht.
  - unfold getAgent. eexists. without_db E Ht.
  - unfold getWorkflow. eexists. without_db E Ht.
  - unfold getTask. eexists. without_db E Ht.
  - unfold getTemplate. eexists. without_db E Ht.
  - unfold getIntegration. eexists. without_db E Ht.
  - unfold getDefaultLLMProvider. eexists. without_db E Ht.
Qed.

Lemma list_unavailable op (w w1 : Runtime Tables) :
  getDb w = (Returned false, w1) -> tables w1 = tables w ->
  exists w', run_list op w = (Rows 0, w') /\ tables w' = tables w.
Proof.
  intros E Ht.
  destruct op; cbn [run_list]; unfold observe.
  - unfold listAgents. eexists. without_db E Ht.
  - unfold listWorkflows. eexists. without_db E Ht.
  - unfold getConversationHistory. eexists. without_db E Ht.
  - unfold getTaskLogs. eexists. without_db E Ht.
  - unfold getUnresolvedAlerts. eexists. without_db E Ht.
  - unfold getAgentMetrics. eexists. without_db E Ht.
  - unfold getWorkflowTemplates. eexists. without_db E Ht.
  - unfold listIntegrations. eexists. without_db E Ht.
  - unfold listLLMProviders. eexists. without_db E Ht.
Qed.

Lemma write_unavailable op (w w1 : Runtime Tables) :
  getDb w = (Returned false, w1) -> tables w1 = tables w ->
  is_upsert op = false ->
  exists w', run_write op w = (Raised DB_UNAVAILABLE, w')
             /\ tables w' = tables w.
Proof.
  intros E Ht Hop.
  destruct op; try discriminate Hop; cbn [run_write]; unfold observe.
  - unfold createAgent. eexists. without_db E Ht.
  - unfold updateAgentStatus. eexists. without_db E Ht.
  - unfold updateAgentMetrics. eexists. without_db E Ht.
  - unfold createWorkflow. eexists. without_db E Ht.
  - unfold updateWorkflowStatus. eexists. without_db E Ht.
  - unfold createTask. eexists. without_db E Ht.
  - unfold updateTaskStatus. eexists. without_db E Ht.
  - unfold createMessage. eexists. without_db E Ht.
  - unfold createExecutionLog. eexists. without_db E Ht.
  - unfold createAlert. eexists. without_db E Ht.
  - unfold recordMetric. eexists. without_db E Ht.
Qed.

Lemma upsert_unavailable ownerOpenId now user (w w1 : Runtime Tables) :
  getDb w = (Returned false, w1) -> tables w1 = tables w ->
  exists w',
    run_write (UpsertUser ownerOpenId now user) w
    = (if (iu_openId user =? "")%string
       then Raised (Error "User openId is required for upsert")
       else Done, w')
    /\ tables w' = tables w
    /\ console w'
       = if (iu_openId user =? "")%string
         then console w
         else console w1
              ++ [Warn "[Database] Cannot upsert user: database not available"].
Proof.
  intros E Ht. cbn [run_write]. unfold observe, upsertUser.
  destruct (iu_openId user =? "")%string.
  - exists w. repeat split.
  - eexists. cbv zeta. rewrite (bind_run _ _ _ _ _ E). cbn.
    split; [reflexivity|]. split; [exact Ht | reflexivity].
Qed.

(** C10, as stated, fails: without a database [upsertUser], a write
    operation, returns normally instead of throwing. *)
Lemma upsertUser_returns_without_database :
  unavailable (offline empty)
  /\ fst (run_write (UpsertUser "owner-1" 0%Z testUser) (offline empty))
     = Done
  /\ fst (upsertUser "owner-1" 0%Z testUser (offline empty)) = Returned tt
  /\ console (snd (upsertUser "owner-1" 0%Z testUser (offline empty)))
     = [Warn "[Database] Cannot upsert user: database not available"].
Proof. repeat split. Qed.

(** C10, amended. While the handle is unavailable every lookup
    returns [undefined], every listing returns the empty list, and
    every write operation other than [upsertUser] throws "Database
    not available"; [upsertUser] throws "User openId is required for
    upsert" on an empty [openId], before it asks for the handle, and
    otherwise returns after the warning "[Database] Cannot upsert
    user: database not available", the one line it adds to the console
    that [getDb] leaves.  None of these calls changes a table. *)
Theorem unavailable_database :
  forall w : Runtime Tables,
    unavailable w ->
    (forall op, exists w',
        run_read op w = (NoRow, w') /\ tables w' = tables w)
    /\ (forall op, exists w',
          run_list op w = (Rows 0, w') /\ tables w' = tables w)
    /\ (forall op, is_upsert op = false ->
          exists w',
            run_write op w = (Raised DB_UNAVAILABLE, w')
            /\ tables w' = tables w)
    /\ (forall ownerOpenId now user, exists w',
          run_write (UpsertUser ownerOpenId now user) w
          = (if (iu_openId user =? "")%string
             then Raised (Error "User openId is required for upsert")
             else Done, w')
          /\ tables w' = tables w
          /\ console w'
             = if (iu_openId user =? "")%string
               then console w
               else console (snd (getDb w))
                    ++ [Warn
                          "[Database] Cannot upsert user: database not available"]).
Proof.
  intros w Hun. destruct (getDb_unavailable w Hun) as (w1 & E & Ht).
  split; [|split; [|split]].
  - intros op. exact (read_unavailable op w w1 E Ht).
  - intros op. exact (list_unavailable op w w1 E Ht).
  - intros op Hop. exact (write_unavailable op w w1 E Ht Hop).
  - intros o n u. rewrite E. exact (upsert_unavailable o n u w w1 E Ht).
Qed.

End Unavailable.

Lemma unavailable_database_witness :
  (exists w',
      Rev1.run_read (Rev1.GetTask "task-1") (Rev1.offline Rev1.empty)
      = (Rev1.NoRow, w')
      /\ tables w' = tables (Rev1.offline Rev1.empty))
  /\ (exists w',
        Rev1.run_list (Rev1.GetTaskLogs "task-1" None)
          (Rev1.offline Rev1.empty)
        = (Rev1.Rows 0, w')
        /\ tables w' = tables (Rev1.offline Rev1.empty))
  /\ (exists w',
        Rev1.run_write (Rev1.CreateTask "task-1" 0%Z Rev1.testTaskData)
          (Rev1.offline Rev1.empty)
        = (Rev1.Raised DB_UNAVAILABLE, w')
        /\ tables w' = tables (Rev1.offline Rev1.empty))
  /\ (exists w',
        Rev1.run_write (Rev1.UpsertUser "owner-1" 0%Z Rev1.testUser)
          (Rev1.offline Rev1.empty)
        = (Rev1.Done, w')
        /\ tables w' = tables (Rev1.offline Rev1.empty)
        /\ console w'
           = [Warn "[Database] Cannot upsert user: database not available"]).
Proof.
  destruct (unavailable_database (Rev1.offline Rev1.empty) eq_refl)
    as (Hr & Hl & Hw & Hu).
  split; [exact (Hr (Rev1.GetTask "task-1"))|].
  split; [exact (Hl (Rev1.GetTaskLogs "task-1" None))|].
  split; [exact (Hw (Rev1.CreateTask "task-1" 0%Z Rev1.testTaskData) eq_refl)|].
  exact (Hu "owner-1" 0%Z Rev1.testUser).
Defined.

(** The agent of the test suite after ten successes and two failures,
    and the same call without a handle. *)
Lemma updateAgentMetrics_spec_witness :
  let w :=
    snd (Rev1.createAgent "agent-1" 0%Z Rev1.testAgentData
           (Rev1.connected Rev1.empty)) in
  let out :=
    Rev1.updateAgentMetrics 1%Z "agent-1" (Some 10%float) (Some 2%float) w in
  let off :=
    Rev1.updateAgentMetrics 1%Z "agent-1" (Some 10%float) (Some 2%float)
      (Rev1.offline (tables w)) in
  (fst off = Thrown DB_UNAVAILABLE /\ tables (snd off) = tables w)
  /\ fst out = Returned tt
  /\ (exists a' total failed rate health,
        find (Rev1.by_id "agent-1") (Rev1.agents (tables (snd out))) = Some a'
        /\ Rev1.agent_totalExecutions a' = Some total
        /\ Rev1.agent_failedExecutions a' = Some failed
        /\ Rev1.agent_successRate a' = Some rate
        /\ Rev1.agent_healthScore a' = Some health
        /\ total = 12%float
        /\ failed = 2%float
        /\ ((0 <? total)%float = true ->
            rate = ((total - failed) / total * 100)%float)
        /\ ((0 <? total)%float = false -> rate = 100%float)
        /\ health = Math_max 0 (Math_min 100 rate)
        /\ (is_nan rate = true -> health = nan)
        /\ (is_nan rate = false -> (100 <? rate)%float = true ->
            health = 100%float)
        /\ (is_nan rate = false -> (100 <? rate)%float = false ->
            (0 <? rate)%float = true -> health = rate)
        /\ (is_nan rate = false -> (100 <? rate)%float = false ->
            (0 <? rate)%float = false -> health = 0%float)
        /\ Rev1.agent_updatedAt a' = 1%Z
        /\ Rev1.agent_id a' = "agent-1"
        /\ Rev1.agent_name a' = Rev1.ad_name Rev1.testAgentData
        /\ Rev1.agent_type a' = Rev1.ad_type Rev1.testAgentData
        /\ Rev1.agent_description a'
           = Rev1.ad_description Rev1.testAgentData
        /\ Rev1.agent_capabilities a' = ["analysis"; "reasoning"]
        /\ Rev1.agent_llmModel a' = Rev1.ad_llmModel Rev1.testAgentData
        /\ Rev1.agent_parameters a' = Rev1.ad_parameters Rev1.testAgentData
        /\ Rev1.agent_integrationFramework a'
           = Rev1.ad_integrationFramework Rev1.testAgentData
        /\ Rev1.agent_version a' = "1.0.0"
        /\ Rev1.agent_status a' = Rev1.AgentActive
        /\ Rev1.agent_createdAt a' = 0%Z)
  /\ (forall b, In b (Rev1.agents (tables w)) ->
                Rev1.agent_id b <> "agent-1" ->
                In b (Rev1.agents (tables (snd out)))).
Proof.
  split.
  - exact (proj1 (updateAgentMetrics_spec
                    (Rev1.offline
                       (tables
                          (snd (Rev1.createAgent "agent-1" 0%Z
                                  Rev1.testAgentData
                                  (Rev1.connected Rev1.empty)))))
                    1%Z "agent-1" (Some 10%float) (Some 2%float))
                 eq_refl).
  - exact (proj2 (updateAgentMetrics_spec
                    (snd (Rev1.createAgent "agent-1" 0%Z Rev1.testAgentData
                            (Rev1.connected Rev1.empty)))
                    1%Z "agent-1" (Some 10%float) (Some 2%float))
                 eq_refl).
Defined.

(** * Further properties of the first revision *)

(** ** The handle *)

(** X1. [getDb] never throws.  Once it has returned a handle, every
    later call returns it again and changes nothing.  With no usable
    [DATABASE_URL] it returns [null] and changes nothing; when the
    connection cannot be built it returns [null] after one warning, and
    no handle is kept. *)
Theorem getDb_settles :
  forall (T : Type) (w : Runtime T),
    (exists b, fst (getDb w) = Returned b)
    /\ (fst (getDb w) = Returned true ->
        _db (snd (getDb w)) = true
        /\ getDb (snd (getDb w)) = (Returned true, snd (getDb w)))
    /\ (_db w = false -> truthy_str (DATABASE_URL w) = false ->
        getDb w = (Returned false, w))
    /\ (_db w = false -> truthy_str (DATABASE_URL w) = true ->
        drizzle_throws w = true ->
        fst (getDb w) = Returned false
        /\ _db (snd (getDb w)) = false
        /\ console (snd (getDb w))
           = console w ++ [Warn "[Database] Failed to connect:"]).
Proof.
  intros T w. split; [|split; [|split]].
  - destruct (getDb_returns w) as (b & w' & E & _). exists b.
    rewrite E. reflexivity.
  - intros H. destruct (getDb_available w H) as (w' & E & _ & Hdb).
    rewrite E. cbn. split; [exact Hdb | apply getDb_cached, Hdb].
  - intros Hdb Hurl. unfold getDb. rewrite Hdb, Hurl. reflexivity.
  - intros Hdb Hurl Hthrow. unfold getDb. rewrite Hdb, Hurl, Hthrow.
    cbn. repeat split.
Qed.

Lemma getDb_settles_witness :
  (_db (snd (getDb (mkRuntime false (Some "mysql://db") false []
                      Rev1.empty))) = true
   /\ getDb (snd (getDb (mkRuntime false (Some "mysql://db") false []
                           Rev1.empty)))
      = (Returned true,
         snd (getDb (mkRuntime false (Some "mysql://db") false []
                       Rev1.empty))))
  /\ getDb (mkRuntime false (Some "") false [] Rev1.empty)
     = (Returned false, mkRuntime false (Some "") false [] Rev1.empty)
  /\ (fst (getDb (mkRuntime false (Some "mysql://db") true [] Rev1.empty))
      = Returned false
      /\ _db (snd (getDb (mkRuntime false (Some "mysql://db") true []
                            Rev1.empty))) = false
      /\ console (snd (getDb (mkRuntime false (Some "mysql://db") true []
                                Rev1.empty)))
         = [] ++ [Warn "[Database] Failed to connect:"]).
Proof.
  split; [|split].
  - exact (proj1 (proj2 (getDb_settles Rev1.Tables
                           (mkRuntime false (Some "mysql://db") false []
                              Rev1.empty)))
                 eq_refl).
  - exact (proj1 (proj2 (proj2 (getDb_settles Rev1.Tables
                                  (mkRuntime false (Some "") false []
                                     Rev1.empty))))
                 eq_refl eq_refl).
  - exact (proj2 (proj2 (proj2 (getDb_settles Rev1.Tables
                                  (mkRuntime false (Some "mysql://db") true []
                                     Rev1.empty))))
                 eq_refl eq_refl eq_refl).
Defined.

(** ** Queries and failures *)

Section Failures.
Import Rev1.

(** X2. No lookup and no listing of the layer changes a table, whether
    the database is reachable or not. *)
Theorem queries_change_no_table :
  (forall op (w : Runtime Tables), tables (snd (run_read op w)) = tables w)
  /\ (forall op (w : Runtime Tables), tables (snd (run_list op w)) = tables w).
Proof.
  split; intros op w.
  - exact (reads_frame (fun t => t) op w).
  - exact (lists_frame (fun t => t) op w).
Qed.





End Failures.


(** ** Rows by key *)

Lemma find_app_fresh {R} (key : R -> string) k (rows : list R) r :
  has_key key k rows = false -> key r = k ->
  find (fun x => (key x =? k)%string) (rows ++ [r]) = Some r.
Proof.
  intros Hk Hr. unfold has_key in Hk.
  induction rows as [|x rows IH]; cbn in *.
  - rewrite Hr, String.eqb_refl. reflexivity.
  - apply orb_false_elim in Hk. destruct Hk as [Hx Hrest].
    rewrite Hx. apply IH, Hrest.
Qed.

Lemma find_app_other {R} (key : R -> string) k (rows : list R) r :
  key r <> k ->
  find (fun x => (key x =? k)%string) (rows ++ [r])
  = find (fun x => (key x =? k)%string) rows.
Proof.
  intros Hr. induction rows as [|x rows IH]; cbn.
  - apply String.eqb_neq in Hr. rewrite Hr. reflexivity.
  - destruct (key x =? k)%string; [reflexivity | exact IH].
Qed.

Lemma update_where_none {R} (p : R -> bool) (f : R -> R) (rows : list R) :
  find p rows = None -> update_where p f rows = rows.
Proof.
  unfold update_where. induction rows as [|x rows IH]; cbn; [reflexivity|].
  destruct (p x); [discriminate|]. intros H. rewrite (IH H). reflexivity.
Qed.

Lemma find_update_other {R} (p q : R -> bool) (f : R -> R) (rows : list R) :
  (forall r, q (f r) = q r) ->
  (forall r, p r = true -> q r = false) ->
  find q (update_where p f rows) = find q rows.
Proof.
  intros Hq Hpq. unfold update_where.
  induction rows as [|x rows IH]; cbn; [reflexivity|].
  destruct (p x) eqn:Ep.
  - rewrite Hq, (Hpq x Ep). exact IH.
  - destruct (q x); [reflexivity | exact IH].
Qed.

(** ** The agent registry *)

Section Registry.
Import Rev1.

(** X4. An agent created on a reachable database under an unused
    identifier is found again by [getAgent]: active, with health score
    and success rate 100 and no executions, with the capabilities given
    (none when absent) and the version given ("1.0.0" when absent or
    empty).  Lookups of other identifiers are not affected. *)
Theorem createAgent_then_getAgent :
  forall (w : Runtime Tables) nanoid now d,
    available w ->
    has_key agent_id nanoid (agents (tables w)) = false ->
    let out := createAgent nanoid now d w in
    fst out = Returned (mkCreated nanoid d)
    /\ (exists a,
          fst (getAgent nanoid (snd out)) = Returned (Some a)
          /\ agent_name a = ad_name d
          /\ agent_type a = ad_type d
          /\ agent_status a = AgentActive
          /\ agent_healthScore a = Some 100%float
          /\ agent_successRate a = Some 100%float
          /\ agent_totalExecutions a = Some 0%float
          /\ agent_failedExecutions a = Some 0%float
          /\ agent_capabilities a
             = match ad_capabilities d with Some c => c | None => [] end
          /\ (ad_version d = None \/ ad_version d = Some "" ->
              agent_version a = "1.0.0")
          /\ (forall v, ad_version d = Some v -> v <> "" ->
              agent_version a = v))
    /\ (forall other, other <> nanoid ->
          fst (getAgent other (snd out)) = fst (getAgent other w)).
Proof.
  intros w nanoid now d Hav Hfresh out. subst out.
  destruct (getDb_available w Hav) as (w1 & Eg & Ht & Hdb).
  assert (Ew : getAgent nanoid w
               = (Returned (find (by_id nanoid) (agents (tables w))), w1)
               /\ forall other, fst (getAgent other w)
                  = Returned (find (by_id other) (agents (tables w)))).
  { split; [|intros other]; unfold getAgent;
      rewrite (bind_run _ _ _ _ _ Eg); cbn [negb]; unfold bind, read, ret;
      cbn [fst]; rewrite first_of_select, Ht; reflexivity. }
  destruct Ew as [_ Eother].
  unfold createAgent. rewrite (bind_run _ _ _ _ _ Eg). cbn [negb].
  rewrite insert_run. unfold on_agents, insert_row. cbn [agent_id].
  rewrite Ht, Hfresh. cbn [fst snd].
  split; [reflexivity|]. split.
  - rewrite getAgent_connected by exact Hdb. cbn [fst tables with_tables agents].
    unfold by_id. rewrite (find_app_fresh agent_id) by (exact Hfresh || reflexivity).
    eexists. split; [reflexivity|]. cbn.
    repeat (split; [reflexivity|]). split.
    + intros [-> | ->]; reflexivity.
    + intros v -> Hv. cbn. apply String.eqb_neq in Hv. rewrite Hv. reflexivity.
  - intros other Hother. rewrite Eother.
    rewrite getAgent_connected by exact Hdb.
    cbn [fst tables with_tables agents]. unfold by_id.
    rewrite (find_app_other agent_id) by (cbn; congruence). reflexivity.
Qed.

Lemma createAgent_then_getAgent_witness :
  let out :=
    createAgent "agent-1" 0%Z
      (mkAgentData "Scout" Analysis None None None None None (Some ""))
      (connected empty) in
  fst out
  = Returned (mkCreated "agent-1"
                (mkAgentData "Scout" Analysis None None None None None
                   (Some "")))
  /\ (exists a,
        fst (getAgent "agent-1" (snd out)) = Returned (Some a)
        /\ agent_name a = "Scout"
        /\ agent_type a = Analysis
        /\ agent_status a = AgentActive
        /\ agent_healthScore a = Some 100%float
        /\ agent_successRate a = Some 100%float
        /\ agent_totalExecutions a = Some 0%float
        /\ agent_failedExecutions a = Some 0%float
        /\ agent_capabilities a = []
        /\ (Some "" = None \/ Some "" = Some "" -> agent_version a = "1.0.0")
        /\ (forall v, Some "" = Some v -> v <> "" -> agent_version a = v))
  /\ (forall other, other <> "agent-1" ->
        fst (getAgent other (snd out)) = fst (getAgent other (connected empty))).
Proof.
  exact (createAgent_then_getAgent (connected empty) "agent-1" 0%Z
           (mkAgentData "Scout" Analysis None None None None None (Some ""))
           eq_refl eq_refl).
Defined.

Lemma getAgent_available (w : Runtime Tables) k :
  available w ->
  fst (getAgent k w) = Returned (find (by_id k) (agents (tables w))).
Proof.
  intros Hav. destruct (getDb_available w Hav) as (w1 & Eg & Ht & _).
  unfold getAgent. rewrite (bind_run _ _ _ _ _ Eg). cbn [negb].
  unfold bind, read, ret. cbn [fst]. rewrite first_of_select, Ht.
  reflexivity.
Qed.

Lemma updateAgentStatus_run (w : Runtime Tables) now k status :
  available w ->
  exists w1,
    tables w1 = tables w /\ _db w1 = true
    /\ updateAgentStatus now k status w
       = (Returned tt,
          with_tables w1
            (mkTables
               (users (tables w))
               (update_where (by_id k) (set_agent_status status now)
                             (agents (tables w)))
               (workflows (tables w)) (tasks (tables w))
               (agentMessages (tables w)) (executionLogs (tables w))
               (systemAlerts (tables w)) (agentMetrics (tables w))
               (workflowTemplates (tables w)) (integrationModules (tables w))
               (llmProviders (tables w)))).
Proof.
  intros Hav. destruct (getDb_available w Hav) as (w1 & Eg & Ht & Hdb).
  exists w1. split; [exact Ht|]. split; [exact Hdb|].
  unfold updateAgentStatus. rewrite (bind_run _ _ _ _ _ Eg). cbn [negb].
  rewrite update_run. unfold on_agents, updating. rewrite Ht. reflexivity.
Qed.

(** X5. Setting the status of an agent that exists reports success and
    changes, on that agent, the status and the time of update only:
    every other column (id, name, type, description, capabilities,
    model, parameters, framework, version, the four metrics and the
    time of creation) stays; lookups of other agents are not
    affected. *)
Theorem updateAgentStatus_spec :
  forall (w : Runtime Tables) now agentId status a,
    available w ->
    find (by_id agentId) (agents (tables w)) = Some a ->
    let out := agentRouter_updateStatus now agentId status w in
    fst out = Returned (mkSuccess true)
    /\ (exists a',
          fst (getAgent agentId (snd out)) = Returned (Some a')
          /\ agent_status a' = status
          /\ agent_updatedAt a' = now
          /\ agent_id a' = agent_id a
          /\ agent_name a' = agent_name a
          /\ agent_type a' = agent_type a
          /\ agent_description a' = agent_description a
          /\ agent_capabilities a' = agent_capabilities a
          /\ agent_llmModel a' = agent_llmModel a
          /\ agent_parameters a' = agent_parameters a
          /\ agent_integrationFramework a' = agent_integrationFramework a
          /\ agent_version a' = agent_version a
          /\ agent_healthScore a' = agent_healthScore a
          /\ agent_successRate a' = agent_successRate a
          /\ agent_totalExecutions a' = agent_totalExecutions a
          /\ agent_failedExecutions a' = agent_failedExecutions a
          /\ agent_createdAt a' = agent_createdAt a)
    /\ (forall other, other <> agentId ->
          fst (getAgent other (snd out)) = fst (getAgent other w)).
Proof.
  intros w now agentId status a Hav Hfind out. subst out.
  unfold agentRouter_updateStatus.
  destruct (updateAgentStatus_run w now agentId status Hav)
    as (w1 & Ht & Hdb & E).
  rewrite (bind_run _ _ _ _ _ E). cbn [ret fst snd].
  split; [reflexivity|]. split.
  - rewrite getAgent_connected by exact Hdb.
    cbn [fst tables with_tables agents].
    rewrite find_update_where by reflexivity. rewrite Hfind.
    eexists. split; [reflexivity|]. cbn. repeat split.
  - intros other Hother. rewrite (getAgent_available w other Hav).
    rewrite getAgent_connected by exact Hdb.
    cbn [fst tables with_tables agents].
    rewrite find_update_other; [reflexivity | reflexivity |].
    intros r Hr. unfold by_id in *. apply String.eqb_eq in Hr.
    apply String.eqb_neq. congruence.
Qed.

Lemma updateAgentStatus_spec_witness :
  let w := snd (createAgent "agent-1" 0%Z testAgentData (connected empty)) in
  let out := agentRouter_updateStatus 5%Z "agent-1" AgentMaintenance w in
  fst out = Returned (mkSuccess true)
  /\ (exists a',
        fst (getAgent "agent-1" (snd out)) = Returned (Some a')
        /\ agent_status a' = AgentMaintenance
        /\ agent_updatedAt a' = 5%Z
        /\ agent_id a' = "agent-1"
        /\ agent_name a' = "TestAgent"
        /\ agent_type a' = Reasoning
        /\ agent_description a' = Some "Test agent for unit testing"
        /\ agent_capabilities a' = ["analysis"; "reasoning"]
        /\ agent_llmModel a' = Some "gpt-4"
        /\ agent_parameters a'
           = Some (JObj [("temperature", JNum (7 # 10));
                         ("maxTokens", JNum 2000)])
        /\ agent_integrationFramework a' = Some "langchain"
        /\ agent_version a' = "1.0.0"
        /\ agent_healthScore a' = Some 100%float
        /\ agent_successRate a' = Some 100%float
        /\ agent_totalExecutions a' = Some 0%float
        /\ agent_failedExecutions a' = Some 0%float
        /\ agent_createdAt a' = 0%Z)
  /\ (forall other, other <> "agent-1" ->
        fst (getAgent other (snd out)) = fst (getAgent other w)).
Proof.
  exact (updateAgentStatus_spec
           (snd (createAgent "agent-1" 0%Z testAgentData (connected empty)))
           5%Z "agent-1" AgentMaintenance
           (mkAgent "agent-1" "TestAgent" Reasoning
              (Some "Test agent for unit testing") ["analysis"; "reasoning"]
              (Some "gpt-4")
              (Some (JObj [("temperature", JNum (7 # 10));
                           ("maxTokens", JNum 2000)]))
              (Some "langchain") "1.0.0" AgentActive
              (Some 100%float) (Some 100%float) (Some 0%float) (Some 0%float)
              0%Z 0%Z)
           eq_refl eq_refl).
Defined.

(** X6. [listAgents] with a status filter ignores the type filter and
    returns exactly the agents of that status; with a type filter
    alone, exactly the agents of that type; with no filter, or with
    empty strings only, every agent.  A status that is none of the four
    names returns nothing. *)
Theorem listAgents_filters :
  forall (w : Runtime Tables),
    available w ->
    (forall s t, s <> "" ->
       fst (listAgents (Some (mkAgentFilters (Some s) t)) w)
       = fst (listAgents (Some (mkAgentFilters (Some s) None)) w)
       /\ exists l,
           fst (listAgents (Some (mkAgentFilters (Some s) t)) w) = Returned l
           /\ forall a, In a l <->
                        In a (agents (tables w))
                        /\ agent_status_name (agent_status a) = s)
    /\ (forall s t, s = None \/ s = Some "" -> t <> "" ->
          exists l,
            fst (listAgents (Some (mkAgentFilters s (Some t))) w) = Returned l
            /\ forall a, In a l <->
                         In a (agents (tables w))
                         /\ agent_type_name (agent_type a) = t)
    /\ fst (listAgents None w) = Returned (agents (tables w))
    /\ (forall s t, s = None \/ s = Some "" -> t = None \/ t = Some "" ->
          fst (listAgents (Some (mkAgentFilters s t)) w)
          = Returned (agents (tables w)))
    /\ (forall s, s <> "" -> s <> "active" -> s <> "inactive" ->
          s <> "error" -> s <> "maintenance" ->
          fst (listAgents (Some (mkAgentFilters (Some s) None)) w)
          = Returned []).
Proof.
  intros w Hav. destruct (getDb_available w Hav) as (w1 & Eg & Ht & _).
  assert (Hstatus : forall s t, s <> "" ->
            fst (listAgents (Some (mkAgentFilters (Some s) t)) w)
            = Returned (select_where
                          (fun a => (agent_status_name (agent_status a) =? s)%string)
                          (agents (tables w)))).
  { intros s t Hs. unfold listAgents. rewrite (bind_run _ _ _ _ _ Eg).
    cbn [negb af_status af_type truthy_str str_or].
    apply String.eqb_neq in Hs. rewrite Hs. cbn [negb].
    unfold read. cbn [fst]. rewrite Ht. reflexivity. }
  split; [|split; [|split; [|split]]].
  - intros s t Hs. split.
    + rewrite (Hstatus s t Hs), (Hstatus s None Hs). reflexivity.
    + eexists. split; [exact (Hstatus s t Hs)|].
      intros a. unfold select_where. rewrite filter_In, String.eqb_eq.
      reflexivity.
  - intros s t Hs Htne. unfold listAgents. rewrite (bind_run _ _ _ _ _ Eg).
    cbn [negb af_status af_type].
    assert (Hfalsy : truthy_str s = false) by (destruct Hs as [-> | ->]; reflexivity).
    rewrite Hfalsy. cbn [truthy_str str_or].
    apply String.eqb_neq in Htne. rewrite Htne. cbn [negb].
    unfold read. cbn [fst]. rewrite Ht.
    eexists. split; [reflexivity|].
    intros a. unfold select_where. rewrite filter_In, String.eqb_eq.
    reflexivity.
  - unfold listAgents. rewrite (bind_run _ _ _ _ _ Eg). cbn [negb].
    unfold read. cbn [fst]. rewrite Ht. reflexivity.
  - intros s t Hs Htf. unfold listAgents. rewrite (bind_run _ _ _ _ _ Eg).
    cbn [negb af_status af_type].
    assert (Hfs : truthy_str s = false) by (destruct Hs as [-> | ->]; reflexivity).
    assert (Hft : truthy_str t = false) by (destruct Htf as [-> | ->]; reflexivity).
    rewrite Hfs, Hft. unfold read. cbn [fst]. rewrite Ht. reflexivity.
  - intros s Hs H1 H2 H3 H4. rewrite (Hstatus s None Hs). f_equal.
    clear Hstatus. unfold select_where.
    generalize (agents (tables w)). intros rows.
    induction rows as [|a l IH]; [reflexivity|]. cbn [filter].
    replace (agent_status_name (agent_status a) =? s)%string with false;
      [exact IH|].
    symmetry. apply String.eqb_neq.
    destruct (agent_status a); cbn; congruence.
Qed.

Lemma listAgents_filters_witness :
  let w := snd (createAgent "agent-1" 0%Z testAgentData (connected empty)) in
  fst (listAgents (Some (mkAgentFilters (Some "active") (Some "execution"))) w)
  = fst (listAgents (Some (mkAgentFilters (Some "active") None)) w)
  /\ exists l,
      fst (listAgents
             (Some (mkAgentFilters (Some "active") (Some "execution"))) w)
      = Returned l
      /\ forall a, In a l <->
                   In a (agents (tables w))
                   /\ agent_status_name (agent_status a) = "active".
Proof.
  refine (proj1 (listAgents_filters
                   (snd (createAgent "agent-1" 0%Z testAgentData
                           (connected empty)))
                   eq_refl)
                "active" (Some "execution") _).
  discriminate.
Defined.

End Registry.

(** ** Updates *)

Section Updates.
Import Rev1.

Lemma updateWorkflowStatus_run (w : Runtime Tables) now k status :
  available w ->
  exists w1,
    tables w1 = tables w /\ _db w1 = true
    /\ updateWorkflowStatus now k status w
       = (Returned tt,
          with_tables w1
            (mkTables
               (users (tables w)) (agents (tables w))
               (update_where (by_workflow k) (set_workflow_status status now)
                             (workflows (tables w)))
               (tasks (tables w))
               (agentMessages (tables w)) (executionLogs (tables w))
               (systemAlerts (tables w)) (agentMetrics (tables w))
               (workflowTemplates (tables w)) (integrationModules (tables w))
               (llmProviders (tables w)))).
Proof.
  intros Hav. destruct (getDb_available w Hav) as (w1 & Eg & Ht & Hdb).
  exists w1. split; [exact Ht|]. split; [exact Hdb|].
  unfold updateWorkflowStatus. rewrite (bind_run _ _ _ _ _ Eg). cbn [negb].
  rewrite update_run. unfold on_workflows, updating. rewrite Ht. reflexivity.
Qed.

(** X7. A status update addressed to an agent, a workflow or a task
    that does not exist is not an error: the procedure reports success
    and no table has changed. *)
Theorem update_of_missing_row_succeeds :
  forall (w : Runtime Tables) now k,
    available w ->
    (find (by_id k) (agents (tables w)) = None ->
     forall status,
       fst (agentRouter_updateStatus now k status w)
       = Returned (mkSuccess true)
       /\ tables (snd (agentRouter_updateStatus now k status w)) = tables w)
    /\ (find (by_workflow k) (workflows (tables w)) = None ->
        forall status,
          fst (workflowRouter_updateStatus now k status w)
          = Returned (mkSuccess true)
          /\ tables (snd (workflowRouter_updateStatus now k status w))
             = tables w)
    /\ (find (by_task k) (tasks (tables w)) = None ->
        forall status result,
          fst (taskRouter_updateStatus now k status result w)
          = Returned (mkSuccess true)
          /\ tables (snd (taskRouter_updateStatus now k status result w))
             = tables w).
Proof.
  intros w now k Hav. split; [|split].
  - intros Hnone status. unfold agentRouter_updateStatus.
    destruct (updateAgentStatus_run w now k status Hav) as (w1 & _ & _ & E).
    rewrite (bind_run _ _ _ _ _ E). cbn [ret fst snd tables with_tables].
    split; [reflexivity|]. rewrite update_where_none by exact Hnone.
    destruct (tables w); reflexivity.
  - intros Hnone status. unfold workflowRouter_updateStatus.
    destruct (updateWorkflowStatus_run w now k status Hav) as (w1 & _ & _ & E).
    rewrite (bind_run _ _ _ _ _ E). cbn [ret fst snd tables with_tables].
    split; [reflexivity|]. rewrite update_where_none by exact Hnone.
    destruct (tables w); reflexivity.
  - intros Hnone status result. unfold taskRouter_updateStatus.
    destruct (updateTaskStatus_run w now k status result)
      as (b & w1 & u & Eg & _ & _ & _ & E).
    unfold available in Hav. rewrite Eg in Hav. cbn in Hav.
    injection Hav as ->.
    rewrite (bind_run _ _ _ _ _ E). cbn [ret fst snd tables with_tables].
    split; [reflexivity|]. rewrite update_where_none by exact Hnone.
    destruct (tables w); reflexivity.
Qed.

Lemma update_of_missing_row_succeeds_witness :
  (forall status,
      fst (agentRouter_updateStatus 1%Z "nobody" status (connected empty))
      = Returned (mkSuccess true)
      /\ tables (snd (agentRouter_updateStatus 1%Z "nobody" status
                        (connected empty)))
         = tables (connected empty))
  /\ (forall status result,
        fst (taskRouter_updateStatus 1%Z "nobody" status result
               (connected empty))
        = Returned (mkSuccess true)
        /\ tables (snd (taskRouter_updateStatus 1%Z "nobody" status result
                          (connected empty)))
           = tables (connected empty)).
Proof.
  split.
  - exact (proj1 (update_of_missing_row_succeeds (connected empty) 1%Z
                    "nobody" eq_refl) eq_refl).
  - exact (proj2 (proj2 (update_of_missing_row_succeeds (connected empty) 1%Z
                           "nobody" eq_refl)) eq_refl).
Defined.

Lemma getTask_connected (w : Runtime Tables) k :
  _db w = true ->
  getTask k w = (Returned (find (by_task k) (tasks (tables w))), w).
Proof.
  intros H. unfold getTask, bind, read, ret.
  rewrite (getDb_cached w H). cbn [negb].
  rewrite first_of_select. reflexivity.
Qed.

Lemma getTask_available (w : Runtime Tables) k :
  available w ->
  fst (getTask k w) = Returned (find (by_task k) (tasks (tables w))).
Proof.
  intros Hav. destruct (getDb_available w Hav) as (w1 & Eg & Ht & _).
  unfold getTask. rewrite (bind_run _ _ _ _ _ Eg). cbn [negb].
  unfold bind, read, ret. cbn [fst]. rewrite first_of_select, Ht.
  reflexivity.
Qed.

(** X8. A task created on a reachable database under an unused
    identifier is found again by [getTask]: pending, never retried,
    without consensus method, result or timings, and with the priority
    given, except that a priority that is absent or 0 is stored as 5.
    Lookups of other tasks are not affected. *)
Theorem createTask_then_getTask :
  forall (w : Runtime Tables) nanoid now d,
    available w ->
    has_key task_id nanoid (tasks (tables w)) = false ->
    let out := createTask nanoid now d w in
    fst out = Returned (mkCreated nanoid d)
    /\ (exists x,
          fst (getTask nanoid (snd out)) = Returned (Some x)
          /\ task_workflowId x = td_workflowId d
          /\ task_input x = td_input d
          /\ task_assignedAgents x = td_assignedAgents d
          /\ task_status x = Pending
          /\ task_retryCount x = 0%Z
          /\ task_consensusMethod x = NoConsensus
          /\ task_result x = None
          /\ task_startedAt x = None
          /\ task_completedAt x = None
          /\ task_createdAt x = now
          /\ (td_priority d = None -> task_priority x = 5)
          /\ (forall p, td_priority d = Some p -> p == 0 -> task_priority x = 5)
          /\ (forall p, td_priority d = Some p -> ~ p == 0 ->
              task_priority x = p))
    /\ (forall other, other <> nanoid ->
          fst (getTask other (snd out)) = fst (getTask other w)).
Proof.
  intros w nanoid now d Hav Hfresh out. subst out.
  destruct (createTask_run w nanoid now d) as (b & w1 & Eg & Ht & Hb & E).
  unfold available in Hav. pose proof Hav as Hav'.
  rewrite Eg in Hav. cbn in Hav. injection Hav as ->.
  rewrite E, Hfresh. clear E. cbn [fst snd].
  split; [reflexivity|]. split.
  - rewrite getTask_connected by exact Hb.
    cbn [fst tables with_tables tasks]. unfold by_task.
    rewrite (find_app_fresh task_id) by (exact Hfresh || reflexivity).
    eexists. split; [reflexivity|]. cbn.
    repeat (split; [reflexivity|]). split; [|split].
    + intros ->. reflexivity.
    + intros p -> Hp. cbn. apply Qeq_bool_iff in Hp. rewrite Hp. reflexivity.
    + intros p -> Hp. cbn. destruct (Qeq_bool p 0) eqn:Ep; [|reflexivity].
      apply Qeq_bool_iff in Ep. contradiction.
  - intros other Hother. rewrite (getTask_available w other Hav').
    rewrite getTask_connected by exact Hb.
    cbn [fst tables with_tables tasks]. unfold by_task.
    rewrite (find_app_other task_id) by (cbn; congruence). reflexivity.
Qed.

Lemma createTask_then_getTask_witness :
  let d := mkTaskData "workflow-1" None None (Some 0) in
  let out := createTask "task-1" 7%Z d (connected empty) in
  fst out = Returned (mkCreated "task-1" d)
  /\ (exists x,
        fst (getTask "task-1" (snd out)) = Returned (Some x)
        /\ task_workflowId x = "workflow-1"
        /\ task_input x = None
        /\ task_assignedAgents x = None
        /\ task_status x = Pending
        /\ task_retryCount x = 0%Z
        /\ task_consensusMethod x = NoConsensus
        /\ task_result x = None
        /\ task_startedAt x = None
        /\ task_completedAt x = None
        /\ task_createdAt x = 7%Z
        /\ (Some 0 = None -> task_priority x = 5)
        /\ (forall p, Some 0 = Some p -> p == 0 -> task_priority x = 5)
        /\ (forall p, Some 0 = Some p -> ~ p == 0 -> task_priority x = p))
  /\ (forall other, other <> "task-1" ->
        fst (getTask other (snd out)) = fst (getTask other (connected empty))).
Proof.
  exact (createTask_then_getTask (connected empty) "task-1" 7%Z
           (mkTaskData "workflow-1" None None (Some 0)) eq_refl eq_refl).
Defined.

(** X9. A status update on a task that exists writes the status; it
    sets [startedAt] exactly when the new status is [running] and
    [completedAt] exactly when it is terminal, leaving the other timing
    as it was; it replaces the result only when one is given; every
    other column of the task stays (the table has no time of update,
    and none is written). *)
Theorem updateTaskStatus_timings :
  forall (w : Runtime Tables) now taskId status result x,
    available w ->
    find (by_task taskId) (tasks (tables w)) = Some x ->
    let out := updateTaskStatus now taskId status result w in
    fst out = Returned tt
    /\ exists x',
        fst (getTask taskId (snd out)) = Returned (Some x')
        /\ task_id x' = taskId
        /\ task_status x' = status
        /\ task_startedAt x'
           = match status with
             | Running => Some now
             | _ => task_startedAt x
             end
        /\ task_completedAt x'
           = (if terminal status then Some now else task_completedAt x)
        /\ task_result x'
           = match result with Some r => Some r | None => task_result x end
        /\ task_workflowId x' = task_workflowId x
        /\ task_input x' = task_input x
        /\ task_assignedAgents x' = task_assignedAgents x
        /\ task_priority x' = task_priority x
        /\ task_consensusMethod x' = task_consensusMethod x
        /\ task_createdAt x' = task_createdAt x
        /\ task_retryCount x' = task_retryCount x.
Proof.
  intros w now taskId status result x Hav Hx out. subst out.
  destruct (getDb_available w Hav) as (w1 & Eg & Ht & Hdb).
  unfold updateTaskStatus. rewrite (bind_run _ _ _ _ _ Eg). cbn [negb].
  rewrite update_run. unfold on_tasks, updating. cbn [fst snd].
  split; [reflexivity|].
  rewrite getTask_connected by exact Hdb.
  cbn [fst tables with_tables tasks]. fold (by_task taskId).
  rewrite find_update_where by reflexivity. rewrite Ht, Hx.
  assert (Hid : task_id x = taskId).
  { apply find_some in Hx. destruct Hx as [_ Hk].
    unfold by_task in Hk. apply String.eqb_eq in Hk. exact Hk. }
  eexists. split; [reflexivity|].
  destruct status, result; cbn; repeat split; exact Hid.
Qed.

Lemma updateTaskStatus_timings_witness :
  let w :=
    snd (updateTaskStatus 1%Z "task-1" Running None
           (snd (createTask "task-1" 0%Z testTaskData (connected empty)))) in
  let out := updateTaskStatus 9%Z "task-1" Timeout None w in
  fst out = Returned tt
  /\ exists x',
      fst (getTask "task-1" (snd out)) = Returned (Some x')
      /\ task_id x' = "task-1"
      /\ task_status x' = Timeout
      /\ task_startedAt x' = Some 1%Z
      /\ task_completedAt x' = Some 9%Z
      /\ task_result x' = None
      /\ task_workflowId x' = "workflow-123"
      /\ task_input x' = Some (JObj [("query", JStr "test query")])
      /\ task_assignedAgents x' = Some ["agent-1"; "agent-2"]
      /\ task_priority x' = 1
      /\ task_consensusMethod x' = NoConsensus
      /\ task_createdAt x' = 0%Z
      /\ task_retryCount x' = 0%Z.
Proof.
  exact (updateTaskStatus_timings
           (snd (updateTaskStatus 1%Z "task-1" Running None
                   (snd (createTask "task-1" 0%Z testTaskData
                           (connected empty)))))
           9%Z "task-1" Timeout None
           (mkTask "task-1" "workflow-123"
              (Some (JObj [("query", JStr "test query")]))
              (Some ["agent-1"; "agent-2"]) 1 Running NoConsensus
              0%Z 0%Z None (Some 1%Z) None)
           eq_refl eq_refl).
Defined.

End Updates.

(** ** Workflows by status *)

Section WorkflowListing.
Import Rev1.

Lemma listWorkflows_by_status (w : Runtime Tables) s :
  available w -> s <> "" ->
  fst (workflowRouter_list (Some (Some s)) w)
  = Returned (select_where
                (fun x => (workflow_status_name (workflow_status x) =? s)%string)
                (workflows (tables w))).
Proof.
  intros Hav Hs. destruct (getDb_available w Hav) as (w1 & Eg & Ht & _).
  unfold workflowRouter_list, listWorkflows.
  rewrite (bind_run _ _ _ _ _ Eg). cbn [negb truthy_str str_or].
  apply String.eqb_neq in Hs. rewrite Hs. cbn [negb].
  unfold read. cbn [fst]. rewrite Ht. reflexivity.
Qed.

(** X10. After the status of a workflow has been set, the listing by
    status shows that workflow under the new status and under no
    other. *)
Theorem workflow_listed_under_its_status :
  forall (w : Runtime Tables) now k status,
    available w ->
    let w' := snd (workflowRouter_updateStatus now k status w) in
    (forall s l x,
        s <> "" ->
        fst (workflowRouter_list (Some (Some s)) w') = Returned l ->
        In x l -> workflow_id x = k ->
        s = workflow_status_name status)
    /\ (forall x0,
          find (by_workflow k) (workflows (tables w)) = Some x0 ->
          exists l x,
            fst (workflowRouter_list
                   (Some (Some (workflow_status_name status))) w')
            = Returned l
            /\ In x l /\ workflow_id x = k /\ workflow_status x = status).
Proof.
  intros w now k status Hav w'.
  destruct (updateWorkflowStatus_run w now k status Hav)
    as (w1 & Ht & Hdb & E).
  assert (Ew : w' = with_tables w1
            (mkTables
               (users (tables w)) (agents (tables w))
               (update_where (by_workflow k) (set_workflow_status status now)
                             (workflows (tables w)))
               (tasks (tables w))
               (agentMessages (tables w)) (executionLogs (tables w))
               (systemAlerts (tables w)) (agentMetrics (tables w))
               (workflowTemplates (tables w)) (integrationModules (tables w))
               (llmProviders (tables w)))).
  { subst w'. unfold workflowRouter_updateStatus.
    rewrite (bind_run _ _ _ _ _ E). reflexivity. }
  assert (Hav' : available w').
  { rewrite Ew. apply cached_available. exact Hdb. }
  split.
  - intros s l x Hs Hl Hin Hid.
    rewrite (listWorkflows_by_status w' s Hav' Hs) in Hl.
    injection Hl as <-. unfold select_where in Hin.
    apply filter_In in Hin. destruct Hin as [Hin Hst].
    rewrite Ew in Hin. cbn [tables with_tables workflows] in Hin.
    unfold update_where in Hin. apply in_map_iff in Hin.
    destruct Hin as (y & Hy & _).
    destruct (by_workflow k y) eqn:Ek.
    + subst x. cbn in Hst. apply String.eqb_eq in Hst. symmetry. exact Hst.
    + subst x. unfold by_workflow in Ek. apply String.eqb_neq in Ek.
      contradiction.
  - intros x0 Hx0.
    assert (Hname : workflow_status_name status <> "")
      by (destruct status; discriminate).
    rewrite (listWorkflows_by_status w' _ Hav' Hname).
    eexists. exists (set_workflow_status status now x0).
    split; [reflexivity|]. split; [|split; [|reflexivity]].
    + unfold select_where. apply filter_In. split.
      * rewrite Ew. cbn [tables with_tables workflows].
        unfold update_where. apply in_map_iff. exists x0.
        apply find_some in Hx0. destruct Hx0 as [Hin Hk].
        rewrite Hk. auto.
      * cbn. apply String.eqb_refl.
    + cbn. apply find_some in Hx0. destruct Hx0 as [_ Hk].
      apply String.eqb_eq in Hk. exact Hk.
Qed.

Lemma workflow_listed_under_its_status_witness :
  let w :=
    snd (createWorkflow "wf-1" 0%Z testWorkflowData (connected empty)) in
  let w' := snd (workflowRouter_updateStatus 1%Z "wf-1" Paused w) in
  exists l x,
    fst (workflowRouter_list (Some (Some "paused")) w') = Returned l
    /\ In x l /\ workflow_id x = "wf-1" /\ workflow_status x = Paused.
Proof.
  exact (proj2 (workflow_listed_under_its_status
                  (snd (createWorkflow "wf-1" 0%Z testWorkflowData
                          (connected empty)))
                  1%Z "wf-1" Paused eq_refl)
               (mkWorkflow "wf-1" "TestWorkflow" (Some "Test workflow")
                  Sequential
                  (Some [JObj [("id", JStr "node1"); ("type", JStr "agent")]])
                  (Some [JObj [("source", JStr "node1");
                               ("target", JStr "node2")]])
                  (Some (JObj [("timeout", JNum 3600)])) Draft None 0%Z 0%Z)
               eq_refl).
Defined.

End WorkflowListing.

Lemma in_snoc {A} (l : list A) (a x : A) :
  In x (l ++ [a]) <-> In x l \/ x = a.
Proof.
  rewrite in_app_iff. cbn. intuition auto.
Qed.

Lemma in_firstn {A} (n : nat) (l : list A) x : In x (firstn n l) -> In x l.
Proof.
  intros H. rewrite <- (firstn_skipn n l). apply in_or_app. left. exact H.
Qed.

(** ** Conversations and logs *)

Section Conversations.
Import Rev1.

Lemma getConversationHistory_run (w : Runtime Tables) taskId limit :
  available w ->
  fst (getConversationHistory taskId limit w)
  = Returned (firstn (match limit with Some n => n | None => 100%nat end)
                     (conversation taskId (tables w))).
Proof.
  intros Hav. destruct (getDb_available w Hav) as (w1 & Eg & Ht & _).
  unfold getConversationHistory. cbv zeta.
  rewrite (bind_run _ _ _ _ _ Eg). cbn [negb].
  unfold bind, read, ret, conversation. cbn [fst]. rewrite Ht. reflexivity.
Qed.

(** X11. The conversation of a task returned by
    [getConversationHistory] has at most [limit] messages (100 when no
    limit is given), all stored under that task; they are the first
    that the selection of the task's messages yields, and all of them
    when these are no more than the limit. *)
Theorem getConversationHistory_bounds :
  forall (w : Runtime Tables) taskId limit,
    available w ->
    exists l,
      fst (getConversationHistory taskId limit w) = Returned l
      /\ (List.length l
          <= match limit with Some n => n | None => 100 end)%nat
      /\ (forall m, In m l ->
            In m (agentMessages (tables w))
            /\ message_taskId m = Some taskId)
      /\ (exists rest, conversation taskId (tables w) = l ++ rest)
      /\ ((List.length (conversation taskId (tables w))
           <= match limit with Some n => n | None => 100 end)%nat ->
          l = conversation taskId (tables w)).
Proof.
  intros w taskId limit Hav.
  eexists. split; [exact (getConversationHistory_run w taskId limit Hav)|].
  split; [apply firstn_le_length|]. split; [|split].
  - intros m Hin. apply in_firstn in Hin.
    unfold conversation, select_where in Hin. apply filter_In in Hin.
    destruct Hin as [Hin Hm]. split; [exact Hin|].
    unfold opt_is in Hm. destruct (message_taskId m) as [t|]; [|discriminate].
    apply String.eqb_eq in Hm. congruence.
  - eexists. symmetry. apply firstn_skipn.
  - intros Hle. apply firstn_all2. exact Hle.
Qed.

(** Two messages under one task, read back with a limit of one. *)
Lemma getConversationHistory_bounds_witness :
  let w :=
    snd (createMessage "msg-2" 1%Z testMessageData
           (snd (createMessage "msg-1" 0%Z testMessageData
                   (connected empty)))) in
  exists l,
    fst (getConversationHistory "task-123" (Some 1%nat) w) = Returned l
    /\ (List.length l <= 1)%nat
    /\ (forall m, In m l ->
          In m (agentMessages (tables w))
          /\ message_taskId m = Some "task-123")
    /\ (exists rest, conversation "task-123" (tables w) = l ++ rest)
    /\ ((List.length (conversation "task-123" (tables w)) <= 1)%nat ->
        l = conversation "task-123" (tables w)).
Proof.
  exact (getConversationHistory_bounds
           (snd (createMessage "msg-2" 1%Z testMessageData
                   (snd (createMessage "msg-1" 0%Z testMessageData
                           (connected empty)))))
           "task-123" (Some 1%nat) eq_refl).
Defined.

Lemma conversation_app taskId (t : Tables) ms :
  agentMessages t = ms ->
  forall m, conversation taskId
              (mkTables (users t) (agents t) (workflows t) (tasks t)
                 (ms ++ [m]) (executionLogs t) (systemAlerts t)
                 (agentMetrics t) (workflowTemplates t)
                 (integrationModules t) (llmProviders t))
            = conversation taskId t
              ++ (if opt_is taskId (message_taskId m) then [m] else []).
Proof.
  intros <- m. unfold conversation, select_where. cbn [agentMessages].
  rewrite filter_app. reflexivity.
Qed.

(** X12. A message sent under a task on a reachable database, with an
    unused identifier, is added to that task's conversation (when the
    conversation was below the limit), stored as sent and [pending];
    the conversations of other tasks are as before, and a message sent
    under no task enters no conversation. *)
Theorem sendMessage_then_getConversation :
  forall (w : Runtime Tables) nanoid now d limit,
    available w ->
    has_key message_id nanoid (agentMessages (tables w)) = false ->
    let w' := snd (communicationRouter_sendMessage nanoid now d w) in
    (forall t,
        md_taskId d = Some t ->
        (List.length (conversation t (tables w))
         < match limit with Some n => n | None => 100 end)%nat ->
        exists l,
          fst (getConversationHistory t limit w') = Returned l
          /\ forall m,
               In m l <->
               In m (conversation t (tables w))
               \/ m = mkMessage nanoid (md_senderId d) (md_recipientId d)
                        (Some t) (md_messageType d) (md_content d) now
                        DeliveryPending (md_metadata d))
    /\ (forall t,
          md_taskId d <> Some t ->
          fst (getConversationHistory t limit w')
          = fst (getConversationHistory t limit w)).
Proof.
  intros w nanoid now d limit Hav Hfresh w'.
  destruct (getDb_available w Hav) as (w1 & Eg & Ht & Hdb).
  assert (Ew : w' = with_tables w1
            (mkTables
               (users (tables w)) (agents (tables w)) (workflows (tables w))
               (tasks (tables w))
               (agentMessages (tables w)
                ++ [mkMessage nanoid (md_senderId d) (md_recipientId d)
                      (md_taskId d) (md_messageType d) (md_content d) now
                      DeliveryPending (md_metadata d)])
               (executionLogs (tables w))
               (systemAlerts (tables w)) (agentMetrics (tables w))
               (workflowTemplates (tables w)) (integrationModules (tables w))
               (llmProviders (tables w)))).
  { subst w'. unfold communicationRouter_sendMessage, createMessage.
    rewrite (bind_run _ _ _ _ _ Eg). cbn [negb].
    rewrite insert_run. unfold on_agentMessages, insert_row.
    cbn [message_id]. rewrite Ht, Hfresh. reflexivity. }
  assert (Hav' : available w').
  { rewrite Ew. apply cached_available. exact Hdb. }
  split.
  - intros t Ht' Hlen.
    rewrite (getConversationHistory_run w' t limit Hav').
    rewrite Ew. cbn [tables with_tables].
    rewrite (conversation_app t (tables w) _ eq_refl).
    cbn [message_taskId]. rewrite Ht'. cbn [opt_is].
    rewrite String.eqb_refl.
    rewrite firstn_all2 by (rewrite length_app; cbn [List.length]; lia).
    eexists. split; [reflexivity|]. intros m. apply in_snoc.
  - intros t Hne.
    rewrite (getConversationHistory_run w' t limit Hav').
    rewrite (getConversationHistory_run w t limit Hav).
    rewrite Ew. cbn [tables with_tables].
    rewrite (conversation_app t (tables w) _ eq_refl).
    cbn [message_taskId].
    replace (opt_is t (md_taskId d)) with false.
    + rewrite app_nil_r. reflexivity.
    + symmetry. unfold opt_is. destruct (md_taskId d) as [t'|]; [|reflexivity].
      apply String.eqb_neq. congruence.
Qed.

Lemma sendMessage_then_getConversation_witness :
  let w' :=
    snd (communicationRouter_sendMessage "msg-1" 3%Z testMessageData
           (connected empty)) in
  (exists l,
      fst (getConversationHistory "task-123" None w') = Returned l
      /\ forall m,
           In m l <->
           In m (conversation "task-123" (tables (connected empty)))
           \/ m = mkMessage "msg-1" "agent-1" (Some "agent-2")
                    (Some "task-123") Request (md_content testMessageData)
                    3%Z DeliveryPending (md_metadata testMessageData))
  /\ fst (getConversationHistory "task-9" None w')
     = fst (getConversationHistory "task-9" None (connected empty)).
Proof.
  split.
  - refine (proj1 (sendMessage_then_getConversation (connected empty) "msg-1"
                     3%Z testMessageData None eq_refl eq_refl)
                  "task-123" eq_refl _).
    cbn. lia.
  - refine (proj2 (sendMessage_then_getConversation (connected empty) "msg-1"
                     3%Z testMessageData None eq_refl eq_refl)
                  "task-9" _).
    discriminate.
Defined.

End Conversations.

Section Logs.
Import Rev1.

Lemma getTaskLogs_run (w : Runtime Tables) taskId limit :
  available w ->
  fst (getTaskLogs taskId limit w)
  = Returned (firstn (match limit with Some n => n | None => 1000%nat end)
                     (task_logs taskId (tables w))).
Proof.
  intros Hav. destruct (getDb_available w Hav) as (w1 & Eg & Ht & _).
  unfold getTaskLogs. cbv zeta.
  rewrite (bind_run _ _ _ _ _ Eg). cbn [negb].
  unfold bind, read, ret, task_logs. cbn [fst]. rewrite Ht. reflexivity.
Qed.

(** X13. An execution log written on a reachable database under an
    unused identifier is added to its task's log, with the level given,
    or [info] when none is given; the logs of other tasks are as
    before. *)
Theorem createExecutionLog_then_getTaskLogs :
  forall (w : Runtime Tables) nanoid now d,
    available w ->
    has_key log_id nanoid (executionLogs (tables w)) = false ->
    let w' := snd (createExecutionLog nanoid now d w) in
    ((List.length (task_logs (ld_taskId d) (tables w)) < 1000)%nat ->
     exists l,
       fst (getTaskLogs (ld_taskId d) None w') = Returned l
       /\ forall x,
            In x l <->
            In x (task_logs (ld_taskId d) (tables w))
            \/ x = mkExecutionLog nanoid (ld_taskId d) (ld_agentId d)
                     (ld_eventType d)
                     (match ld_level d with Some l => l | None => Info end)
                     (ld_message d) (ld_metadata d) now)
    /\ (forall t limit,
          t <> ld_taskId d ->
          fst (getTaskLogs t limit w') = fst (getTaskLogs t limit w)).
Proof.
  intros w nanoid now d Hav Hfresh w'.
  destruct (getDb_available w Hav) as (w1 & Eg & Ht & Hdb).
  assert (Ew : task_logs (ld_taskId d) (tables w')
               = task_logs (ld_taskId d) (tables w)
                 ++ [mkExecutionLog nanoid (ld_taskId d) (ld_agentId d)
                       (ld_eventType d)
                       (match ld_level d with Some l => l | None => Info end)
                       (ld_message d) (ld_metadata d) now]
               /\ (forall t, t <> ld_taskId d ->
                     task_logs t (tables w') = task_logs t (tables w))
               /\ _db w' = true).
  { subst w'. unfold createExecutionLog.
    rewrite (bind_run _ _ _ _ _ Eg). cbn [negb].
    rewrite insert_run. unfold on_executionLogs, insert_row.
    cbn [log_id]. rewrite Ht, Hfresh. cbn [snd tables with_tables].
    unfold task_logs, select_where. cbn [executionLogs].
    split; [|split; [|exact Hdb]].
    - rewrite filter_app. cbn. rewrite String.eqb_refl. reflexivity.
    - intros t Hne. rewrite filter_app. cbn.
      apply not_eq_sym in Hne. apply String.eqb_neq in Hne. rewrite Hne.
      apply app_nil_r. }
  destruct Ew as (Esame & Eother & Hdb').
  assert (Hav' : available w') by (apply cached_available; exact Hdb').
  split.
  - intros Hlen. rewrite (getTaskLogs_run w' _ None Hav'), Esame.
    rewrite firstn_all2 by (rewrite length_app; cbn [List.length]; lia).
    eexists. split; [reflexivity|]. intros x. apply in_snoc.
  - intros t limit Hne.
    rewrite (getTaskLogs_run w' t limit Hav'), (getTaskLogs_run w t limit Hav).
    rewrite (Eother t Hne). reflexivity.
Qed.

Lemma createExecutionLog_then_getTaskLogs_witness :
  let d := mkLogData "task-1" "agent-1" EvExecution None (Some "started") None in
  let w' := snd (createExecutionLog "log-1" 4%Z d (connected empty)) in
  exists l,
    fst (getTaskLogs "task-1" None w') = Returned l
    /\ forall x,
         In x l <->
         In x (task_logs "task-1" (tables (connected empty)))
         \/ x = mkExecutionLog "log-1" "task-1" "agent-1" EvExecution Info
                  (Some "started") None 4%Z.
Proof.
  refine (proj1 (createExecutionLog_then_getTaskLogs (connected empty) "log-1"
                   4%Z
                   (mkLogData "task-1" "agent-1" EvExecution None
                      (Some "started") None)
                   eq_refl eq_refl) _).
  cbn. lia.
Defined.

(** X14. Through the router a row limit of 0 counts as no limit given:
    a task with at most 1000 log entries gets all of them from
    [task.getLogs] with [limit: 0], and one with at most 100 messages
    gets all of them from [task.getConversation], whereas the database
    functions called with limit 0 return nothing. *)
Theorem router_limit_zero_is_default :
  forall (w : Runtime Tables) taskId,
    available w ->
    ((List.length (task_logs taskId (tables w)) <= 1000)%nat ->
     fst (taskRouter_getLogs taskId (Some 0%nat) w)
     = Returned (task_logs taskId (tables w)))
    /\ ((List.length (conversation taskId (tables w)) <= 100)%nat ->
        fst (taskRouter_getConversation taskId (Some 0%nat) w)
        = Returned (conversation taskId (tables w)))
    /\ fst (getTaskLogs taskId (Some 0%nat) w) = Returned []
    /\ fst (getConversationHistory taskId (Some 0%nat) w) = Returned [].
Proof.
  intros w taskId Hav. split; [|split; [|split]].
  - intros Hlen. unfold taskRouter_getLogs.
    rewrite (getTaskLogs_run w taskId _ Hav). f_equal.
    apply firstn_all2. exact Hlen.
  - intros Hlen. unfold taskRouter_getConversation.
    rewrite (getConversationHistory_run w taskId _ Hav). f_equal.
    apply firstn_all2. exact Hlen.
  - rewrite (getTaskLogs_run w taskId _ Hav). reflexivity.
  - rewrite (getConversationHistory_run w taskId _ Hav). reflexivity.
Qed.

Lemma router_limit_zero_is_default_witness :
  let w :=
    snd (createMessage "msg-1" 0%Z testMessageData (connected empty)) in
  fst (taskRouter_getConversation "task-123" (Some 0%nat) w)
  = Returned (conversation "task-123" (tables w))
  /\ fst (getConversationHistory "task-123" (Some 0%nat) w) = Returned [].
Proof.
  split.
  - refine (proj1 (proj2 (router_limit_zero_is_default
                            (snd (createMessage "msg-1" 0%Z testMessageData
                                    (connected empty)))
                            "task-123" eq_refl)) _).
    cbn. lia.
  - exact (proj2 (proj2 (proj2 (router_limit_zero_is_default
                                  (snd (createMessage "msg-1" 0%Z
                                          testMessageData (connected empty)))
                                  "task-123" eq_refl)))).
Defined.

End Logs.

(** ** Alerts and metrics *)

Section Monitoring.
Import Rev1.

Lemma step_alerts op (w : Runtime Tables) :
  exists new,
    systemAlerts (tables (snd (run op w))) = systemAlerts (tables w) ++ new
    /\ unresolved_only new.
Proof.
  assert (Hnone : forall l : list Alert,
             l = systemAlerts (tables w) ->
             exists new, l = systemAlerts (tables w) ++ new
                         /\ unresolved_only new).
  { intros l ->. exists []. rewrite app_nil_r.
    split; [reflexivity | constructor]. }
  destruct op as [r|l|x]; cbn [run].
  - apply Hnone, reads_frame.
  - apply Hnone, lists_frame.
  - destruct x; cbn [run_write]; rewrite snd_observe.
    11: { unfold createAlert.
          destruct (getDb_returns w) as (b & w1 & E & Ht & _).
          rewrite (bind_run _ _ _ _ _ E). destruct b; cbn [negb].
          - rewrite insert_run. unfold on_systemAlerts, insert_row.
            destruct (has_key alert_id _ _); cbn; rewrite Ht.
            + exists []. rewrite app_nil_r. split; [reflexivity | constructor].
            + eexists. split; [reflexivity|].
              constructor; [reflexivity | constructor].
          - cbn. rewrite Ht. exists []. rewrite app_nil_r.
            split; [reflexivity | constructor]. }
    all: apply Hnone;
      match goal with
      | |- systemAlerts (tables (snd (?c _))) = _ =>
          assert (Hf : frames systemAlerts c);
          [open_operation; framed | apply Hf]
      end.
Qed.

Lemma history_alerts ops (w : Runtime Tables) :
  exists new,
    systemAlerts (tables (run_all ops w)) = systemAlerts (tables w) ++ new
    /\ unresolved_only new.
Proof.
  revert w. induction ops as [|op rest IH]; intros w; cbn [run_all].
  - exists []. rewrite app_nil_r. split; [reflexivity | constructor].
  - destruct (step_alerts op w) as (n1 & E1 & P1).
    destruct (IH (snd (run op w))) as (n2 & E2 & P2).
    exists (n1 ++ n2). rewrite E2, E1, app_assoc.
    split; [reflexivity|]. apply Forall_app. split; assumption.
Qed.

Lemma filter_all {A} (p : A -> bool) (l : list A) :
  Forall (fun x => p x = true) l -> filter p l = l.
Proof.
  induction 1 as [|x l Hx _ IH]; cbn; [reflexivity|].
  rewrite Hx, IH. reflexivity.
Qed.

(** X15. This revision has no way to resolve an alert: through any
    history of operations the alerts stored stay as they are and the
    ones added are unresolved.  So, while no stored alert is resolved,
    [getUnresolvedAlerts] on a reachable database returns every alert
    there is. *)
Theorem alerts_stay_unresolved :
  (forall ops (w : Runtime Tables),
      unresolved_only (systemAlerts (tables w)) ->
      unresolved_only (systemAlerts (tables (run_all ops w)))
      /\ exists new,
          systemAlerts (tables (run_all ops w))
          = systemAlerts (tables w) ++ new)
  /\ (forall w : Runtime Tables,
        available w ->
        unresolved_only (systemAlerts (tables w)) ->
        fst (getUnresolvedAlerts w) = Returned (systemAlerts (tables w))).
Proof.
  split.
  - intros ops w Hw. destruct (history_alerts ops w) as (new & E & P).
    split; [|exists new; exact E].
    rewrite E. apply Forall_app. split; assumption.
  - intros w Hav Hw. destruct (getDb_available w Hav) as (w1 & Eg & Ht & _).
    unfold getUnresolvedAlerts. rewrite (bind_run _ _ _ _ _ Eg). cbn [negb].
    unfold bind, read, ret, select_where. cbn [fst]. rewrite Ht.
    f_equal. apply filter_all.
    unfold unresolved_only in Hw. rewrite Forall_forall in *.
    intros a Ha. rewrite (Hw a Ha). reflexivity.
Qed.

Lemma alerts_stay_unresolved_witness :
  let ops :=
    [Mutate (CreateAlert "alert-1" 0%Z
               (mkAlertData AgentFailure (Some SevCritical) "Agent Failed"
                  None (Some "agent-1") None));
     Mutate (UpdateTaskStatus 1%Z "task-1" Failed None);
     Mutate (CreateAlert "alert-2" 2%Z
               (mkAlertData TaskTimeout None "Task Timeout" None None
                  (Some "task-1")))] in
  (unresolved_only (systemAlerts (tables (run_all ops (connected empty))))
   /\ exists new,
       systemAlerts (tables (run_all ops (connected empty)))
       = systemAlerts (tables (connected empty)) ++ new)
  /\ fst (getUnresolvedAlerts (run_all ops (connected empty)))
     = Returned (systemAlerts (tables (run_all ops (connected empty)))).
Proof.
  split.
  - exact (proj1 alerts_stay_unresolved _ (connected empty)
             (Forall_nil _)).
  - match goal with
    | |- fst (getUnresolvedAlerts ?w) = _ =>
        refine (proj2 alerts_stay_unresolved w eq_refl _)
    end.
    cbn. repeat constructor.
Defined.

Lemma getAgentMetrics_run (w : Runtime Tables) now agentId h :
  available w ->
  fst (getAgentMetrics now agentId h w)
  = Returned
      (filter
         (later_than
            (cutoff now (match h with Some x => x | None => 24%float end)))
         (select_where (fun m => (metric_agentId m =? agentId)%string)
                       (agentMetrics (tables w)))).
Proof.
  intros Hav. destruct (getDb_available w Hav) as (w1 & Eg & Ht & _).
  unfold getAgentMetrics. cbv zeta.
  rewrite (bind_run _ _ _ _ _ Eg). cbn [negb].
  unfold bind, read, ret. cbn [fst]. rewrite Ht. reflexivity.
Qed.

Lemma filter_none {A} (f : A -> bool) (l : list A) :
  (forall x, f x = false) -> filter f l = [].
Proof.
  intros Hf. induction l as [|a l IH]; [reflexivity|].
  cbn. rewrite Hf. exact IH.
Qed.

(** X16. When the cutoff [new Date(Date.now() - hoursBack * 60 * 60 *
    1000)] (24 hours when [hoursBack] is not given) is a valid date,
    [getAgentMetrics] on a reachable database returns exactly the
    metrics of the agent whose timestamp is strictly later than the
    cutoff; metrics of other agents, metrics on the cutoff and metrics
    without timestamp are not returned. *)
Theorem getAgentMetrics_window :
  forall (w : Runtime Tables) now agentId h c,
    available w ->
    cutoff now (match h with Some x => x | None => 24%float end) = Some c ->
    exists l,
      fst (getAgentMetrics now agentId h w) = Returned l
      /\ forall m,
          In m l <->
          In m (agentMetrics (tables w))
          /\ metric_agentId m = agentId
          /\ exists ts, metric_timestamp m = Some ts /\ (c < ts)%Z.
Proof.
  intros w now agentId h c Hav Hc.
  eexists. split; [exact (getAgentMetrics_run w now agentId h Hav)|].
  intros m. unfold select_where. rewrite !filter_In, String.eqb_eq.
  rewrite Hc. unfold later_than. split.
  - intros [[Hin Hid] Hts].
    split; [exact Hin|]. split; [exact Hid|].
    destruct (metric_timestamp m) as [ts|]; [|discriminate].
    exists ts. split; [reflexivity|]. apply Z.ltb_lt. exact Hts.
  - intros (Hin & Hid & ts & Ets & Hlt).
    split; [split; assumption|]. rewrite Ets.
    apply Z.ltb_lt. exact Hlt.
Qed.

(** Two metrics of one agent, recorded at 04:00:00.000 and at
    04:59:59.999 on the first day of the epoch, read at 05:00:00.000. *)
Lemma getAgentMetrics_window_witness :
  let w :=
    snd (recordMetric "metric-2" 17999999%Z
           (mkMetricData "agent-1" None (Some 900) None None (Some true))
           (snd (recordMetric "metric-1" 14400000%Z
                   (mkMetricData "agent-1" None (Some 1500) None None
                      (Some true))
                   (connected empty)))) in
  exists l,
    fst (getAgentMetrics 18000000%Z "agent-1" (Some 1%float) w) = Returned l
    /\ forall m,
        In m l <->
        In m (agentMetrics (tables w))
        /\ metric_agentId m = "agent-1"
        /\ exists ts, metric_timestamp m = Some ts /\ (14400000 < ts)%Z.
Proof.
  exact (getAgentMetrics_window
           (snd (recordMetric "metric-2" 17999999%Z
                   (mkMetricData "agent-1" None (Some 900) None None
                      (Some true))
                   (snd (recordMetric "metric-1" 14400000%Z
                           (mkMetricData "agent-1" None (Some 1500) None None
                              (Some true))
                           (connected empty)))))
           18000000%Z "agent-1" (Some 1%float) 14400000%Z eq_refl eq_refl).
Defined.

(** The same reading: the metric on the cutoff is left out, the later
    one is returned. *)
Example one_hour_back :
  let w :=
    snd (recordMetric "metric-2" 17999999%Z
           (mkMetricData "agent-1" None (Some 900) None None (Some true))
           (snd (recordMetric "metric-1" 14400000%Z
                   (mkMetricData "agent-1" None (Some 1500) None None
                      (Some true))
                   (connected empty)))) in
  fst (getAgentMetrics 18000000%Z "agent-1" (Some 1%float) w)
  = Returned [mkMetric "metric-2" "agent-1" None (Some 900) None None
                (Some true) (Some 17999999%Z)].
Proof. vm_compute. reflexivity. Qed.

(** The product is rounded at each step: a tenth of an hour (the double
    nearest to 0.1) back is 360000 ms back exactly, so that a metric
    recorded 360000 ms before the reading is on the cutoff and is not
    returned. *)
Example a_tenth_of_an_hour_back :
  let w :=
    snd (recordMetric "metric-1" 17640000%Z
           (mkMetricData "agent-1" None (Some 1500) None None (Some true))
           (connected empty)) in
  cutoff 18000000%Z 0x1.999999999999ap-4%float = Some 17640000%Z
  /\ fst (getAgentMetrics 18000000%Z "agent-1"
            (Some 0x1.999999999999ap-4%float) w)
     = Returned [].
Proof. vm_compute. split; reflexivity. Qed.

Lemma cutoff_not_finite now (h : number) :
  (Prim2SF (h * 60 * 60 * 1000)%float = S754_nan
   \/ exists s, Prim2SF (h * 60 * 60 * 1000)%float = S754_infinity s) ->
  cutoff now h = None.
Proof.
  intros H. unfold cutoff, time_clip, truncate.
  rewrite sub_spec.
  destruct H as [-> | [s ->]];
    destruct (Prim2SF (number_of_Z now)) as [s'|s'| |s' m e];
    try reflexivity; destruct s, s'; reflexivity.
Qed.

(** X17. When the cutoff is not a valid date, [getAgentMetrics] returns
    no metric at all, whatever is stored: a longer window can return
    less than a shorter one.  The cutoff is not a valid date when
    [hoursBack] is NaN or infinite (and when the window reaches more
    than 8.64e15 ms from the epoch, as for the three thousand million
    hours below). *)
Theorem getAgentMetrics_invalid_cutoff :
  (forall (w : Runtime Tables) now agentId h,
      cutoff now (match h with Some x => x | None => 24%float end) = None ->
      getAgentMetrics now agentId h w = (Returned [], snd (getDb w)))
  /\ (forall now,
        cutoff now nan = None
        /\ cutoff now infinity = None
        /\ cutoff now neg_infinity = None).
Proof.
  split.
  2: { intros now. repeat split; apply cutoff_not_finite;
       first [left; reflexivity | right; eexists; reflexivity]. }
  intros w now agentId h Hc.
  destruct (getDb_returns w) as (b & w1 & Eg & Ht & _).
  unfold getAgentMetrics. cbv zeta.
  rewrite (bind_run _ _ _ _ _ Eg), Eg. destruct b; cbn [negb snd].
  - rewrite Hc. unfold bind, read, ret. cbn [fst snd].
    rewrite filter_none; [reflexivity|].
    intros m. unfold later_than. destruct (metric_timestamp m); reflexivity.
  - reflexivity.
Qed.

(** Three thousand million hours back from 05:00 on the first day of
    the epoch: nothing is returned, although one hour back returns the
    metric. *)
Lemma getAgentMetrics_invalid_cutoff_witness :
  let w :=
    snd (recordMetric "metric-1" 17999999%Z
           (mkMetricData "agent-1" None (Some 1500) None None (Some true))
           (connected empty)) in
  getAgentMetrics 18000000%Z "agent-1" (Some 3000000000%float) w
  = (Returned [], snd (getDb w))
  /\ cutoff 18000000%Z 3000000000%float = None
  /\ fst (getAgentMetrics 18000000%Z "agent-1" (Some 1%float) w)
     = Returned [mkMetric "metric-1" "agent-1" None (Some 1500) None None
                   (Some true) (Some 17999999%Z)].
Proof.
  split; [|split].
  - exact (proj1 getAgentMetrics_invalid_cutoff
             (snd (recordMetric "metric-1" 17999999%Z
                     (mkMetricData "agent-1" None (Some 1500) None None
                        (Some true))
                     (connected empty)))
             18000000%Z "agent-1" (Some 3000000000%float) eq_refl).
  - reflexivity.
  - vm_compute. reflexivity.
Defined.

End Monitoring.

(** ** Filters dropped by the router *)

Section RouterFilters.
Import Rev1.



(** What the two listings of the witness return when they are asked for
    the inactive rows, through the database functions and through the
    router. *)
Example inactive_rows :
  let w :=
    connected
      (mkTables [] [] [] [] [] [] [] [] []
         [mkIntegration "int-1" "langchain" true;
          mkIntegration "int-2" "crewai" false]
         [mkProvider "llm-1" true true; mkProvider "llm-2" false false]) in
  fst (listIntegrations (Some false) w)
  = Returned [mkIntegration "int-2" "crewai" false]
  /\ fst (listLLMProviders (Some false) w)
     = Returned [mkProvider "llm-2" false false]
  /\ fst (integrationRouter_list (Some (Some true)) w)
     = Returned [mkIntegration "int-1" "langchain" true]
  /\ fst (llmRouter_list (Some (Some true)) w)
     = Returned [mkProvider "llm-1" true true].
Proof. repeat split. Qed.

End RouterFilters.

(** ** Users *)

Lemma has_key_find {R} (key : R -> string) k (rows : list R) :
  has_key key k rows
  = match find (fun x => (key x =? k)%string) rows with
    | Some _ => true
    | None => false
    end.
Proof.
  unfold has_key. induction rows as [|x rows IH]; cbn; [reflexivity|].
  destruct (key x =? k)%string; [reflexivity | exact IH].
Qed.

Lemma has_key_in {R} (key : R -> string) k (rows : list R) :
  has_key key k rows = false -> ~ In k (map key rows).
Proof.
  unfold has_key. induction rows as [|x rows IH]; cbn; [tauto|].
  intros H. apply orb_false_elim in H. destruct H as [Hx Hrest].
  apply String.eqb_neq in Hx. intros [Heq | Hin]; [congruence|].
  exact (IH Hrest Hin).
Qed.

Lemma keys_of_update {R} (key : R -> string) p f (rows : list R) :
  (forall r, key (f r) = key r) ->
  map key (update_where p f rows) = map key rows.
Proof.
  intros Hk. unfold update_where. rewrite map_map. apply map_ext.
  intros r. destruct (p r); [apply Hk | reflexivity].
Qed.

Section Users.
Import Rev1.

Lemma getUserByOpenId_connected (w : Runtime Tables) k :
  _db w = true ->
  getUserByOpenId k w = (Returned (find (by_openId k) (users (tables w))), w).
Proof.
  intros H. unfold getUserByOpenId, bind, read, ret.
  rewrite (getDb_cached w H). cbn [negb].
  rewrite first_of_select. reflexivity.
Qed.

(** The statement [upsertUser] sends, on a reachable database. *)
Lemma upsertUser_run (w : Runtime Tables) ownerOpenId now u :
  available w -> iu_openId u <> "" ->
  exists w1 values set,
    tables w1 = tables w /\ _db w1 = true
    /\ upsertUser ownerOpenId now u w
       = (Returned tt,
          with_tables w1
            (mkTables
               (upsert_row values set (users (tables w)))
               (agents (tables w)) (workflows (tables w)) (tasks (tables w))
               (agentMessages (tables w)) (executionLogs (tables w))
               (systemAlerts (tables w)) (agentMetrics (tables w))
               (workflowTemplates (tables w)) (integrationModules (tables w))
               (llmProviders (tables w))))
    /\ values
       = mkUser (iu_openId u) (column (iu_name u)) (column (iu_email u))
           (column (iu_loginMethod u))
           (match iu_role u with
            | Some r => r
            | None =>
                if (iu_openId u =? ownerOpenId)%string
                then RoleAdmin else RoleUser
            end)
           (match iu_lastSignedIn u with Some d => d | None => now end)
    /\ set
       = (let role :=
            match iu_role u with
            | Some r => Some r
            | None =>
                if (iu_openId u =? ownerOpenId)%string
                then Some RoleAdmin else None
            end in
          let given :=
            mkUpdateSet (iu_name u) (iu_email u) (iu_loginMethod u)
              (iu_lastSignedIn u) role in
          if no_keys given
          then mkUpdateSet Undefined Undefined Undefined (Some now) None
          else given).
Proof.
  intros Hav Hid. destruct (getDb_available w Hav) as (w1 & Eg & Ht & Hdb).
  exists w1. eexists _, _. split; [exact Ht|]. split; [exact Hdb|].
  split; [|split; reflexivity].
  unfold upsertUser. apply String.eqb_neq in Hid. rewrite Hid.
  rewrite (bind_run _ _ _ _ _ Eg). cbn [negb].
  rewrite update_run. unfold on_users, updating. rewrite Ht.
  destruct (iu_role u); [reflexivity|].
  destruct (iu_openId u =? ownerOpenId)%string; reflexivity.
Qed.

(** X19. The first [upsertUser] of an [openId] on a reachable database
    (with an e-mail address no other user holds) adds one user, found again by [getUserByOpenId]: with the fields
    given ([null] or missing ones empty), the role given, or [admin]
    for the owner and [user] for anyone else when none is given, and
    the sign-in time given, or the time of the call. *)
Theorem upsertUser_inserts :
  forall (w : Runtime Tables) ownerOpenId now u,
    available w ->
    iu_openId u <> "" ->
    email_free u (users (tables w)) ->
    find (by_openId (iu_openId u)) (users (tables w)) = None ->
    let out := upsertUser ownerOpenId now u w in
    fst out = Returned tt
    /\ exists row,
        users (tables (snd out)) = users (tables w) ++ [row]
        /\ fst (getUserByOpenId (iu_openId u) (snd out)) = Returned (Some row)
        /\ user_openId row = iu_openId u
        /\ user_name row = column (iu_name u)
        /\ user_email row = column (iu_email u)
        /\ user_loginMethod row = column (iu_loginMethod u)
        /\ (forall r, iu_role u = Some r -> user_role row = r)
        /\ (iu_role u = None -> iu_openId u = ownerOpenId ->
            user_role row = RoleAdmin)
        /\ (iu_role u = None -> iu_openId u <> ownerOpenId ->
            user_role row = RoleUser)
        /\ (forall d, iu_lastSignedIn u = Some d -> user_lastSignedIn row = d)
        /\ (iu_lastSignedIn u = None -> user_lastSignedIn row = now).
Proof.
  intros w ownerOpenId now u Hav Hid _ Hnew out. subst out.
  destruct (upsertUser_run w ownerOpenId now u Hav Hid)
    as (w1 & values & set & Ht & Hdb & E & Ev & _).
  rewrite E. cbn [fst snd tables with_tables users].
  assert (Hk : has_key user_openId (iu_openId u) (users (tables w)) = false).
  { rewrite has_key_find. unfold by_openId in Hnew. rewrite Hnew.
    reflexivity. }
  assert (Eid : user_openId values = iu_openId u) by (rewrite Ev; reflexivity).
  unfold upsert_row. rewrite Eid, Hk.
  split; [reflexivity|]. exists values. split; [reflexivity|]. split.
  - rewrite getUserByOpenId_connected by exact Hdb.
    cbn [fst tables with_tables users]. unfold by_openId.
    rewrite (find_app_fresh user_openId) by assumption. reflexivity.
  - rewrite Ev. cbn. repeat (split; [reflexivity|]).
    split; [|split; [|split; [|split]]].
    + intros r ->. reflexivity.
    + intros -> ->. rewrite String.eqb_refl. reflexivity.
    + intros -> Hne. apply String.eqb_neq in Hne. rewrite Hne. reflexivity.
    + intros d ->. reflexivity.
    + intros ->. reflexivity.
Qed.

Lemma upsertUser_inserts_witness :
  let out := upsertUser "user-1" 11%Z testUser (connected empty) in
  fst out = Returned tt
  /\ exists row,
      users (tables (snd out)) = users (tables (connected empty)) ++ [row]
      /\ fst (getUserByOpenId "user-1" (snd out)) = Returned (Some row)
      /\ user_openId row = "user-1"
      /\ user_name row = Some "Ada"
      /\ user_email row = None
      /\ user_loginMethod row = None
      /\ (forall r, None = Some r -> user_role row = r)
      /\ (@None Role = None -> "user-1" = "user-1" -> user_role row = RoleAdmin)
      /\ (@None Role = None -> "user-1" <> "user-1" -> user_role row = RoleUser)
      /\ (forall d, None = Some d -> user_lastSignedIn row = d)
      /\ (@None Time = None -> user_lastSignedIn row = 11%Z).
Proof.
  refine (upsertUser_inserts (connected empty) "user-1" 11%Z testUser
            eq_refl _ _ eq_refl).
  - discriminate.
  - intros e He. discriminate He.
Defined.

(** X20. A further [upsertUser] of an [openId] that exists (with an
    e-mail address no other user holds) adds no row and updates the one
    there: a field given replaces the stored one,
    [null] empties it, a missing field leaves it; the role is the one
    given, or [admin] for the owner, or else unchanged.  The sign-in
    time is the one given; when none is given it becomes the time of
    the call only if the call gives nothing else, and stays as it was
    otherwise. *)
Theorem upsertUser_updates :
  forall (w : Runtime Tables) ownerOpenId now u r,
    available w ->
    iu_openId u <> "" ->
    email_free u (users (tables w)) ->
    find (by_openId (iu_openId u)) (users (tables w)) = Some r ->
    let out := upsertUser ownerOpenId now u w in
    fst out = Returned tt
    /\ List.length (users (tables (snd out)))
       = List.length (users (tables w))
    /\ exists r',
        fst (getUserByOpenId (iu_openId u) (snd out)) = Returned (Some r')
        /\ user_name r' = assign (iu_name u) (user_name r)
        /\ user_email r' = assign (iu_email u) (user_email r)
        /\ user_loginMethod r' = assign (iu_loginMethod u) (user_loginMethod r)
        /\ (forall x, iu_role u = Some x -> user_role r' = x)
        /\ (iu_role u = None -> iu_openId u = ownerOpenId ->
            user_role r' = RoleAdmin)
        /\ (iu_role u = None -> iu_openId u <> ownerOpenId ->
            user_role r' = user_role r)
        /\ (forall d, iu_lastSignedIn u = Some d -> user_lastSignedIn r' = d)
        /\ (iu_lastSignedIn u = None ->
            iu_name u = Undefined -> iu_email u = Undefined ->
            iu_loginMethod u = Undefined -> iu_role u = None ->
            iu_openId u <> ownerOpenId ->
            user_lastSignedIn r' = now)
        /\ (iu_lastSignedIn u = None ->
            (iu_name u <> Undefined \/ iu_email u <> Undefined
             \/ iu_loginMethod u <> Undefined \/ iu_role u <> None
             \/ iu_openId u = ownerOpenId) ->
            user_lastSignedIn r' = user_lastSignedIn r).
Proof.
  intros w ownerOpenId now u r Hav Hid _ Hold out. subst out.
  destruct (upsertUser_run w ownerOpenId now u Hav Hid)
    as (w1 & values & set & Ht & Hdb & E & Ev & Es).
  rewrite E. cbn [fst snd tables with_tables users].
  assert (Hk : has_key user_openId (iu_openId u) (users (tables w)) = true).
  { rewrite has_key_find. unfold by_openId in Hold. rewrite Hold.
    reflexivity. }
  assert (Eid : user_openId values = iu_openId u) by (rewrite Ev; reflexivity).
  unfold upsert_row. rewrite Eid, Hk.
  split; [reflexivity|]. split.
  { unfold update_where. apply length_map. }
  rewrite getUserByOpenId_connected by exact Hdb.
  cbn [fst tables with_tables users].
  fold (by_openId (iu_openId u)).
  rewrite find_update_where by reflexivity. rewrite Hold. cbn [option_map].
  eexists. split; [reflexivity|]. rewrite Es. clear E Ev Es.
  destruct (iu_name u) eqn:En, (iu_email u) eqn:Ee,
    (iu_loginMethod u) eqn:El, (iu_lastSignedIn u) eqn:Ed,
    (iu_role u) eqn:Er;
    try (destruct (iu_openId u =? ownerOpenId)%string eqn:Eo;
         [apply String.eqb_eq in Eo | apply String.eqb_neq in Eo]);
    cbn;
    repeat split; try reflexivity; try congruence; intros;
    try congruence;
    repeat match goal with
           | H : _ \/ _ |- _ => destruct H
           end;
    try congruence.
Qed.

Lemma upsertUser_updates_witness :
  let w := snd (upsertUser "owner-1" 11%Z testUser (connected empty)) in
  let u := mkInsertUser "user-1" Null (Val "ada@example.org") Undefined None None in
  let out := upsertUser "owner-1" 20%Z u w in
  fst out = Returned tt
  /\ List.length (users (tables (snd out))) = 1%nat
  /\ exists r',
      fst (getUserByOpenId "user-1" (snd out)) = Returned (Some r')
      /\ user_name r' = None
      /\ user_email r' = Some "ada@example.org"
      /\ user_loginMethod r' = None
      /\ user_role r' = RoleUser
      /\ user_lastSignedIn r' = 11%Z.
Proof.
  destruct (upsertUser_updates
              (snd (upsertUser "owner-1" 11%Z testUser (connected empty)))
              "owner-1" 20%Z
              (mkInsertUser "user-1" Null (Val "ada@example.org") Undefined
                 None None)
              (mkUser "user-1" (Some "Ada") None None RoleUser 11%Z)
              eq_refl ltac:(discriminate)
              ltac:(intros e _ r [<- | []] Hne; exfalso; apply Hne;
                    reflexivity)
              eq_refl)
    as (H1 & H2 & r' & Hget & Hn & He & Hl & _ & _ & Hrole & _ & _ & Hlast).
  split; [exact H1|]. split; [exact H2|].
  exists r'. split; [exact Hget|]. split; [exact Hn|]. split; [exact He|].
  split; [exact Hl|]. split.
  - apply Hrole; [reflexivity | discriminate].
  - apply Hlast; [reflexivity|]. left. discriminate.
Defined.

(** X21. [upsertUser] never makes a second row for an [openId]: if the
    [openId]s of the users are pairwise distinct before a call (whose
    e-mail address no other user holds), they are after it, whether the
    call inserts, updates, fails or finds no database. *)
Theorem upsertUser_keeps_openId_unique :
  forall (w : Runtime Tables) ownerOpenId now u,
    email_free u (users (tables w)) ->
    NoDup (map user_openId (users (tables w))) ->
    NoDup (map user_openId
             (users (tables (snd (upsertUser ownerOpenId now u w))))).
Proof.
  intros w ownerOpenId now u _ Hnd. unfold upsertUser.
  destruct (iu_openId u =? "")%string; [exact Hnd|].
  destruct (getDb_returns w) as (b & w1 & Eg & Ht & _).
  rewrite (bind_run _ _ _ _ _ Eg). destruct b; cbn [negb].
  - rewrite update_run. unfold on_users, updating, upsert_row.
    cbn [snd tables with_tables users user_openId]. rewrite Ht.
    destruct (has_key user_openId (iu_openId u) (users (tables w))) eqn:Hk.
    + rewrite keys_of_update by reflexivity. exact Hnd.
    + rewrite map_app. cbn [map user_openId].
      apply NoDup_app; [exact Hnd | repeat constructor; tauto |].
      intros k Hin [<- | []]. exact (has_key_in _ _ _ Hk Hin).
  - cbn. rewrite Ht. exact Hnd.
Qed.

Lemma upsertUser_keeps_openId_unique_witness :
  NoDup (map user_openId
           (users
              (tables
                 (snd (upsertUser "owner-1" 20%Z testUser
                         (snd (upsertUser "owner-1" 11%Z testUser
                                 (connected empty)))))))).
Proof.
  refine (upsertUser_keeps_openId_unique
            (snd (upsertUser "owner-1" 11%Z testUser (connected empty)))
            "owner-1" 20%Z testUser _ _).
  - intros e He. discriminate He.
  - cbn. repeat constructor. tauto.
Defined.

End Users.

(** * Further properties of the second revision *)

Section Tasks2.
Import Rev2.

Lemma getTask2_connected (w : Runtime Tables) k :
  _db w = true ->
  getTask k w = (Returned (find (by_task k) (tasks (tables w))), w).
Proof.
  intros H. unfold getTask, bind, read, ret.
  rewrite (getDb_cached w H). cbn [negb].
  rewrite first_of_select. reflexivity.
Qed.

Lemma cached_available2 (w : Runtime Tables) : _db w = true -> available w.
Proof.
  intros H. unfold available. rewrite (getDb_cached w H). reflexivity.
Qed.

(** X22. In the second revision a status update on a task that exists,
    to one of the five statuses of the column, sets [startedAt] for "running" and [completedAt] for "completed"
    and "failed" only: a task moved to "timeout" (or "pending") keeps
    both timings as they were.  A result is stored only when it is
    truthy; the owner, workflow, input, agents and priority stay. *)
Theorem updateTaskStatus2_timings :
  forall (w : Runtime Tables) now taskId status result x,
    available w ->
    In status task_statuses ->
    find (by_task taskId) (tasks (tables w)) = Some x ->
    let out := updateTaskStatus now taskId status result w in
    fst out = Returned tt
    /\ exists x',
        fst (getTask taskId (snd out)) = Returned (Some x')
        /\ task_status x' = status
        /\ (status = "running" ->
            task_startedAt x' = Some now
            /\ task_completedAt x' = task_completedAt x)
        /\ (status = "completed" \/ status = "failed" ->
            task_completedAt x' = Some now
            /\ task_startedAt x' = task_startedAt x)
        /\ (status = "timeout" \/ status = "pending" ->
            task_completedAt x' = task_completedAt x
            /\ task_startedAt x' = task_startedAt x)
        /\ (truthy result = false -> task_result x' = task_result x)
        /\ (forall r, result = Some r -> truthy result = true ->
            task_result x' = r)
        /\ task_userId x' = task_userId x
        /\ task_workflowId x' = task_workflowId x
        /\ task_input x' = task_input x
        /\ task_assignedAgents x' = task_assignedAgents x
        /\ task_priority x' = task_priority x.
Proof.
  intros w now taskId status result x Hav _ Hx out. subst out.
  destruct (getDb_available w Hav) as (w1 & Eg & Ht & Hdb).
  unfold updateTaskStatus. rewrite (bind_run _ _ _ _ _ Eg). cbn [negb].
  cbv zeta. unfold execute, on_tasks, updating. cbn [fst snd].
  split; [reflexivity|].
  rewrite getTask2_connected by exact Hdb.
  cbn [fst tables with_tables tasks]. fold (by_task taskId).
  rewrite find_update_where by reflexivity. rewrite Ht, Hx.
  eexists. split; [reflexivity|]. cbn.
  split; [reflexivity|]. split; [|split; [|split; [|split; [|split]]]].
  - intros ->. cbn. auto.
  - intros [-> | ->]; cbn; auto.
  - intros [-> | ->]; cbn; auto.
  - intros Hf. rewrite Hf. reflexivity.
  - intros r -> Hr. rewrite Hr. reflexivity.
  - repeat split.
Qed.

Lemma updateTaskStatus2_timings_witness :
  let w :=
    snd (updateTaskStatus 1%Z "task-1" "running" None
           (snd (createTask "1" testTaskData (connected empty)))) in
  let out := updateTaskStatus 9%Z "task-1" "timeout" (Some JNull) w in
  fst out = Returned tt
  /\ exists x',
      fst (getTask "task-1" (snd out)) = Returned (Some x')
      /\ task_status x' = "timeout"
      /\ task_completedAt x' = None
      /\ task_startedAt x' = Some 1%Z
      /\ task_result x' = JObj [].
Proof.
  destruct (updateTaskStatus2_timings
              (snd (updateTaskStatus 1%Z "task-1" "running" None
                      (snd (createTask "1" testTaskData (connected empty)))))
              9%Z "task-1" "timeout" (Some JNull)
              (mkTask "task-1" 1%Z "workflow-1"
                 (JObj [("query", JStr "test query")]) [] 1 "running"
                 (JObj []) (Some 1%Z) None)
              eq_refl ltac:(cbn; tauto) eq_refl)
    as (H1 & x' & Hget & Hst & _ & _ & Htimeout & Hres & _).
  split; [exact H1|]. exists x'.
  split; [exact Hget|]. split; [exact Hst|].
  destruct (Htimeout (or_introl eq_refl)) as [Hc Hs].
  split; [exact Hc|]. split; [exact Hs|]. exact (Hres eq_refl).
Defined.

Lemma listTasks_run (w : Runtime Tables) userId workflowId :
  available w ->
  fst (listTasks userId workflowId w)
  = Returned
      (select_where
         (fun x => (task_userId x =? userId)%Z
                   && (if truthy_str workflowId
                       then (task_workflowId x =? str_or workflowId "")%string
                       else true))
         (tasks (tables w))).
Proof.
  intros Hav. destruct (getDb_available w Hav) as (w1 & Eg & Ht & _).
  unfold listTasks. rewrite (bind_run _ _ _ _ _ Eg). cbn [negb].
  unfold read. cbn [fst]. rewrite Ht. reflexivity.
Qed.

(** X23. [listTasks] returns exactly the tasks owned by the user, and
    among them, when a non-empty workflow id is given, exactly those of
    that workflow; an empty workflow id filters nothing. *)
Theorem listTasks_scope :
  forall (w : Runtime Tables) userId workflowId,
    available w ->
    exists l,
      fst (listTasks userId workflowId w) = Returned l
      /\ (forall x,
            In x l <->
            In x (tasks (tables w))
            /\ task_userId x = userId
            /\ (forall s, workflowId = Some s -> s <> "" ->
                task_workflowId x = s))
      /\ (workflowId = Some "" ->
          fst (listTasks userId workflowId w) = fst (listTasks userId None w)).
Proof.
  intros w userId workflowId Hav.
  eexists. split; [exact (listTasks_run w userId workflowId Hav)|]. split.
  - intros x. unfold select_where.
    rewrite filter_In, andb_true_iff, Z.eqb_eq.
    destruct workflowId as [s|]; cbn [truthy_str str_or].
    + destruct (s =? "")%string eqn:Es; cbn [negb].
      * apply String.eqb_eq in Es. subst s.
        split; [intros (Hin & Hu & _) | intros (Hin & Hu & _)];
          repeat split; try assumption.
        intros s [= <-] Hs. contradiction.
      * apply String.eqb_neq in Es. rewrite String.eqb_eq.
        split.
        -- intros (Hin & Hu & Hw). repeat split; try assumption.
           intros s' [= <-] _. exact Hw.
        -- intros (Hin & Hu & Hw). repeat split; try assumption.
           apply Hw; [reflexivity | exact Es].
    + split; [intros (Hin & Hu & _) | intros (Hin & Hu & _)];
        repeat split; try assumption.
      intros s [=].
  - intros ->. rewrite !listTasks_run by exact Hav. reflexivity.
Qed.

(** X24. A task created in the second revision on a reachable
    database, under an unused identifier, is found again by [getTask]
    under "task-" followed by the generated id: pending, owned by its
    creator, with an empty result, the agents given (none when absent)
    and the priority given, 1 when absent or 0.  [listTasks] shows it
    among its owner's tasks, beside the ones there were, and the
    listings of other users are as before. *)
Theorem createTask2_then_listTasks :
  forall (w : Runtime Tables) nanoid d,
    available w ->
    has_key task_id ("task-" ++ nanoid)%string (tasks (tables w)) = false ->
    let out := createTask nanoid d w in
    exists row l l',
      fst out = Returned (mkCreated ("task-" ++ nanoid)%string d)
      /\ fst (getTask ("task-" ++ nanoid)%string (snd out))
         = Returned (Some row)
      /\ task_userId row = td_userId d
      /\ task_workflowId row = td_workflowId d
      /\ task_status row = "pending"
      /\ task_result row = JObj []
      /\ task_assignedAgents row
         = match td_assignedAgents d with Some a => a | None => [] end
      /\ (td_priority d = None -> task_priority row = 1)
      /\ (forall p, td_priority d = Some p -> p == 0 -> task_priority row = 1)
      /\ (forall p, td_priority d = Some p -> ~ p == 0 ->
          task_priority row = p)
      /\ fst (listTasks (td_userId d) None w) = Returned l
      /\ fst (listTasks (td_userId d) None (snd out)) = Returned l'
      /\ (forall x, In x l' <-> In x l \/ x = row)
      /\ (forall u wf, u <> td_userId d ->
            fst (listTasks u wf (snd out)) = fst (listTasks u wf w)).
Proof.
  intros w nanoid d Hav Hfresh out. subst out.
  destruct (getDb_available w Hav) as (w1 & Eg & Ht & Hdb).
  unfold createTask. rewrite (bind_run _ _ _ _ _ Eg). cbn [negb]. cbv zeta.
  rewrite insert_run. unfold on_tasks, insert_row. cbn [task_id].
  rewrite Ht, Hfresh. cbn [fst snd].
  eexists _, _, _. split; [reflexivity|]. split.
  { rewrite getTask2_connected by exact Hdb.
    cbn [fst tables with_tables tasks]. unfold by_task.
    rewrite (find_app_fresh task_id) by (exact Hfresh || reflexivity).
    reflexivity. }
  cbn [task_userId task_workflowId task_status task_result
       task_assignedAgents task_priority].
  repeat (split; [reflexivity|]).
  split; [intros ->; reflexivity|].
  split; [intros p -> Hp; cbn; apply Qeq_bool_iff in Hp; rewrite Hp;
          reflexivity|].
  split.
  { intros p -> Hp. cbn. destruct (Qeq_bool p 0) eqn:Ep; [|reflexivity].
    apply Qeq_bool_iff in Ep. contradiction. }
  split; [exact (listTasks_run w _ None Hav)|].
  split; [|split].
  - rewrite listTasks_run by (apply cached_available2; exact Hdb).
    cbn [tables with_tables tasks truthy_str]. unfold select_where.
    rewrite filter_app. cbn [filter task_userId]. rewrite Z.eqb_refl.
    reflexivity.
  - intros x. apply in_snoc.
  - intros u wf Hu.
    rewrite listTasks_run by (apply cached_available2; exact Hdb).
    rewrite (listTasks_run w u wf Hav).
    cbn [tables with_tables tasks]. unfold select_where.
    rewrite filter_app. cbn [filter task_userId].
    apply not_eq_sym in Hu. apply Z.eqb_neq in Hu. rewrite Hu.
    cbn [andb]. rewrite app_nil_r. reflexivity.
Qed.

Lemma createTask2_then_listTasks_witness :
  let d := mkTaskData 7%Z "workflow-1" None None (Some 0) in
  let out := createTask "a" d (connected empty) in
  exists row l l',
    fst out = Returned (mkCreated "task-a" d)
    /\ fst (getTask "task-a" (snd out)) = Returned (Some row)
    /\ task_userId row = 7%Z
    /\ task_workflowId row = "workflow-1"
    /\ task_status row = "pending"
    /\ task_result row = JObj []
    /\ task_assignedAgents row = []
    /\ (Some 0 = None -> task_priority row = 1)
    /\ (forall p, Some 0 = Some p -> p == 0 -> task_priority row = 1)
    /\ (forall p, Some 0 = Some p -> ~ p == 0 -> task_priority row = p)
    /\ fst (listTasks 7%Z None (connected empty)) = Returned l
    /\ fst (listTasks 7%Z None (snd out)) = Returned l'
    /\ (forall x, In x l' <-> In x l \/ x = row)
    /\ (forall u wf, u <> 7%Z ->
          fst (listTasks u wf (snd out))
          = fst (listTasks u wf (connected empty))).
Proof.
  exact (createTask2_then_listTasks (connected empty) "a"
           (mkTaskData 7%Z "workflow-1" None None (Some 0))
           eq_refl eq_refl).
Defined.

Lemma listTasks_scope_witness :
  let w := snd (createTask "a" testTaskData (connected empty)) in
  exists l,
    fst (listTasks 1%Z (Some "") w) = Returned l
    /\ (forall x,
          In x l <->
          In x (tasks (tables w))
          /\ task_userId x = 1%Z
          /\ (forall s, Some "" = Some s -> s <> "" -> task_workflowId x = s))
    /\ (Some "" = Some "" ->
        fst (listTasks 1%Z (Some "") w) = fst (listTasks 1%Z None w)).
Proof.
  exact (listTasks_scope
           (snd (createTask "a" testTaskData (connected empty)))
           1%Z (Some "") eq_refl).
Defined.

Lemma getWorkflow2_connected (w : Runtime Tables) k :
  _db w = true ->
  getWorkflow k w
  = (Returned (find (by_workflow k) (workflows (tables w))), w).
Proof.
  intros H. unfold getWorkflow, bind, read, ret.
  rewrite (getDb_cached w H). cbn [negb].
  rewrite first_of_select. reflexivity.
Qed.

Lemma listWorkflows2_run (w : Runtime Tables) userId :
  available w ->
  fst (listWorkflows userId w)
  = Returned (select_where (fun x => (workflow_userId x =? userId)%Z)
                           (workflows (tables w))).
Proof.
  intros Hav. destruct (getDb_available w Hav) as (w1 & Eg & Ht & _).
  unfold listWorkflows. rewrite (bind_run _ _ _ _ _ Eg). cbn [negb].
  unfold read. cbn [fst]. rewrite Ht. reflexivity.
Qed.

(** X25. A workflow of one of the five patterns, created in the second
    revision on a reachable database under an unused identifier, is
    found again by
    [getWorkflow] under "workflow-" followed by the generated id, as
    version 1, with the nodes, edges and configuration given, or the
    empty list, the empty list and the empty object where they are
    absent.  [listWorkflows] shows it among its owner's workflows,
    beside the ones there were; the listings of other users are as
    before. *)
Theorem createWorkflow2_then_getWorkflow :
  forall (w : Runtime Tables) nanoid d,
    available w ->
    In (wd_orchestrationPattern d) workflow_patterns ->
    has_key workflow_id ("workflow-" ++ nanoid)%string
            (workflows (tables w)) = false ->
    let out := createWorkflow nanoid d w in
    exists row l l',
      fst (getWorkflow ("workflow-" ++ nanoid)%string (snd out))
      = Returned (Some row)
      /\ workflow_userId row = wd_userId d
      /\ workflow_name row = wd_name d
      /\ workflow_version row = 1%Z
      /\ (wd_nodes d = None -> workflow_nodes row = JArr [])
      /\ (wd_edges d = None -> workflow_edges row = JArr [])
      /\ (wd_configuration d = None -> workflow_configuration row = JObj [])
      /\ (forall l, wd_nodes d = Some (JArr l) -> workflow_nodes row = JArr l)
      /\ (forall l, wd_edges d = Some (JArr l) -> workflow_edges row = JArr l)
      /\ (forall f, wd_configuration d = Some (JObj f) ->
          workflow_configuration row = JObj f)
      /\ fst (listWorkflows (wd_userId d) w) = Returned l
      /\ fst (listWorkflows (wd_userId d) (snd out)) = Returned l'
      /\ (forall x, In x l' <-> In x l \/ x = row)
      /\ (forall u, u <> wd_userId d ->
            fst (listWorkflows u (snd out)) = fst (listWorkflows u w)).
Proof.
  intros w nanoid d Hav _ Hfresh out. subst out.
  destruct (createWorkflow2_run w nanoid d) as (b & w1 & Eg & Ht & Hdb & E).
  pose proof Hav as Hav'. unfold available in Hav.
  rewrite Eg in Hav. cbn in Hav. injection Hav as ->.
  rewrite E, Hfresh. clear E. cbn [snd].
  eexists _, _, _. split.
  { rewrite getWorkflow2_connected by exact Hdb.
    cbn [fst tables with_tables workflows]. unfold by_workflow.
    rewrite (find_app_fresh workflow_id) by (exact Hfresh || reflexivity).
    reflexivity. }
  cbn [workflow_userId workflow_name workflow_version workflow_nodes
       workflow_edges workflow_configuration].
  repeat (split; [reflexivity|]).
  split; [intros ->; reflexivity|].
  split; [intros ->; reflexivity|].
  split; [intros ->; reflexivity|].
  split; [intros l ->; reflexivity|].
  split; [intros l ->; reflexivity|].
  split; [intros f ->; reflexivity|].
  split; [exact (listWorkflows2_run w _ Hav')|].
  assert (Hav2 : forall t, available (with_tables w1 t)).
  { intros t. apply cached_available2. exact Hdb. }
  split; [|split].
  - rewrite listWorkflows2_run by apply Hav2.
    cbn [tables with_tables workflows]. unfold select_where.
    rewrite filter_app. cbn [filter workflow_userId]. rewrite Z.eqb_refl.
    reflexivity.
  - intros x. apply in_snoc.
  - intros u Hu. rewrite listWorkflows2_run by apply Hav2.
    rewrite (listWorkflows2_run w u Hav').
    cbn [tables with_tables workflows]. unfold select_where.
    rewrite filter_app. cbn [filter workflow_userId].
    apply not_eq_sym in Hu. apply Z.eqb_neq in Hu. rewrite Hu.
    rewrite app_nil_r. reflexivity.
Qed.

Lemma createWorkflow2_then_getWorkflow_witness :
  let out := createWorkflow "a" testWorkflowData (connected empty) in
  exists row l l',
    fst (getWorkflow "workflow-a" (snd out)) = Returned (Some row)
    /\ workflow_userId row = 1%Z
    /\ workflow_name row = "Test Workflow"
    /\ workflow_version row = 1%Z
    /\ (wd_nodes testWorkflowData = None -> workflow_nodes row = JArr [])
    /\ (wd_edges testWorkflowData = None -> workflow_edges row = JArr [])
    /\ (wd_configuration testWorkflowData = None ->
        workflow_configuration row = JObj [])
    /\ (forall l, wd_nodes testWorkflowData = Some (JArr l) ->
        workflow_nodes row = JArr l)
    /\ (forall l, wd_edges testWorkflowData = Some (JArr l) ->
        workflow_edges row = JArr l)
    /\ (forall f, wd_configuration testWorkflowData = Some (JObj f) ->
        workflow_configuration row = JObj f)
    /\ fst (listWorkflows 1%Z (connected empty)) = Returned l
    /\ fst (listWorkflows 1%Z (snd out)) = Returned l'
    /\ (forall x, In x l' <-> In x l \/ x = row)
    /\ (forall u, u <> 1%Z ->
          fst (listWorkflows u (snd out))
          = fst (listWorkflows u (connected empty))).
Proof.
  exact (createWorkflow2_then_getWorkflow (connected empty) "a"
           testWorkflowData eq_refl ltac:(cbn; tauto) eq_refl).
Defined.

End Tasks2.

Section Alerts2.
Import Rev2Comm.

Lemma resolveAlert_run (w : Runtime Tables) now k :
  available w ->
  exists w1,
    tables w1 = tables w /\ _db w1 = true
    /\ resolveAlert now k w
       = (Returned tt,
          with_tables w1
            (mkTables (swarmAgents (tables w)) (messages (tables w))
               (update_where (by_alert k) (resolve now) (alerts (tables w))))).
Proof.
  intros Hav. destruct (getDb_available w Hav) as (w1 & Eg & Ht & Hdb).
  exists w1. split; [exact Ht|]. split; [exact Hdb|].
  unfold resolveAlert. rewrite (bind_run _ _ _ _ _ Eg). cbn [negb].
  unfold execute, on_alerts, updating. rewrite Ht. reflexivity.
Qed.

(** X26. [alerts.resolve] reports success whether or not the alert
    exists, and keeps the number of alerts.  The alerts under the id
    given come out resolved, at the time of the call; every other alert
    is exactly as it was, so an alert once resolved stays resolved. *)
Theorem resolveAlert_spec :
  forall (w : Runtime Tables) now k,
    available w ->
    let out := alertsRouter_resolve now k w in
    fst out = Returned (mkSuccess true)
    /\ List.length (alerts (tables (snd out)))
       = List.length (alerts (tables w))
    /\ (forall a,
          In a (alerts (tables w)) ->
          exists a',
            In a' (alerts (tables (snd out)))
            /\ alert_id a' = alert_id a
            /\ alert_title a' = alert_title a
            /\ alert_alertType a' = alert_alertType a
            /\ alert_severity a' = alert_severity a
            /\ (alert_id a = k ->
                alert_resolved a' = true /\ alert_resolvedAt a' = Some now)
            /\ (alert_id a <> k -> a' = a)
            /\ (alert_resolved a = true -> alert_resolved a' = true))
    /\ (forall a',
          In a' (alerts (tables (snd out))) ->
          alert_resolved a' = true ->
          alert_id a' = k
          \/ (In a' (alerts (tables w)) /\ alert_resolved a' = true)).
Proof.
  intros w now k Hav out. subst out. unfold alertsRouter_resolve.
  destruct (resolveAlert_run w now k Hav) as (w1 & _ & _ & E).
  rewrite (bind_run _ _ _ _ _ E). cbn [ret fst snd tables with_tables alerts].
  split; [reflexivity|]. split; [apply length_map|]. split.
  - intros a Hin.
    exists (if by_alert k a then resolve now a else a).
    split; [unfold update_where; apply in_map_iff; exists a; auto|].
    unfold by_alert. destruct (alert_id a =? k)%string eqn:Ek.
    + apply String.eqb_eq in Ek. cbn. repeat split; try reflexivity.
      intros Hne. contradiction.
    + apply String.eqb_neq in Ek.
      repeat split; try reflexivity; auto; contradiction.
  - intros a' Hin Hres. unfold update_where in Hin.
    apply in_map_iff in Hin. destruct Hin as (a & Ha & Hin).
    unfold by_alert in Ha. destruct (alert_id a =? k)%string eqn:Ek.
    + left. subst a'. cbn. apply String.eqb_eq. exact Ek.
    + right. subst a'. auto.
Qed.

Lemma createAlert2_run (w : Runtime Tables) nanoid d :
  available w ->
  has_key alert_id ("alert-" ++ nanoid)%string (alerts (tables w)) = false ->
  exists w1,
    _db w1 = true
    /\ createAlert nanoid d w
       = (Returned (mkCreated ("alert-" ++ nanoid)%string d),
          with_tables w1
            (mkTables (swarmAgents (tables w)) (messages (tables w))
               (alerts (tables w)
                ++ [mkAlert ("alert-" ++ nanoid)%string (al_userId d)
                      (al_alertType d) (str_or (al_severity d) "info")
                      (al_title d) (str_or (al_message d) "")
                      (al_relatedAgentId d) (al_relatedTaskId d)
                      false None]))).
Proof.
  intros Hav Hfresh. destruct (getDb_available w Hav) as (w1 & Eg & Ht & Hdb).
  exists w1. split; [exact Hdb|].
  unfold createAlert. rewrite (bind_run _ _ _ _ _ Eg). cbn [negb]. cbv zeta.
  rewrite insert_run. unfold on_alerts, insert_row. cbn [alert_id].
  rewrite Ht, Hfresh. reflexivity.
Qed.

(** X27. An alert created in the second revision (a type of the
    column, a severity of the column or none, reachable database,
    unused identifier) is stored unresolved under "alert-" followed by
    the generated id, for the user, with the type, title and related
    ids given, and with severity "info" and an empty message where
    these are absent or empty; resolving it under that id marks it
    resolved at the time of the call and leaves every other column of
    it as it was. *)
Theorem createAlert2_then_resolve :
  forall (w : Runtime Tables) nanoid d now,
    available w ->
    In (al_alertType d) alert_types ->
    (forall s, al_severity d = Some s -> s = "" \/ In s severities) ->
    has_key alert_id ("alert-" ++ nanoid)%string (alerts (tables w)) = false ->
    let id := ("alert-" ++ nanoid)%string in
    let w1 := snd (createAlert nanoid d w) in
    let w2 := snd (alertsRouter_resolve now id w1) in
    exists a a',
      find (by_alert id) (alerts (tables w1)) = Some a
      /\ alert_id a = id
      /\ alert_resolved a = false
      /\ alert_resolvedAt a = None
      /\ alert_userId a = al_userId d
      /\ alert_alertType a = al_alertType d
      /\ alert_title a = al_title d
      /\ alert_relatedAgentId a = al_relatedAgentId d
      /\ alert_relatedTaskId a = al_relatedTaskId d
      /\ (al_severity d = None \/ al_severity d = Some "" ->
          alert_severity a = "info")
      /\ (forall s, al_severity d = Some s -> s <> "" -> alert_severity a = s)
      /\ (al_message d = None -> alert_message a = "")
      /\ (forall m, al_message d = Some m -> alert_message a = m)
      /\ find (by_alert id) (alerts (tables w2)) = Some a'
      /\ alert_resolved a' = true
      /\ alert_resolvedAt a' = Some now
      /\ alert_id a' = alert_id a
      /\ alert_userId a' = alert_userId a
      /\ alert_alertType a' = alert_alertType a
      /\ alert_severity a' = alert_severity a
      /\ alert_title a' = alert_title a
      /\ alert_message a' = alert_message a
      /\ alert_relatedAgentId a' = alert_relatedAgentId a
      /\ alert_relatedTaskId a' = alert_relatedTaskId a.
Proof.
  intros w nanoid d now Hav _ _ Hfresh id w1 w2.
  destruct (createAlert2_run w nanoid d Hav Hfresh) as (w1' & Hdb & E).
  assert (E1 : w1 = with_tables w1'
            (mkTables (swarmAgents (tables w)) (messages (tables w))
               (alerts (tables w)
                ++ [mkAlert id (al_userId d)
                      (al_alertType d) (str_or (al_severity d) "info")
                      (al_title d) (str_or (al_message d) "")
                      (al_relatedAgentId d) (al_relatedTaskId d)
                      false None]))).
  { subst w1. rewrite E. reflexivity. }
  assert (Hav1 : available w1).
  { rewrite E1. unfold available. rewrite getDb_cached by exact Hdb.
    reflexivity. }
  eexists _, _. split.
  { rewrite E1. cbn [tables with_tables alerts]. unfold by_alert.
    apply (find_app_fresh alert_id); [exact Hfresh | reflexivity]. }
  cbn [alert_id alert_resolved alert_resolvedAt alert_userId alert_alertType
       alert_title alert_severity alert_message alert_relatedAgentId
       alert_relatedTaskId].
  do 8 (split; [reflexivity|]).
  split; [intros [-> | ->]; reflexivity|].
  split.
  { intros s -> Hs. cbn. apply String.eqb_neq in Hs. rewrite Hs.
    reflexivity. }
  split; [intros ->; reflexivity|].
  split.
  { intros m ->. cbn. destruct (m =? "")%string eqn:Em; [|reflexivity].
    apply String.eqb_eq in Em. congruence. }
  split.
  { subst w2. unfold alertsRouter_resolve.
    destruct (resolveAlert_run w1 now id Hav1) as (w2' & _ & _ & E2).
    rewrite (bind_run _ _ _ _ _ E2). cbn [ret snd tables with_tables alerts].
    rewrite find_update_where by reflexivity.
    rewrite E1. cbn [tables with_tables alerts]. unfold by_alert.
    rewrite (find_app_fresh alert_id) by (exact Hfresh || reflexivity).
    reflexivity. }
  cbn. repeat split.
Qed.

Lemma createAlert2_then_resolve_witness :
  let d :=
    mkAlertData 1%Z "task_timeout" (Some "") "Task Timeout" None None
      (Some "task-1") in
  let w1 := snd (createAlert "a" d (connected empty)) in
  let w2 := snd (alertsRouter_resolve 5%Z "alert-a" w1) in
  exists a a',
    find (by_alert "alert-a") (alerts (tables w1)) = Some a
    /\ alert_resolved a = false
    /\ alert_severity a = "info"
    /\ alert_message a = ""
    /\ find (by_alert "alert-a") (alerts (tables w2)) = Some a'
    /\ a' = mkAlert "alert-a" 1%Z "task_timeout" "info" "Task Timeout" ""
              None (Some "task-1") true (Some 5%Z).
Proof.
  destruct (createAlert2_then_resolve (connected empty) "a"
              (mkAlertData 1%Z "task_timeout" (Some "") "Task Timeout" None
                 None (Some "task-1"))
              5%Z eq_refl ltac:(cbn; tauto)
              ltac:(intros s [= <-]; left; reflexivity) eq_refl)
    as (a & a' & Hfind & _ & Hres & _ & _ & _ & _ & _ & _ & Hsev & _ & Hmsg
        & _ & Hfind2 & _).
  exists a, a'. split; [exact Hfind|]. split; [exact Hres|].
  split; [apply Hsev; right; reflexivity|].
  split; [apply Hmsg; reflexivity|]. split; [exact Hfind2|].
  cbv in Hfind2. injection Hfind2 as <-. reflexivity.
Defined.

Lemma resolveAlert_spec_witness :
  let w :=
    snd (createAlert "a"
           (mkAlertData 1%Z "task_timeout" None "Task Timeout" None None None)
           (connected empty)) in
  let out := alertsRouter_resolve 5%Z "alert-zzz" w in
  fst out = Returned (mkSuccess true)
  /\ List.length (alerts (tables (snd out))) = 1%nat.
Proof.
  exact (conj
           (proj1 (resolveAlert_spec
                     (snd (createAlert "a"
                             (mkAlertData 1%Z "task_timeout" None
                                "Task Timeout" None None None)
                             (connected empty)))
                     5%Z "alert-zzz" eq_refl))
           (proj1 (proj2 (resolveAlert_spec
                     (snd (createAlert "a"
                             (mkAlertData 1%Z "task_timeout" None
                                "Task Timeout" None None None)
                             (connected empty)))
                     5%Z "alert-zzz" eq_refl)))).
Defined.

Lemma getDb_stays_null {T} (w w1 : Runtime T) :
  getDb w = (Returned false, w1) -> fst (getDb w1) = Returned false.
Proof.
  unfold getDb.
  destruct (negb (_db w) && truthy_str (DATABASE_URL w)) eqn:E.
  - destruct (drizzle_throws w) eqn:Ed; cbn; [|discriminate].
    intros H. injection H as <-. cbn.
    apply andb_prop in E. destruct E as [_ Eurl]. rewrite Eurl, Ed.
    reflexivity.
  - unfold ret. intros H. injection H as Hdb <-.
    rewrite E, Hdb. reflexivity.
Qed.

(** X28. When [messages.send] returns, the message has been added to
    the table for the caller, and its sender is "system" if no agent
    belongs to the caller, and otherwise the id of one of the caller's
    agents; the recipient, task and type are the ones given. *)
Theorem send_picks_the_sender :
  forall (w w' : Runtime Tables) nanoid userId input r,
    messageRouter_send nanoid userId input w = (Returned r, w') ->
    (exists m,
        messages (tables w') = messages (tables w) ++ [m]
        /\ message_id m = id r
        /\ message_userId m = userId
        /\ message_senderId m = md_senderId (data r)
        /\ message_taskId m = si_taskId input
        /\ message_recipientId m = si_recipientId input
        /\ message_messageType m = si_messageType input)
    /\ ((forall a, In a (swarmAgents (tables w)) -> agent_userId a <> userId) ->
        md_senderId (data r) = "system")
    /\ ((exists a, In a (swarmAgents (tables w)) /\ agent_userId a = userId) ->
        exists a,
          In a (swarmAgents (tables w)) /\ agent_userId a = userId
          /\ md_senderId (data r) = agent_id a).
Proof.
  intros w w' nanoid userId input r. unfold messageRouter_send.
  destruct (getDb_returns w) as (b & w1 & Eg & Ht & Hdb).
  assert (El : listAgents userId w
               = (Returned (if b then select_where
                                        (fun a => (agent_userId a =? userId)%Z)
                                        (swarmAgents (tables w))
                            else []), w1)).
  { unfold listAgents. rewrite (bind_run _ _ _ _ _ Eg).
    destruct b; cbn [negb]; [|reflexivity].
    unfold read. rewrite Ht. reflexivity. }
  rewrite (bind_run _ _ _ _ _ El). cbv zeta. unfold createMessage.
  destruct b.
  - rewrite (bind_run _ _ _ _ _ (getDb_cached w1 Hdb)). cbn [negb].
    rewrite insert_run. unfold on_messages, insert_row.
    destruct (has_key message_id _ _); [discriminate|].
    intros H. injection H as <- <-.
    cbn [tables with_tables messages id data md_senderId].
    rewrite Ht. split; [eexists; split; [reflexivity|]; cbn; repeat split|].
    set (mine := select_where (fun a => (agent_userId a =? userId)%Z)
                              (swarmAgents (tables w))).
    split.
    + intros Hnone. destruct mine as [|a rest] eqn:Em; [reflexivity|].
      assert (Hin : In a mine) by (rewrite Em; left; reflexivity).
      unfold mine, select_where in Hin. apply filter_In in Hin.
      destruct Hin as [Hin Hu]. apply Z.eqb_eq in Hu.
      exfalso. exact (Hnone a Hin Hu).
    + intros (a0 & Hin0 & Hu0).
      destruct mine as [|a rest] eqn:Em.
      * assert (Hin : In a0 mine).
        { unfold mine, select_where. apply filter_In. split; [exact Hin0|].
          apply Z.eqb_eq. exact Hu0. }
        rewrite Em in Hin. contradiction.
      * assert (Hin : In a mine) by (rewrite Em; left; reflexivity).
        unfold mine, select_where in Hin. apply filter_In in Hin.
        destruct Hin as [Hin Hu]. apply Z.eqb_eq in Hu.
        exists a. auto.
  - destruct (getDb_returns w1) as (b2 & w2 & Eg2 & _ & _).
    pose proof (getDb_stays_null w w1 Eg) as Hnull.
    rewrite Eg2 in Hnull. cbn in Hnull. injection Hnull as ->.
    rewrite (bind_run _ _ _ _ _ Eg2). cbn [negb]. discriminate.
Qed.

Lemma send_picks_the_sender_witness :
  let w := connected (mkTables [mkAgent "agent-9" 2%Z "Other"] [] []) in
  let input := mkSendInput "task-1" None "request" None None in
  exists m,
    messages (tables (snd (messageRouter_send "a" 1%Z input w)))
    = messages (tables w) ++ [m]
    /\ message_id m = "msg-a"
    /\ message_userId m = 1%Z
    /\ message_senderId m = "system".
Proof.
  destruct (send_picks_the_sender
              (connected (mkTables [mkAgent "agent-9" 2%Z "Other"] [] []))
              _ "a" 1%Z (mkSendInput "task-1" None "request" None None) _
              eq_refl)
    as ((m & Hm & Hid & Hu & Hs & _) & Hsys & _).
  exists m. split; [exact Hm|]. split; [exact Hid|]. split; [exact Hu|].
  rewrite Hs. apply Hsys. intros a [<- | []]. discriminate.
Defined.

End Alerts2.
